(** * MaidSafe-Routing: the node core of [routing_impl.cc]

    A shallow embedding of [Routing::Impl] (src/maidsafe/routing/routing_impl.cc):
    join and bootstrap, the find-closest-node setup loop, the recovery loop,
    connection loss, re-bootstrap and [Send].

    The node is one value of type [Impl]; every member function is a function
    from [Impl] to [Impl].  Calls on collaborators whose answer does not steer
    the node (the transport, the host's functors, the message handler) are
    appended to the [trace_] of the state.  Lambdas handed to the transport, to
    the io service and to the three deadline timers are first-order values
    ([SentFunctor], [Task], [WaitHandler]) interpreted by [message_sent],
    [run_task] and [wake].  The [running_mutex_] only serialises accesses and
    has no counterpart: every function below runs to completion.
    [ZeroStateJoin] and [ConfirmGroupMembers] are not part of the model. *)

From Stdlib Require Import ZArith List Bool Lia.
From Stdlib Require String.
Import ListNotations.
Local Open Scope Z_scope.

(** ** Identifiers *)

(** [NodeId]: a 512-bit address, read as an unsigned integer. *)
Definition NodeId := Z.

(** [NodeId::IsZero]. *)
Definition IsZero (id : NodeId) : bool := id =? 0.

(** The default-constructed [NodeId()]. *)
Definition ZeroId : NodeId := 0.

(** [NodeInfo], with the two members [routing_impl.cc] reads. *)
Record NodeInfo := mkNodeInfo {
  node_id : NodeId;
  connection_id : NodeId
}.

(** The default-constructed [NodeInfo()]. *)
Definition NoNode : NodeInfo := mkNodeInfo ZeroId ZeroId.

Definition Endpoint := Z.

(** Identity of a host-supplied [std::function]; an empty function is [None]. *)
Definition Callback := nat.

(** [boost::system::error_code] as a timer completion reports it. *)
Inductive error_code :=
| success
| operation_aborted
| other_error (n : Z).

Definition is_aborted (ec : error_code) : bool :=
  match ec with operation_aborted => true | _ => false end.

(** ** Parameters and return codes *)

(** The members of [Parameters] (parameters.h) that [routing_impl.cc] reads.
    Durations are in milliseconds. *)
Record Parameters := mkParameters {
  max_data_size : Z;
  hops_to_live : Z;
  node_group_size : Z;
  closest_nodes_size : Z;
  max_routing_table_size : Z;
  routing_table_size_threshold : Z;
  find_node_interval : Z;
  find_close_node_interval : Z;
  recovery_time_lag : Z;
  re_bootstrap_time_lag : Z;
  maximum_find_close_node_failures : Z
}.

(** Modelled from the spec: parameters.h is not among the sources; these are
    the defaults of the spec's parameter list (MaxRTSize = 64, CloseGroupSize
    = 8 for both group sizes, RoutingTableSizeThreshold = MaxRTSize * 3/4,
    FindCloseNodeInterval = 5 s, FindNodeInterval = 60 s, RecoveryTimeLag =
    1 s, ReBootstrapTimeLag = 10 s, MaxFindCloseNodeFailures = 3, HopsToLive =
    50, MaxDataSize = 1 MiB). *)
Definition default_parameters : Parameters :=
  {| max_data_size := 1048576;
     hops_to_live := 50;
     node_group_size := 8;
     closest_nodes_size := 8;
     max_routing_table_size := 64;
     routing_table_size_threshold := 48;
     find_node_interval := 60000;
     find_close_node_interval := 5000;
     recovery_time_lag := 1000;
     re_bootstrap_time_lag := 10000;
     maximum_find_close_node_failures := 3 |}.

(** Modelled from the spec: return_codes.h is not among the sources; the spec
    fixes [Success (0)]. *)
Definition kSuccess : Z := 0.

(** The other return codes [routing_impl.cc] names. *)
Record ReturnCodes := mkReturnCodes {
  kNetworkShuttingDown : Z;
  kNotJoined : Z;
  kAnonymousSessionEnded : Z;
  kPartialJoinSessionEnded : Z
}.

(** Modelled from the spec: return_codes.h is not among the sources; the spec
    says only that the current table size is reported as a positive number,
    so the named codes are distinct negative numbers here. *)
Definition default_return_codes : ReturnCodes :=
  {| kNetworkShuttingDown := -1;
     kNotJoined := -2;
     kAnonymousSessionEnded := -3;
     kPartialJoinSessionEnded := -4 |}.

(** ** Routing table *)

Module RoutingTable.

(** Modelled from the spec: routing_table.h/.cc are not among the sources.
    The table is the list of its peers; only the queries and the one
    mutation that [routing_impl.cc] calls are modelled.  The notifications
    the table itself fires on a mutation are outside this model. *)
Definition t := list NodeInfo.

(** Modelled from the spec: [Size()], the number of entries. *)
Definition Size (rt : t) : Z := Z.of_nat (length rt).

(** Distance d(x,y) = x XOR y, compared as an unsigned integer. *)
Definition distance (x y : NodeId) : Z := Z.lxor x y.

(** [a] is closer to [target] than [b]; equal distances are broken towards
    the smaller address. *)
Definition closer (target : NodeId) (a b : NodeInfo) : bool :=
  (distance (node_id a) target <? distance (node_id b) target)
  || ((distance (node_id a) target =? distance (node_id b) target)
      && (node_id a <? node_id b)).

(** Modelled from the spec: [closest_node(target) -> Option<Peer>], the entry
    minimising the distance to [target]. *)
Fixpoint closest_node (target : NodeId) (rt : t) : option NodeInfo :=
  match rt with
  | [] => None
  | p :: rest =>
      match closest_node target rest with
      | None => Some p
      | Some q => if closer target q p then Some q else Some p
      end
  end.

(** [GetClosestNode(target)] returns a [NodeInfo] by value: the default one
    when the table is empty. *)
Definition GetClosestNode (target : NodeId) (rt : t) : NodeInfo :=
  match closest_node target rt with
  | Some p => p
  | None => NoNode
  end.

(** The entry is named by [key], which may be its address or its connection
    id. *)
Definition has_key (key : NodeId) (p : NodeInfo) : bool :=
  (node_id p =? key) || (connection_id p =? key).

(** Modelled from the spec: [drop(address_or_connection_id) -> Option<Peer>]
    removes by either key and returns the dropped entry or none.  As
    [DropNode] it returns the entry by value (the default one for none)
    together with the table that is left. *)
Fixpoint DropNode (key : NodeId) (rt : t) : NodeInfo * t :=
  match rt with
  | [] => (NoNode, [])
  | p :: rest =>
      if has_key key p then (p, rest)
      else let '(d, rest') := DropNode key rest in (d, p :: rest')
  end.

(** Modelled from the spec: [GetNodeInfo(id, out peer)]; the spec lists no
    lookup, so the entry is found by the keys [drop] uses. *)
Definition GetNodeInfo (key : NodeId) (rt : t) : option NodeInfo :=
  find (has_key key) rt.

(** Modelled from the spec: [is_in_range(target, n)] is true iff fewer than
    [n] entries lie strictly closer to [target] than [self] does. *)
Definition IsThisNodeInRange (self target : NodeId) (n : Z) (rt : t) : bool :=
  Z.of_nat (length (filter (fun p => distance (node_id p) target <? distance self target) rt))
  <? n.

End RoutingTable.

(** Modelled from the spec: non_routing_table.h is not among the sources;
    [DropConnection(connection_id)] removes the client entry attached through
    that connection and returns it, or the default [NodeInfo]. *)
Fixpoint DropConnection (conn : NodeId) (nrt : list NodeInfo) : NodeInfo * list NodeInfo :=
  match nrt with
  | [] => (NoNode, [])
  | p :: rest =>
      if connection_id p =? conn then (p, rest)
      else let '(d, rest') := DropConnection conn rest in (d, p :: rest')
  end.

(** ** Envelopes *)

(** [MessageType] (message_handler.h, not among the sources): the one tag
    [Send] uses, and the tags of the routing rpcs. *)
Inductive MessageType :=
| kNodeLevel
| kRoutingRpc (tag : Z).

(** [protobuf::Message] with the fields [Send] writes.  An optional field of
    the message that has not been set is [None]. *)
Record Message := mkMessage {
  destination_id : option NodeId;
  routing_message : option bool;
  data : list String.string;
  type : option MessageType;
  cacheable : option bool;
  direct : option bool;
  client_node : option bool;
  request : option bool;
  msg_hops_to_live : option Z;
  group_claim : option NodeId;
  id : option Z;
  replication : option Z;
  relay_id : option NodeId;
  relay_connection_id : option NodeId;
  source_id : option NodeId
}.

(** The default-constructed [protobuf::Message]. *)
Definition empty_message : Message :=
  mkMessage None None [] None None None None None None None None None None None None.


(** [proto_message.id()]: the accessor of an unset numeric field gives 0. *)
Definition id_or_default (m : Message) : Z :=
  match id m with Some i => i | None => 0 end.

(** The setters of [protobuf::Message] that [Send] calls. *)
Definition set_destination_id (v : NodeId) (m : Message) : Message :=
  {| destination_id := Some v; routing_message := routing_message m; data := data m;
     type := type m; cacheable := cacheable m; direct := direct m;
     client_node := client_node m; request := request m;
     msg_hops_to_live := msg_hops_to_live m; group_claim := group_claim m; id := id m;
     replication := replication m; relay_id := relay_id m;
     relay_connection_id := relay_connection_id m; source_id := source_id m |}.

Definition set_routing_message (v : bool) (m : Message) : Message :=
  {| destination_id := destination_id m; routing_message := Some v; data := data m;
     type := type m; cacheable := cacheable m; direct := direct m;
     client_node := client_node m; request := request m;
     msg_hops_to_live := msg_hops_to_live m; group_claim := group_claim m; id := id m;
     replication := replication m; relay_id := relay_id m;
     relay_connection_id := relay_connection_id m; source_id := source_id m |}.

Definition add_data (v : String.string) (m : Message) : Message :=
  {| destination_id := destination_id m; routing_message := routing_message m;
     data := data m ++ [v]; type := type m; cacheable := cacheable m; direct := direct m;
     client_node := client_node m; request := request m;
     msg_hops_to_live := msg_hops_to_live m; group_claim := group_claim m; id := id m;
     replication := replication m; relay_id := relay_id m;
     relay_connection_id := relay_connection_id m; source_id := source_id m |}.

Definition set_type (v : MessageType) (m : Message) : Message :=
  {| destination_id := destination_id m; routing_message := routing_message m;
     data := data m; type := Some v; cacheable := cacheable m; direct := direct m;
     client_node := client_node m; request := request m;
     msg_hops_to_live := msg_hops_to_live m; group_claim := group_claim m; id := id m;
     replication := replication m; relay_id := relay_id m;
     relay_connection_id := relay_connection_id m; source_id := source_id m |}.

Definition set_cacheable (v : bool) (m : Message) : Message :=
  {| destination_id := destination_id m; routing_message := routing_message m;
     data := data m; type := type m; cacheable := Some v; direct := direct m;
     client_node := client_node m; request := request m;
     msg_hops_to_live := msg_hops_to_live m; group_claim := group_claim m; id := id m;
     replication := replication m; relay_id := relay_id m;
     relay_connection_id := relay_connection_id m; source_id := source_id m |}.

Definition set_direct (v : bool) (m : Message) : Message :=
  {| destination_id := destination_id m; routing_message := routing_message m;
     data := data m; type := type m; cacheable := cacheable m; direct := Some v;
     client_node := client_node m; request := request m;
     msg_hops_to_live := msg_hops_to_live m; group_claim := group_claim m; id := id m;
     replication := replication m; relay_id := relay_id m;
     relay_connection_id := relay_connection_id m; source_id := source_id m |}.

Definition set_client_node (v : bool) (m : Message) : Message :=
  {| destination_id := destination_id m; routing_message := routing_message m;
     data := data m; type := type m; cacheable := cacheable m; direct := direct m;
     client_node := Some v; request := request m; msg_hops_to_live := msg_hops_to_live m;
     group_claim := group_claim m; id := id m; replication := replication m;
     relay_id := relay_id m; relay_connection_id := relay_connection_id m;
     source_id := source_id m |}.

Definition set_request (v : bool) (m : Message) : Message :=
  {| destination_id := destination_id m; routing_message := routing_message m;
     data := data m; type := type m; cacheable := cacheable m; direct := direct m;
     client_node := client_node m; request := Some v;
     msg_hops_to_live := msg_hops_to_live m; group_claim := group_claim m; id := id m;
     replication := replication m; relay_id := relay_id m;
     relay_connection_id := relay_connection_id m; source_id := source_id m |}.

Definition set_hops_to_live (v : Z) (m : Message) : Message :=
  {| destination_id := destination_id m; routing_message := routing_message m;
     data := data m; type := type m; cacheable := cacheable m; direct := direct m;
     client_node := client_node m; request := request m; msg_hops_to_live := Some v;
     group_claim := group_claim m; id := id m; replication := replication m;
     relay_id := relay_id m; relay_connection_id := relay_connection_id m;
     source_id := source_id m |}.

Definition set_group_claim (v : NodeId) (m : Message) : Message :=
  {| destination_id := destination_id m; routing_message := routing_message m;
     data := data m; type := type m; cacheable := cacheable m; direct := direct m;
     client_node := client_node m; request := request m;
     msg_hops_to_live := msg_hops_to_live m; group_claim := Some v; id := id m;
     replication := replication m; relay_id := relay_id m;
     relay_connection_id := relay_connection_id m; source_id := source_id m |}.

Definition set_id (v : Z) (m : Message) : Message :=
  {| destination_id := destination_id m; routing_message := routing_message m;
     data := data m; type := type m; cacheable := cacheable m; direct := direct m;
     client_node := client_node m; request := request m;
     msg_hops_to_live := msg_hops_to_live m; group_claim := group_claim m; id := Some v;
     replication := replication m; relay_id := relay_id m;
     relay_connection_id := relay_connection_id m; source_id := source_id m |}.

Definition set_replication (v : Z) (m : Message) : Message :=
  {| destination_id := destination_id m; routing_message := routing_message m;
     data := data m; type := type m; cacheable := cacheable m; direct := direct m;
     client_node := client_node m; request := request m;
     msg_hops_to_live := msg_hops_to_live m; group_claim := group_claim m; id := id m;
     replication := Some v; relay_id := relay_id m;
     relay_connection_id := relay_connection_id m; source_id := source_id m |}.

Definition set_relay_id (v : NodeId) (m : Message) : Message :=
  {| destination_id := destination_id m; routing_message := routing_message m;
     data := data m; type := type m; cacheable := cacheable m; direct := direct m;
     client_node := client_node m; request := request m;
     msg_hops_to_live := msg_hops_to_live m; group_claim := group_claim m; id := id m;
     replication := replication m; relay_id := Some v;
     relay_connection_id := relay_connection_id m; source_id := source_id m |}.

Definition set_relay_connection_id (v : NodeId) (m : Message) : Message :=
  {| destination_id := destination_id m; routing_message := routing_message m;
     data := data m; type := type m; cacheable := cacheable m; direct := direct m;
     client_node := client_node m; request := request m;
     msg_hops_to_live := msg_hops_to_live m; group_claim := group_claim m; id := id m;
     replication := replication m; relay_id := relay_id m; relay_connection_id := Some v;
     source_id := source_id m |}.

Definition set_source_id (v : NodeId) (m : Message) : Message :=
  {| destination_id := destination_id m; routing_message := routing_message m;
     data := data m; type := type m; cacheable := cacheable m; direct := direct m;
     client_node := client_node m; request := request m;
     msg_hops_to_live := msg_hops_to_live m; group_claim := group_claim m; id := id m;
     replication := replication m; relay_id := relay_id m;
     relay_connection_id := relay_connection_id m; source_id := Some v |}.

(** What is handed to the transport: a node-level message built by [Send], or
    the result of [rpcs::FindNodes(node_id, destination, num_nodes_requested,
    relay_message, relay_connection_id)], kept as its arguments since rpcs.h is
    not among the sources (the last two default to [false] and [NodeId()]). *)
Inductive Envelope :=
| NodeLevel (m : Message)
| FindNodes (self destination : NodeId) (num_nodes_requested : Z)
            (relay_message : bool) (relay_connection : NodeId).

(** Bytes received from the transport: either they parse to a message or
    [ParseFromString] fails. *)
Inductive Wire :=
| Serialised (m : Message)
| Malformed.

Definition SerializeAsString (m : Message) : Wire := Serialised m.

Definition ParseFromString (w : Wire) : option Message :=
  match w with Serialised m => Some m | Malformed => None end.

(** ** Closures *)

(** The [rudp::MessageSentFunctor]s built in this file. *)
Inductive SentFunctor :=
| LogFindNodesSent                (* FindClosestNode, lines 210-220: logs only *)
| RelaySendResult (m : Message).  (* Send, lines 365-381: captures proto_message *)

(** The completion handlers given to [async_wait]. *)
Inductive WaitHandler :=
| WakeRecovery (ignore_size : bool)
    (* lines 191-194, 302-305 (false) and 497-500, 528-531 (true) *)
| WakeRecoveryAgain (error_code_captured : error_code)
    (* lines 574-577: tests the captured [error_code] of the enclosing call *)
| WakeSetup (attempts : Z)
    (* lines 229-232 *)
| WakeReBootstrap.
    (* lines 586-589 *)

(** The tasks posted to [asio_service_]. *)
Inductive Task :=
| RunDoOnMessageReceived (w : Wire)           (* line 403 *)
| RunDoOnConnectionLost (lost : NodeId)       (* line 431 *)
| RunSendResult (m : Message) (result : Z)    (* lines 367-380 *)
| Completion (h : WaitHandler) (ec : error_code).
    (* a timer's handler, queued by the timer itself *)

(** ** Calls on collaborators *)

Inductive Event :=
| EvResponse (f : Callback) (responses : list String.string)
    (* response_functor(responses) *)
| EvNetworkStatus (f : Callback) (code : Z)
    (* functors_.network_status(code) *)
| EvSendToDirect (e : Envelope) (peer : NodeId) (sent : SentFunctor)
    (* network_.SendToDirect *)
| EvSendToClosestNode (e : Envelope)
    (* network_.SendToClosestNode *)
| EvRemove (conn : NodeId)
    (* network_.Remove *)
| EvBootstrap (endpoints : list Endpoint)
    (* network_.Bootstrap *)
| EvRandomNodeAdd (n : NodeId)
| EvRandomNodeRemove (n : NodeId)
    (* random_node_helper_ *)
| EvHandleMessage (m : Message).
    (* message_handler_->HandleMessage *)

(** The envelopes a trace hands to the transport. *)
Definition envelope_of (e : Event) : list Envelope :=
  match e with
  | EvSendToDirect env _ _ => [env]
  | EvSendToClosestNode env => [env]
  | _ => []
  end.

Definition envelopes (tr : list Event) : list Envelope := flat_map envelope_of tr.

(** The response callbacks a trace invokes, with their arguments. *)
Definition response_of (e : Event) : list (Callback * list String.string) :=
  match e with
  | EvResponse f r => [(f, r)]
  | _ => []
  end.

Definition responses (tr : list Event) : list (Callback * list String.string) :=
  flat_map response_of tr.

(** ** Functors *)

Record Functors := mkFunctors {
  message_received : option Callback;
  network_status : option Callback;
  close_node_replaced : option Callback;
  request_public_key : option Callback;
  new_bootstrap_endpoint : option Callback
}.

(** [Functors()]. *)
Definition no_functors : Functors := mkFunctors None None None None None.

(** ** Pending responses *)

Module Timer.

(** Modelled from the spec: timer.h is not among the sources.  The pending
    table maps a message id to (callback, remaining responses, deadline). *)
Record PendingTask := mkTask {
  task_id : Z;
  task_functor : Callback;
  task_remaining : Z;
  task_deadline : Z
}.

Record t := mkTimer {
  next_id : Z;
  tasks : list PendingTask
}.

(** Modelled from the spec: [add_task(timeout, callback, expected_responses)
    -> message_id] registers (message_id, callback, remaining = expected,
    deadline = now + timeout); ids come from a counter of 32 bits. *)
Definition AddTask (now timeout : Z) (f : Callback) (expected : Z) (tm : t) : Z * t :=
  (next_id tm,
   {| next_id := (next_id tm + 1) mod 2 ^ 32;
      tasks := tasks tm ++ [mkTask (next_id tm) f expected (now + timeout)] |}).

(** Modelled from the spec: [cancel_task(message_id)] destroys the pending
    entry. *)
Definition CancelTask (i : Z) (tm : t) : t :=
  {| next_id := next_id tm;
     tasks := filter (fun k => negb (task_id k =? i)) (tasks tm) |}.

End Timer.

(** A [boost::asio::deadline_timer]: its absolute expiry and the handler of
    the pending [async_wait], if any.  Every [async_wait] in this file follows
    an [expires_from_now] or a [cancel], which complete the pending wait, so a
    timer never has two waiters. *)
Record DeadlineTimer := mkDeadlineTimer {
  expiry : Z;
  waiter : option WaitHandler
}.

Inductive TimerName :=
| re_bootstrap_timer
| recovery_timer
| setup_timer.

(** ** The node *)

Record Impl := mkImpl {
  kNodeId_ : NodeId  (* this node's id *);
  kAnonymousNode_ : bool  (* no initialised identity was given *);
  client_mode : bool  (* routing_table_.client_mode() *);
  running_ : bool  (* cleared by the destructor *);
  functors_ : Functors  (* set by ConnectFunctors *);
  routing_table_ : RoutingTable.t;
  non_routing_table_ : list NodeInfo;
  bootstrap_connection_id : NodeId  (* network_.bootstrap_connection_id() *);
  this_node_relay_connection_id : NodeId  (* network_.this_node_relay_connection_id() *);
  timer_ : Timer.t  (* pending responses *);
  re_bootstrap_timer_ : DeadlineTimer;
  recovery_timer_ : DeadlineTimer;
  setup_timer_ : DeadlineTimer;
  now_ : Z  (* the clock the timers read, in milliseconds *);
  posted_ : list Task  (* tasks queued on asio_service_, oldest first *);
  trace_ : list Event  (* calls made on collaborators, oldest first *)
}.

(** Field updates. *)
Definition set_functors (v : Functors) (st : Impl) : Impl :=
  {| kNodeId_ := kNodeId_ st; kAnonymousNode_ := kAnonymousNode_ st;
     client_mode := client_mode st; running_ := running_ st; functors_ := v;
     routing_table_ := routing_table_ st; non_routing_table_ := non_routing_table_ st;
     bootstrap_connection_id := bootstrap_connection_id st;
     this_node_relay_connection_id := this_node_relay_connection_id st; timer_ := timer_ st;
     re_bootstrap_timer_ := re_bootstrap_timer_ st; recovery_timer_ := recovery_timer_ st;
     setup_timer_ := setup_timer_ st; now_ := now_ st; posted_ := posted_ st;
     trace_ := trace_ st |}.

Definition set_routing_table (v : RoutingTable.t) (st : Impl) : Impl :=
  {| kNodeId_ := kNodeId_ st; kAnonymousNode_ := kAnonymousNode_ st;
     client_mode := client_mode st; running_ := running_ st; functors_ := functors_ st;
     routing_table_ := v; non_routing_table_ := non_routing_table_ st;
     bootstrap_connection_id := bootstrap_connection_id st;
     this_node_relay_connection_id := this_node_relay_connection_id st; timer_ := timer_ st;
     re_bootstrap_timer_ := re_bootstrap_timer_ st; recovery_timer_ := recovery_timer_ st;
     setup_timer_ := setup_timer_ st; now_ := now_ st; posted_ := posted_ st;
     trace_ := trace_ st |}.

Definition set_non_routing_table (v : list NodeInfo) (st : Impl) : Impl :=
  {| kNodeId_ := kNodeId_ st; kAnonymousNode_ := kAnonymousNode_ st;
     client_mode := client_mode st; running_ := running_ st; functors_ := functors_ st;
     routing_table_ := routing_table_ st; non_routing_table_ := v;
     bootstrap_connection_id := bootstrap_connection_id st;
     this_node_relay_connection_id := this_node_relay_connection_id st; timer_ := timer_ st;
     re_bootstrap_timer_ := re_bootstrap_timer_ st; recovery_timer_ := recovery_timer_ st;
     setup_timer_ := setup_timer_ st; now_ := now_ st; posted_ := posted_ st;
     trace_ := trace_ st |}.

Definition set_bootstrap_connection_id (v : NodeId) (st : Impl) : Impl :=
  {| kNodeId_ := kNodeId_ st; kAnonymousNode_ := kAnonymousNode_ st;
     client_mode := client_mode st; running_ := running_ st; functors_ := functors_ st;
     routing_table_ := routing_table_ st; non_routing_table_ := non_routing_table_ st;
     bootstrap_connection_id := v;
     this_node_relay_connection_id := this_node_relay_connection_id st; timer_ := timer_ st;
     re_bootstrap_timer_ := re_bootstrap_timer_ st; recovery_timer_ := recovery_timer_ st;
     setup_timer_ := setup_timer_ st; now_ := now_ st; posted_ := posted_ st;
     trace_ := trace_ st |}.

Definition set_this_node_relay_connection_id (v : NodeId) (st : Impl) : Impl :=
  {| kNodeId_ := kNodeId_ st; kAnonymousNode_ := kAnonymousNode_ st;
     client_mode := client_mode st; running_ := running_ st; functors_ := functors_ st;
     routing_table_ := routing_table_ st; non_routing_table_ := non_routing_table_ st;
     bootstrap_connection_id := bootstrap_connection_id st;
     this_node_relay_connection_id := v; timer_ := timer_ st;
     re_bootstrap_timer_ := re_bootstrap_timer_ st; recovery_timer_ := recovery_timer_ st;
     setup_timer_ := setup_timer_ st; now_ := now_ st; posted_ := posted_ st;
     trace_ := trace_ st |}.

Definition set_timer (v : Timer.t) (st : Impl) : Impl :=
  {| kNodeId_ := kNodeId_ st; kAnonymousNode_ := kAnonymousNode_ st;
     client_mode := client_mode st; running_ := running_ st; functors_ := functors_ st;
     routing_table_ := routing_table_ st; non_routing_table_ := non_routing_table_ st;
     bootstrap_connection_id := bootstrap_connection_id st;
     this_node_relay_connection_id := this_node_relay_connection_id st; timer_ := v;
     re_bootstrap_timer_ := re_bootstrap_timer_ st; recovery_timer_ := recovery_timer_ st;
     setup_timer_ := setup_timer_ st; now_ := now_ st; posted_ := posted_ st;
     trace_ := trace_ st |}.

Definition set_re_bootstrap_timer (v : DeadlineTimer) (st : Impl) : Impl :=
  {| kNodeId_ := kNodeId_ st; kAnonymousNode_ := kAnonymousNode_ st;
     client_mode := client_mode st; running_ := running_ st; functors_ := functors_ st;
     routing_table_ := routing_table_ st; non_routing_table_ := non_routing_table_ st;
     bootstrap_connection_id := bootstrap_connection_id st;
     this_node_relay_connection_id := this_node_relay_connection_id st; timer_ := timer_ st;
     re_bootstrap_timer_ := v; recovery_timer_ := recovery_timer_ st;
     setup_timer_ := setup_timer_ st; now_ := now_ st; posted_ := posted_ st;
     trace_ := trace_ st |}.

Definition set_recovery_timer (v : DeadlineTimer) (st : Impl) : Impl :=
  {| kNodeId_ := kNodeId_ st; kAnonymousNode_ := kAnonymousNode_ st;
     client_mode := client_mode st; running_ := running_ st; functors_ := functors_ st;
     routing_table_ := routing_table_ st; non_routing_table_ := non_routing_table_ st;
     bootstrap_connection_id := bootstrap_connection_id st;
     this_node_relay_connection_id := this_node_relay_connection_id st; timer_ := timer_ st;
     re_bootstrap_timer_ := re_bootstrap_timer_ st; recovery_timer_ := v;
     setup_timer_ := setup_timer_ st; now_ := now_ st; posted_ := posted_ st;
     trace_ := trace_ st |}.

Definition set_setup_timer (v : DeadlineTimer) (st : Impl) : Impl :=
  {| kNodeId_ := kNodeId_ st; kAnonymousNode_ := kAnonymousNode_ st;
     client_mode := client_mode st; running_ := running_ st; functors_ := functors_ st;
     routing_table_ := routing_table_ st; non_routing_table_ := non_routing_table_ st;
     bootstrap_connection_id := bootstrap_connection_id st;
     this_node_relay_connection_id := this_node_relay_connection_id st; timer_ := timer_ st;
     re_bootstrap_timer_ := re_bootstrap_timer_ st; recovery_timer_ := recovery_timer_ st;
     setup_timer_ := v; now_ := now_ st; posted_ := posted_ st; trace_ := trace_ st |}.

Definition set_now (v : Z) (st : Impl) : Impl :=
  {| kNodeId_ := kNodeId_ st; kAnonymousNode_ := kAnonymousNode_ st;
     client_mode := client_mode st; running_ := running_ st; functors_ := functors_ st;
     routing_table_ := routing_table_ st; non_routing_table_ := non_routing_table_ st;
     bootstrap_connection_id := bootstrap_connection_id st;
     this_node_relay_connection_id := this_node_relay_connection_id st; timer_ := timer_ st;
     re_bootstrap_timer_ := re_bootstrap_timer_ st; recovery_timer_ := recovery_timer_ st;
     setup_timer_ := setup_timer_ st; now_ := v; posted_ := posted_ st; trace_ := trace_ st |}.

Definition set_posted (v : list Task) (st : Impl) : Impl :=
  {| kNodeId_ := kNodeId_ st; kAnonymousNode_ := kAnonymousNode_ st;
     client_mode := client_mode st; running_ := running_ st; functors_ := functors_ st;
     routing_table_ := routing_table_ st; non_routing_table_ := non_routing_table_ st;
     bootstrap_connection_id := bootstrap_connection_id st;
     this_node_relay_connection_id := this_node_relay_connection_id st; timer_ := timer_ st;
     re_bootstrap_timer_ := re_bootstrap_timer_ st; recovery_timer_ := recovery_timer_ st;
     setup_timer_ := setup_timer_ st; now_ := now_ st; posted_ := v; trace_ := trace_ st |}.

Definition set_trace (v : list Event) (st : Impl) : Impl :=
  {| kNodeId_ := kNodeId_ st; kAnonymousNode_ := kAnonymousNode_ st;
     client_mode := client_mode st; running_ := running_ st; functors_ := functors_ st;
     routing_table_ := routing_table_ st; non_routing_table_ := non_routing_table_ st;
     bootstrap_connection_id := bootstrap_connection_id st;
     this_node_relay_connection_id := this_node_relay_connection_id st; timer_ := timer_ st;
     re_bootstrap_timer_ := re_bootstrap_timer_ st; recovery_timer_ := recovery_timer_ st;
     setup_timer_ := setup_timer_ st; now_ := now_ st; posted_ := posted_ st; trace_ := v |}.

Definition set_running (v : bool) (st : Impl) : Impl :=
  {| kNodeId_ := kNodeId_ st; kAnonymousNode_ := kAnonymousNode_ st;
     client_mode := client_mode st; running_ := v; functors_ := functors_ st;
     routing_table_ := routing_table_ st; non_routing_table_ := non_routing_table_ st;
     bootstrap_connection_id := bootstrap_connection_id st;
     this_node_relay_connection_id := this_node_relay_connection_id st; timer_ := timer_ st;
     re_bootstrap_timer_ := re_bootstrap_timer_ st; recovery_timer_ := recovery_timer_ st;
     setup_timer_ := setup_timer_ st; now_ := now_ st; posted_ := posted_ st;
     trace_ := trace_ st |}.

(** ** Primitive effects *)

(** A call on a collaborator is recorded at the end of the trace. *)
Definition emit (e : Event) (st : Impl) : Impl :=
  set_trace (trace_ st ++ [e]) st.

(** [asio_service_.service().post(task)]. *)
Definition post (t : Task) (st : Impl) : Impl :=
  set_posted (posted_ st ++ [t]) st.

(** The three timer members, by name. *)
Definition get_timer (t : TimerName) (st : Impl) : DeadlineTimer :=
  match t with
  | re_bootstrap_timer => re_bootstrap_timer_ st
  | recovery_timer => recovery_timer_ st
  | setup_timer => setup_timer_ st
  end.

Definition put_timer (t : TimerName) (v : DeadlineTimer) (st : Impl) : Impl :=
  match t with
  | re_bootstrap_timer => set_re_bootstrap_timer v st
  | recovery_timer => set_recovery_timer v st
  | setup_timer => set_setup_timer v st
  end.

(** [deadline_timer::cancel]: the pending wait completes with
    [operation_aborted]; its handler is queued on the io service. *)
Definition cancel (t : TimerName) (st : Impl) : Impl :=
  match waiter (get_timer t st) with
  | Some h =>
      put_timer t (mkDeadlineTimer (expiry (get_timer t st)) None)
                (post (Completion h operation_aborted) st)
  | None => st
  end.

(** [deadline_timer::expires_from_now]: cancels the pending wait as [cancel]
    does and moves the expiry. *)
Definition expires_from_now (t : TimerName) (d : Z) (st : Impl) : Impl :=
  let st1 := cancel t st in
  put_timer t (mkDeadlineTimer (now_ st1 + d) (waiter (get_timer t st1))) st1.

(** [deadline_timer::async_wait]. *)
Definition async_wait (t : TimerName) (h : WaitHandler) (st : Impl) : Impl :=
  put_timer t (mkDeadlineTimer (expiry (get_timer t st)) (Some h)) st.

(** [network_.clear_bootstrap_connection_info()]: both handles obtained from
    the bootstrap are reset. *)
Definition clear_bootstrap_connection_info (st : Impl) : Impl :=
  set_this_node_relay_connection_id ZeroId (set_bootstrap_connection_id ZeroId st).

(** The answer of the transport to [network_.Bootstrap]: its return code and
    the two handles it stores on success. *)
Record BootstrapOutcome := mkOutcome {
  bootstrap_result : Z;
  bootstrap_peer : NodeId;
  relay_handle : NodeId
}.

(** [network_.Bootstrap(endpoints, on_message, on_connection_lost)]. *)
Definition Bootstrap (endpoints : list Endpoint) (o : BootstrapOutcome) (st : Impl)
  : Z * Impl :=
  let st1 := emit (EvBootstrap endpoints) st in
  if bootstrap_result o =? kSuccess
  then (bootstrap_result o,
        set_this_node_relay_connection_id (relay_handle o)
          (set_bootstrap_connection_id (bootstrap_peer o) st1))
  else (bootstrap_result o, st1).

(** Accessors of optional message fields give the default when unset. *)
Definition flag (o : option bool) : bool :=
  match o with Some b => b | None => false end.

Definition id_of (o : option NodeId) : NodeId :=
  match o with Some i => i | None => ZeroId end.

Definition has {A} (o : option A) : bool :=
  match o with Some _ => true | None => false end.

(** ** Member functions of [Routing::Impl] *)

Section Impl.

Variable P : Parameters.
Variable RC : ReturnCodes.

(** Lines 79-84, the destructor. *)
Definition destroy (st : Impl) : Impl := set_running false st.

(** Lines 605-608. *)
Definition NotifyNetworkStatus (return_code : Z) (st : Impl) : Impl :=
  match network_status (functors_ st) with
  | Some f => emit (EvNetworkStatus f return_code) st
  | None => st
  end.

(** Lines 96-106: the copies kept by the collaborators are not tracked. *)
Definition ConnectFunctors (functors : Functors) (st : Impl) : Impl :=
  set_functors functors st.

(** Lines 108-115. *)
Definition DisconnectFunctors (st : Impl) : Impl :=
  set_functors no_functors st.

(** Lines 581-590. *)
Definition ReBootstrap (st : Impl) : Impl :=
  if negb (running_ st) then st
  else
    async_wait re_bootstrap_timer WakeReBootstrap
      (expires_from_now re_bootstrap_timer (re_bootstrap_time_lag P) st).

(** Lines 207-232, the end of [FindClosestNode]: the request for the one
    node closest to this node goes to the bootstrap peer and the setup timer
    is armed for the next attempt.  [attempts] is an [int]; its overflow is
    undefined and not modelled. *)
Definition send_find_closest (attempts : Z) (st : Impl) : Impl :=
  let find_node_rpc :=
    FindNodes (kNodeId_ st) (kNodeId_ st) 1 true (this_node_relay_connection_id st) in
  let attempts := attempts + 1 in
  let st := emit (EvSendToDirect find_node_rpc (bootstrap_connection_id st)
                                 LogFindNodesSent) st in
  if negb (running_ st) then st
  else
    async_wait setup_timer (WakeSetup attempts)
      (expires_from_now setup_timer (find_close_node_interval P) st).

(** Lines 168-233.  The assertions are not compiled into the model. *)
Definition FindClosestNode (ec : error_code) (attempts : Z) (st : Impl) : Impl :=
  if negb (running_ st) then st
  else if is_aborted ec then st
  else if attempts =? 0 then send_find_closest attempts st
  else if 0 <? RoutingTable.Size (routing_table_ st) then
    if negb (running_ st) then st
    else
      async_wait recovery_timer (WakeRecovery false)
        (expires_from_now recovery_timer (find_node_interval P) st)
  else
    let st :=
      if maximum_find_close_node_failures P <=? attempts
      then ReBootstrap st else st in
    send_find_closest attempts st.

(** Lines 147-166. *)
Definition DoBootstrap (endpoints : list Endpoint) (o : BootstrapOutcome) (st : Impl)
  : Z * Impl :=
  let st := cancel recovery_timer st in
  let st := cancel setup_timer st in
  if negb (running_ st) then (kNetworkShuttingDown RC, st)
  else
    let st :=
      if negb (IsZero (bootstrap_connection_id st))
      then clear_bootstrap_connection_info (emit (EvRemove (bootstrap_connection_id st)) st)
      else st in
    Bootstrap endpoints o st.

(** The assertion of line 149. *)
Definition DoBootstrap_assertion (st : Impl) : bool :=
  RoutingTable.Size (routing_table_ st) =? 0.

(** Lines 132-145. *)
Definition DoJoin (endpoints : list Endpoint) (o : BootstrapOutcome) (st : Impl) : Impl :=
  let '(return_value, st) := DoBootstrap endpoints o st in
  if negb (kSuccess =? return_value) then NotifyNetworkStatus return_value st
  else if kAnonymousNode_ st then NotifyNetworkStatus return_value st
  else NotifyNetworkStatus return_value (FindClosestNode success 0 st).

(** The loop of lines 122-126.  [i] is a [uint16_t] and wraps; [fuel] bounds
    the number of iterations and the counter is returned with the state, so
    that leaving through the loop condition can be told from running out of
    fuel. *)
Fixpoint drop_closest_loop (fuel : nat) (i : Z) (st : Impl) : Z * Impl :=
  match fuel with
  | O => (i, st)
  | S fuel =>
      if i <? RoutingTable.Size (routing_table_ st) then
        let remove_node := RoutingTable.GetClosestNode (kNodeId_ st) (routing_table_ st) in
        let st := emit (EvRemove (connection_id remove_node)) st in
        let st := set_routing_table
                    (snd (RoutingTable.DropNode (node_id remove_node) (routing_table_ st)))
                    st in
        drop_closest_loop fuel ((i + 1) mod 2 ^ 16) st
      else (i, st)
  end.

(** Lines 117-130, up to the call of [DoJoin]: the state in which the
    bootstrap step starts. *)
Definition BootstrapFromTheseEndpoints_drop (st : Impl) : Impl :=
  if 0 <? RoutingTable.Size (routing_table_ st) then
    let st := snd (drop_closest_loop (length (routing_table_ st)) 0 st) in
    NotifyNetworkStatus (RoutingTable.Size (routing_table_ st)) st
  else st.

(** Lines 117-130. *)
Definition BootstrapFromTheseEndpoints (endpoints : list Endpoint) (o : BootstrapOutcome)
                                       (st : Impl) : Impl :=
  DoJoin endpoints o (BootstrapFromTheseEndpoints_drop st).

(** Lines 86-94. *)
Definition Join (functors : Functors) (peer_endpoints : list Endpoint)
                (o : BootstrapOutcome) (st : Impl) : Impl :=
  let st := ConnectFunctors functors st in
  match peer_endpoints with
  | _ :: _ => BootstrapFromTheseEndpoints peer_endpoints o st
  | [] => DoJoin peer_endpoints o st
  end.

(** Lines 400-404. *)
Definition OnMessageReceived (message : Wire) (st : Impl) : Impl :=
  if running_ st then post (RunDoOnMessageReceived message) st else st.

(** Lines 406-426. *)
Definition DoOnMessageReceived (message : Wire) (st : Impl) : Impl :=
  match ParseFromString message with
  | Some pb_message =>
      let st :=
        if ((kAnonymousNode_ st || negb (flag (client_node pb_message)))
            && has (source_id pb_message))
           || (negb (flag (direct pb_message)) && negb (flag (request pb_message)))
        then
          let source := id_of (source_id pb_message) in
          if negb (IsZero source) then emit (EvRandomNodeAdd source) st else st
        else st in
      emit (EvHandleMessage pb_message) st
  | None => st
  end.

(** Lines 428-432. *)
Definition OnConnectionLost (lost_connection_id : NodeId) (st : Impl) : Impl :=
  if running_ st then post (RunDoOnConnectionLost lost_connection_id) st else st.

(** Lines 490-501, the end of [DoOnConnectionLost]. *)
Definition schedule_resend (resend : bool) (st : Impl) : Impl :=
  if resend then
    if negb (running_ st) then st
    else
      async_wait recovery_timer (WakeRecovery true)
        (expires_from_now recovery_timer (recovery_time_lag P) st)
  else st.

(** Lines 434-502. *)
Definition DoOnConnectionLost (lost_connection_id : NodeId) (st : Impl) : Impl :=
  if negb (running_ st) then st
  else
    let resend :=
      match RoutingTable.GetNodeInfo lost_connection_id (routing_table_ st) with
      | Some dropped_node =>
          RoutingTable.IsThisNodeInRange (kNodeId_ st) (node_id dropped_node)
                                         (closest_nodes_size P) (routing_table_ st)
      | None => false
      end in
    let '(dropped_node, table) :=
      RoutingTable.DropNode lost_connection_id (routing_table_ st) in
    let st := set_routing_table table st in
    if negb (IsZero (node_id dropped_node)) then
      schedule_resend resend (emit (EvRandomNodeRemove (node_id dropped_node)) st)
    else
      let '(dropped_node, clients) :=
        DropConnection lost_connection_id (non_routing_table_ st) in
      let st := set_non_routing_table clients st in
      if negb (IsZero (node_id dropped_node)) then schedule_resend false st
      else if negb (IsZero (bootstrap_connection_id st))
              && (lost_connection_id =? bootstrap_connection_id st) then
        if negb (running_ st) then st
        else
          let st := clear_bootstrap_connection_info st in
          if kAnonymousNode_ st then NotifyNetworkStatus (kAnonymousSessionEnded RC) st
          else schedule_resend (RoutingTable.Size (routing_table_ st) =? 0) st
      else schedule_resend false st.

(** Lines 504-533. *)
Definition RemoveNode (node : NodeInfo) (internal_rudp_only : bool) (st : Impl) : Impl :=
  if IsZero (connection_id node) || IsZero (node_id node) then st
  else
    let st := emit (EvRemove (connection_id node)) st in
    if internal_rudp_only then st
    else
      let resend :=
        RoutingTable.IsThisNodeInRange (kNodeId_ st) (node_id node)
                                       (closest_nodes_size P) (routing_table_ st) in
      schedule_resend resend st.

(** Lines 539-579. *)
Definition ReSendFindNodeRequest (ec : error_code) (ignore_size : bool) (st : Impl) : Impl :=
  if is_aborted ec then st
  else if RoutingTable.Size (routing_table_ st) =? 0 then ReBootstrap st
  else if ignore_size
          || (RoutingTable.Size (routing_table_ st) <? routing_table_size_threshold P) then
    let num_nodes_requested :=
      if ignore_size
         && (routing_table_size_threshold P <? RoutingTable.Size (routing_table_ st))
      then closest_nodes_size P
      else max_routing_table_size P in
    let find_node_rpc :=
      FindNodes (kNodeId_ st) (kNodeId_ st) num_nodes_requested false ZeroId in
    let st := emit (EvSendToClosestNode find_node_rpc) st in
    if negb (running_ st) then st
    else
      async_wait recovery_timer (WakeRecoveryAgain ec)
        (expires_from_now recovery_timer (find_node_interval P) st)
  else st.

(** Lines 592-603. *)
Definition DoReBootstrap (ec : error_code) (o : BootstrapOutcome) (st : Impl) : Impl :=
  if is_aborted ec then st
  else if negb (running_ st) then st
  else DoJoin [] o st.

(** The reply handed to a response functor for a refused [Send]:
    [std::vector<std::string>()]. *)
Definition refuse (response_functor : option Callback) (st : Impl) : Impl :=
  match response_functor with
  | Some f => emit (EvResponse f []) st
  | None => st
  end.

(** [timer_.AddTask(timeout, response_functor, n)] on the node's table. *)
Definition AddTask (timeout : Z) (f : Callback) (n : Z) (st : Impl) : Z * Impl :=
  let '(i, tm) := Timer.AddTask (now_ st) timeout f n (timer_ st) in
  (i, set_timer tm st).

(** Lines 335-358: the message as it stands after [set_replication], and
    the state after the task, if any, has been registered. *)
Definition Send_message (destination_id group_claim : NodeId) (data : String.string)
                        (response_functor : option Callback) (timeout : Z)
                        (direct cacheable : bool) (st : Impl) : Message * Impl :=
  let proto_message := empty_message in
  let proto_message := set_destination_id destination_id proto_message in
  let proto_message := set_routing_message false proto_message in
  let proto_message := add_data data proto_message in
  let proto_message := set_type kNodeLevel proto_message in
  let proto_message := set_cacheable cacheable proto_message in
  let proto_message := set_direct direct proto_message in
  let proto_message := set_client_node (client_mode st) proto_message in
  let proto_message := set_request true proto_message in
  let proto_message := set_hops_to_live (hops_to_live P) proto_message in
  let replication := 1 in
  let proto_message :=
    if negb (IsZero group_claim) then set_group_claim group_claim proto_message
    else proto_message in
  let '(replication, proto_message, st) :=
    if negb direct then
      match response_functor with
      | Some f =>
          let '(i, st) := AddTask timeout f (node_group_size P) st in
          (node_group_size P, set_id i proto_message, st)
      | None => (node_group_size P, proto_message, st)
      end
    else
      match response_functor with
      | Some f =>
          let '(i, st) := AddTask timeout f 1 st in
          (replication, set_id i proto_message, st)
      | None => (replication, proto_message, st)
      end in
  (set_replication replication proto_message, st).

(** Lines 359-397: where the message goes. *)
Definition Send_route (destination_id : NodeId) (proto_message : Message) (st : Impl) : Impl :=
  if kAnonymousNode_ st || (RoutingTable.Size (routing_table_ st) =? 0) then
    let proto_message := set_relay_id (kNodeId_ st) proto_message in
    let proto_message :=
      set_relay_connection_id (this_node_relay_connection_id st) proto_message in
    let bootstrap_connection := bootstrap_connection_id st in
    emit (EvSendToDirect (NodeLevel proto_message) bootstrap_connection
                         (RelaySendResult proto_message)) st
  else
    let proto_message := set_source_id (kNodeId_ st) proto_message in
    if negb (kNodeId_ st =? destination_id) then
      emit (EvSendToClosestNode (NodeLevel proto_message)) st
    else if client_mode st then
      emit (EvSendToClosestNode (NodeLevel proto_message)) st
    else OnMessageReceived (SerializeAsString proto_message) st.

(** Lines 314-398. *)
Definition Send (destination_id group_claim : NodeId) (data : String.string)
                (response_functor : option Callback) (timeout : Z)
                (direct cacheable : bool) (st : Impl) : Impl :=
  if IsZero destination_id then refuse response_functor st
  else if (String.length data =? 0)%nat
          || (max_data_size P <? Z.of_nat (String.length data)) then
    refuse response_functor st
  else
    let '(proto_message, st) :=
      Send_message destination_id group_claim data response_functor timeout
                   direct cacheable st in
    Send_route destination_id proto_message st.

(** ** Running the closures *)

(** The call of the [rudp::MessageSentFunctor] by the transport. *)
Definition message_sent (f : SentFunctor) (result : Z) (st : Impl) : Impl :=
  match f with
  | LogFindNodesSent => st
  | RelaySendResult m => post (RunSendResult m result) st
  end.

(** Lines 368-379, the task posted by the functor of [Send]; [rudp::kSuccess]
    is the zero of [kSuccess]. *)
Definition send_result (proto_message : Message) (result : Z) (st : Impl) : Impl :=
  if negb (kSuccess =? result) then
    let st := set_timer (Timer.CancelTask (id_or_default proto_message) (timer_ st)) st in
    if kAnonymousNode_ st then NotifyNetworkStatus (kAnonymousSessionEnded RC) st
    else NotifyNetworkStatus (kPartialJoinSessionEnded RC) st
  else st.

(** The member function a completion handler calls, with its arguments. *)
Inductive Call :=
| CallReSendFindNodeRequest (ec : error_code) (ignore_size : bool)
| CallFindClosestNode (ec : error_code) (attempts : Z)
| CallDoReBootstrap (ec : error_code).

(** The bodies of the lambdas given to [async_wait]: which call, if any, a
    handler makes when it is completed with [error_code_local]. *)
Definition handler_call (h : WaitHandler) (error_code_local : error_code) : option Call :=
  match h with
  | WakeRecovery ignore_size =>
      if negb (is_aborted error_code_local)
      then Some (CallReSendFindNodeRequest error_code_local ignore_size)
      else None
  | WakeRecoveryAgain error_code_captured =>
      if negb (is_aborted error_code_captured)
      then Some (CallReSendFindNodeRequest error_code_local false)
      else None
  | WakeSetup attempts =>
      if negb (is_aborted error_code_local)
      then Some (CallFindClosestNode error_code_local attempts)
      else None
  | WakeReBootstrap =>
      if negb (is_aborted error_code_local)
      then Some (CallDoReBootstrap error_code_local)
      else None
  end.

Definition run_call (c : Call) (o : BootstrapOutcome) (st : Impl) : Impl :=
  match c with
  | CallReSendFindNodeRequest ec ignore_size => ReSendFindNodeRequest ec ignore_size st
  | CallFindClosestNode ec attempts => FindClosestNode ec attempts st
  | CallDoReBootstrap ec => DoReBootstrap ec o st
  end.

(** A completion handler runs with the status [ec]. *)
Definition wake (h : WaitHandler) (ec : error_code) (o : BootstrapOutcome) (st : Impl) : Impl :=
  match handler_call h ec with
  | Some c => run_call c o st
  | None => st
  end.

(** One task of the io service runs. *)
Definition run_task (t : Task) (o : BootstrapOutcome) (st : Impl) : Impl :=
  match t with
  | RunDoOnMessageReceived w => DoOnMessageReceived w st
  | RunDoOnConnectionLost lost => DoOnConnectionLost lost st
  | RunSendResult m result => send_result m result st
  | Completion h ec => wake h ec o st
  end.

(** The timer [t] expires: the clock reaches its expiry and the pending wait
    completes with success. *)
Definition expire (t : TimerName) (o : BootstrapOutcome) (st : Impl) : Impl :=
  match waiter (get_timer t st) with
  | Some h =>
      let st := set_now (Z.max (now_ st) (expiry (get_timer t st))) st in
      let st := put_timer t (mkDeadlineTimer (expiry (get_timer t st)) None) st in
      wake h success o st
  | None => st
  end.

End Impl.

(** Lines 44-77: the node as the constructor leaves it.  [identity] is the
    id of the given fob or, for an anonymous node, the random one generated in
    its place. *)
Definition construct (identity : NodeId) (anonymous client : bool) : Impl :=
  {| kNodeId_ := identity;
     kAnonymousNode_ := anonymous;
     client_mode := client;
     running_ := true;
     functors_ := no_functors;
     routing_table_ := [];
     non_routing_table_ := [];
     bootstrap_connection_id := ZeroId;
     this_node_relay_connection_id := ZeroId;
     timer_ := Timer.mkTimer 0 [];
     re_bootstrap_timer_ := mkDeadlineTimer 0 None;
     recovery_timer_ := mkDeadlineTimer 0 None;
     setup_timer_ := mkDeadlineTimer 0 None;
     now_ := 0;
     posted_ := [];
     trace_ := [] |}.

(** ** Observations *)

(** What a step from [st] to [st'] added to the trace and to the task queue. *)
Definition new_events (st st' : Impl) : list Event :=
  skipn (length (trace_ st)) (trace_ st').

Definition new_tasks (st st' : Impl) : list Task :=
  skipn (length (posted_ st)) (posted_ st').

(** Modelled from the spec: network_utils.h is not among the sources;
    [send_to_closest(envelope)] sends to the table peer minimising the distance
    to the envelope's destination. *)
Definition next_hop (e : Envelope) (rt : RoutingTable.t) : option NodeInfo :=
  match e with
  | NodeLevel m => RoutingTable.closest_node (id_of (destination_id m)) rt
  | FindNodes _ destination _ _ _ => RoutingTable.closest_node destination rt
  end.

(** The input validation of [Send], lines 321 and 328. *)
Definition valid_send (P : Parameters) (destination_id : NodeId) (data : String.string) : Prop :=
  destination_id <> ZeroId
  /\ (0 < String.length data)%nat
  /\ Z.of_nat (String.length data) <= max_data_size P.

(** Where [Send] leaves the message [m]: with the transport, for the bootstrap
    connection or for the closest node, or with the node's own inbound path. *)
Inductive handed_over (st st' : Impl) (m : Message) : Prop :=
| to_bootstrap :
    new_events st st'
    = [EvSendToDirect (NodeLevel m) (bootstrap_connection_id st) (RelaySendResult m)] ->
    handed_over st st' m
| to_closest_node :
    new_events st st' = [EvSendToClosestNode (NodeLevel m)] ->
    handed_over st st' m
| to_self :
    st' = OnMessageReceived (SerializeAsString m) (set_timer (timer_ st') st) ->
    handed_over st st' m.

(** * Properties *)

(** ** Generic facts *)

Lemma skipn_app_exact {A} (l new : list A) : skipn (length l) (l ++ new) = new.
Proof. induction l as [|x l IH]; simpl; auto. Qed.

Lemma new_events_app st st' new :
  trace_ st' = trace_ st ++ new -> new_events st st' = new.
Proof. unfold new_events; intros ->; apply skipn_app_exact. Qed.

Lemma new_events_same st st' :
  trace_ st' = trace_ st -> new_events st st' = [].
Proof.
  intros H; apply new_events_app; rewrite H, app_nil_r; reflexivity.
Qed.

Lemma IsZero_true id : IsZero id = true <-> id = ZeroId.
Proof. unfold IsZero, ZeroId; apply Z.eqb_eq. Qed.

Lemma IsZero_false id : IsZero id = false <-> id <> ZeroId.
Proof. unfold IsZero, ZeroId; apply Z.eqb_neq. Qed.

Lemma Size_zero rt : (RoutingTable.Size rt =? 0) = true <-> rt = [].
Proof.
  unfold RoutingTable.Size; rewrite Z.eqb_eq; destruct rt; simpl; split;
    intros; try reflexivity; try discriminate; lia.
Qed.

Lemma Size_nonzero rt : (RoutingTable.Size rt =? 0) = false <-> rt <> [].
Proof.
  rewrite <- Size_zero; destruct (RoutingTable.Size rt =? 0); split;
    intros; congruence.
Qed.

Lemma Size_pos rt : (0 <? RoutingTable.Size rt) = true <-> rt <> [].
Proof.
  unfold RoutingTable.Size; rewrite Z.ltb_lt; destruct rt; simpl; split;
    intros; try congruence; lia.
Qed.

(** ** Send: refused input *)

Section SendRefused.

Variable P : Parameters.
Variables destination_id group_claim : NodeId.
Variable data : String.string.
Variable response_functor : option Callback.
Variable timeout : Z.
Variables direct cacheable : bool.
Variable st : Impl.

Let st' := Send P destination_id group_claim data response_functor timeout
                direct cacheable st.

Lemma Send_refused_is_refuse :
  destination_id = ZeroId
  \/ String.length data = 0%nat
  \/ max_data_size P < Z.of_nat (String.length data) ->
  st' = refuse response_functor st.
Proof.
  unfold st', Send; intros [Hz | [He | Hb]].
  - apply IsZero_true in Hz; rewrite Hz; reflexivity.
  - destruct (IsZero destination_id); [reflexivity|].
    rewrite He; reflexivity.
  - destruct (IsZero destination_id); [reflexivity|].
    apply Z.ltb_lt in Hb; rewrite Hb, orb_true_r; reflexivity.
Qed.

(** C1.  A [Send] whose destination is zero, whose payload is empty or whose
    payload is larger than [max_data_size] invokes the response functor, if
    one was given, exactly once and with the empty list; nothing goes to the
    transport, no pending task is registered and nothing is queued for local
    delivery. *)
Theorem Send_invalid_input_reports_empty :
  destination_id = ZeroId
  \/ String.length data = 0%nat
  \/ max_data_size P < Z.of_nat (String.length data) ->
  responses (new_events st st')
  = match response_functor with Some f => [(f, [])] | None => [] end
  /\ envelopes (new_events st st') = []
  /\ timer_ st' = timer_ st
  /\ posted_ st' = posted_ st.
Proof.
  intros H; rewrite (Send_refused_is_refuse H).
  destruct response_functor as [f|]; simpl.
  - rewrite (new_events_app st (emit (EvResponse f []) st) [EvResponse f []]);
      [repeat split | reflexivity].
  - rewrite new_events_same by reflexivity; repeat split.
Qed.

End SendRefused.

(** A payload to exercise the statements below. *)
Module Samples.
Import String.
Definition hello : String.string := "hello"%string.
End Samples.

(** A node that has bootstrapped and has no peer yet: id 5, bootstrap
    connection 900, relay handle 901, functors for received messages (1) and
    for the network status (2). *)
Definition sample_node : Impl :=
  set_bootstrap_connection_id 900
    (set_this_node_relay_connection_id 901
       (set_functors (mkFunctors (Some 1%nat) (Some 2%nat) None None None)
          (construct 5 false false))).

Lemma Send_invalid_input_witness :
  let st := sample_node in
  let st' := Send default_parameters ZeroId 0 Samples.hello (Some 7%nat) 1000 true false st in
  responses (new_events st st') = [(7%nat, [])]
  /\ envelopes (new_events st st') = []
  /\ timer_ st' = timer_ st
  /\ posted_ st' = posted_ st.
Proof.
  apply (Send_invalid_input_reports_empty default_parameters ZeroId 0 Samples.hello
           (Some 7%nat) 1000 true false sample_node).
  left; reflexivity.
Defined.

(** ** Send: replication and the pending task *)

Section SendValid.

Variable P : Parameters.
Variables destination claim : NodeId.
Variable data : String.string.
Variable response_functor : option Callback.
Variable timeout : Z.
Variables direct cacheable : bool.
Variable st : Impl.

Let st' := Send P destination claim data response_functor timeout
                direct cacheable st.

Let prepared := Send_message P destination claim data response_functor
                             timeout direct cacheable st.

Lemma Send_valid_unfold :
  valid_send P destination data ->
  st' = Send_route destination (fst prepared) (snd prepared).
Proof.
  intros (Hd & Hlen & Hmax); unfold st', Send, prepared.
  apply IsZero_false in Hd; rewrite Hd.
  replace (String.length data =? 0)%nat with false
    by (symmetry; apply Nat.eqb_neq; lia).
  replace (max_data_size P <? Z.of_nat (String.length data)) with false
    by (symmetry; apply Z.ltb_ge; lia).
  simpl; destruct (Send_message _ _ _ _ _ _ _ _ _); reflexivity.
Qed.

(** The expected number of responses: 1 for a direct message, the group size
    otherwise. *)
Let expected : Z := if direct then 1 else node_group_size P.

Lemma Send_message_replication : replication (fst prepared) = Some expected.
Proof.
  unfold prepared, expected, Send_message, AddTask.
  destruct direct, response_functor, (IsZero claim); reflexivity.
Qed.

Lemma Send_message_task :
  match response_functor with
  | Some f =>
      id (fst prepared) = Some (Timer.next_id (timer_ st))
      /\ Timer.tasks (timer_ (snd prepared))
         = Timer.tasks (timer_ st)
           ++ [Timer.mkTask (Timer.next_id (timer_ st)) f expected (now_ st + timeout)]
  | None => id (fst prepared) = None /\ snd prepared = st
  end.
Proof.
  unfold prepared, expected, Send_message, AddTask.
  destruct direct, response_functor, (IsZero claim); simpl; split;
    reflexivity.
Qed.

Lemma Send_message_frame :
  snd prepared = set_timer (timer_ (snd prepared)) st.
Proof.
  unfold prepared, Send_message, AddTask.
  destruct direct, response_functor, (IsZero claim), st; reflexivity.
Qed.

Lemma Send_message_fields :
  destination_id (fst prepared) = Some destination
  /\ relay_id (fst prepared) = None
  /\ source_id (fst prepared) = None.
Proof.
  unfold prepared, Send_message, AddTask.
  destruct direct, response_functor, (IsZero claim); repeat split.
Qed.

Lemma Send_route_timer m s : timer_ (Send_route destination m s) = timer_ s.
Proof.
  unfold Send_route, OnMessageReceived.
  destruct (kAnonymousNode_ s || (RoutingTable.Size (routing_table_ s) =? 0));
    [reflexivity|].
  destruct (negb (kNodeId_ s =? destination)); [reflexivity|].
  destruct (client_mode s); [reflexivity|].
  destruct (running_ s); reflexivity.
Qed.

(** How [Send_route] disposes of a message, by the three ways out of
    lines 359-397. *)
Lemma Send_route_cases m tm :
  let s := set_timer tm st in
  let s' := Send_route destination m s in
  (kAnonymousNode_ st || (RoutingTable.Size (routing_table_ st) =? 0) = true
   /\ trace_ s' = trace_ st
        ++ [EvSendToDirect
              (NodeLevel (set_relay_connection_id (this_node_relay_connection_id st)
                            (set_relay_id (kNodeId_ st) m)))
              (bootstrap_connection_id st)
              (RelaySendResult (set_relay_connection_id (this_node_relay_connection_id st)
                                  (set_relay_id (kNodeId_ st) m)))]
   /\ posted_ s' = posted_ st)
  \/ (kAnonymousNode_ st || (RoutingTable.Size (routing_table_ st) =? 0) = false
      /\ (kNodeId_ st =? destination) && negb (client_mode st) = false
      /\ trace_ s' = trace_ st
           ++ [EvSendToClosestNode (NodeLevel (set_source_id (kNodeId_ st) m))]
      /\ posted_ s' = posted_ st)
  \/ (kAnonymousNode_ st || (RoutingTable.Size (routing_table_ st) =? 0) = false
      /\ (kNodeId_ st =? destination) && negb (client_mode st) = true
      /\ s' = OnMessageReceived (SerializeAsString (set_source_id (kNodeId_ st) m)) s).
Proof.
  intros s s'; unfold s', Send_route, s; simpl.
  destruct (kAnonymousNode_ st || (RoutingTable.Size (routing_table_ st) =? 0)).
  - left; repeat split.
  - right. destruct (kNodeId_ st =? destination); simpl.
    + destruct (client_mode st); simpl.
      * left; repeat split.
      * right; repeat split.
    + left; repeat split.
Qed.

(** C2.  A [Send] that passes validation hands over a message whose
    replication is 1 when [direct] and the group size ([node_group_size])
    otherwise.  With a response functor one pending task is registered: it
    expects that many responses, its deadline is now + timeout, and the
    message carries its id.  Without a functor no task is registered and the
    message carries no id. *)
Theorem Send_replication_and_pending_task :
  valid_send P destination data ->
  exists m,
    handed_over st st' m
    /\ replication m = Some expected
    /\ match response_functor with
       | Some f =>
           id m = Some (Timer.next_id (timer_ st))
           /\ Timer.tasks (timer_ st')
              = Timer.tasks (timer_ st)
                ++ [Timer.mkTask (Timer.next_id (timer_ st)) f expected
                                 (now_ st + timeout)]
       | None => id m = None /\ timer_ st' = timer_ st
       end.
Proof.
  intros Hv. rewrite (Send_valid_unfold Hv).
  pose proof Send_message_replication as Hrep.
  pose proof Send_message_task as Htask.
  pose proof Send_message_frame as Hframe.
  set (m0 := fst prepared) in *. set (tm := timer_ (snd prepared)) in *.
  rewrite Hframe in *. clearbody m0 tm. clear Hframe.
  assert (Htm : match response_functor with
                | Some f =>
                    id m0 = Some (Timer.next_id (timer_ st))
                    /\ Timer.tasks tm
                       = Timer.tasks (timer_ st)
                         ++ [Timer.mkTask (Timer.next_id (timer_ st)) f expected
                                          (now_ st + timeout)]
                | None => id m0 = None /\ tm = timer_ st
                end).
  { destruct response_functor; destruct Htask as [Hi Ht]; split; auto.
    rewrite <- Ht; reflexivity. }
  clear Htask.
  assert (Hfin : forall m, id m = id m0 ->
            match response_functor with
            | Some f =>
                id m = Some (Timer.next_id (timer_ st))
                /\ Timer.tasks (timer_ (Send_route destination m0 (set_timer tm st)))
                   = Timer.tasks (timer_ st)
                     ++ [Timer.mkTask (Timer.next_id (timer_ st)) f expected
                                      (now_ st + timeout)]
            | None =>
                id m = None
                /\ timer_ (Send_route destination m0 (set_timer tm st)) = timer_ st
            end).
  { intros m Hid; rewrite Send_route_timer, Hid; simpl.
    destruct response_functor; exact Htm. }
  destruct (Send_route_cases m0 tm) as [(_ & Htr & _) | [(_ & _ & Htr & _) | (_ & _ & Hst)]].
  - eexists; split; [apply to_bootstrap, new_events_app; exact Htr|].
    split; [exact Hrep | apply Hfin; reflexivity].
  - eexists; split; [apply to_closest_node, new_events_app; exact Htr|].
    split; [exact Hrep | apply Hfin; reflexivity].
  - exists (set_source_id (kNodeId_ st) m0); split.
    + apply to_self. rewrite Send_route_timer; simpl.
      rewrite Hst. destruct st; reflexivity.
    + split; [exact Hrep | apply Hfin; reflexivity].
Qed.

End SendValid.

Lemma Send_replication_witness :
  valid_send default_parameters 9 Samples.hello
  /\ exists m,
       handed_over sample_node
         (Send default_parameters 9 0 Samples.hello (Some 7%nat) 1000 false false sample_node) m
       /\ replication m = Some 8
       /\ id m = Some 0
       /\ Timer.tasks
            (timer_ (Send default_parameters 9 0 Samples.hello (Some 7%nat) 1000 false false
                          sample_node))
          = [Timer.mkTask 0 7%nat 8 1000].
Proof.
  assert (Hv : valid_send default_parameters 9 Samples.hello).
  { repeat split; [discriminate | simpl; lia | simpl; lia]. }
  split; [exact Hv|].
  exact (Send_replication_and_pending_task default_parameters 9 0 Samples.hello
           (Some 7%nat) 1000 false false sample_node Hv).
Defined.

(** ** The routing table model *)

Lemma closest_node_nonempty target rt :
  rt <> [] -> exists p, RoutingTable.closest_node target rt = Some p.
Proof.
  destruct rt as [|p rest]; [congruence|]; intros _; simpl.
  destruct (RoutingTable.closest_node target rest) as [q|]; [|eauto].
  destruct (RoutingTable.closer target q p); eauto.
Qed.

Lemma closest_node_In target rt p :
  RoutingTable.closest_node target rt = Some p -> In p rt.
Proof.
  revert p; induction rt as [|x rest IH]; intros p; simpl; [discriminate|].
  destruct (RoutingTable.closest_node target rest) as [q|].
  - destruct (RoutingTable.closer target q x); intros [= <-]; auto.
  - intros [= <-]; auto.
Qed.

(** The entry returned is at least as close to the target as every other. *)
Lemma closest_node_minimal target rt p :
  RoutingTable.closest_node target rt = Some p ->
  forall q, In q rt ->
    RoutingTable.distance (node_id p) target <= RoutingTable.distance (node_id q) target.
Proof.
  revert p; induction rt as [|x rest IH]; intros p; simpl; [discriminate|].
  destruct (RoutingTable.closest_node target rest) as [c|] eqn:Hc.
  - specialize (IH c eq_refl).
    destruct (RoutingTable.closer target c x) eqn:Hcl; intros [= <-] q [<- | Hq].
    + unfold RoutingTable.closer in Hcl.
      apply orb_true_iff in Hcl as [H | H]; [apply Z.ltb_lt in H; lia|].
      apply andb_true_iff in H as [H _]; apply Z.eqb_eq in H; lia.
    + auto.
    + lia.
    + unfold RoutingTable.closer in Hcl.
      apply orb_false_iff in Hcl as [H _]; apply Z.ltb_ge in H.
      specialize (IH q Hq); lia.
  - destruct rest; [|simpl in Hc; destruct (RoutingTable.closest_node target rest);
                      [destruct (RoutingTable.closer _ _ _)|]; discriminate].
    intros [= <-] q [<- | []]; lia.
Qed.

Lemma DropNode_found key rt p :
  RoutingTable.GetNodeInfo key rt = Some p ->
  fst (RoutingTable.DropNode key rt) = p
  /\ S (length (snd (RoutingTable.DropNode key rt))) = length rt.
Proof.
  unfold RoutingTable.GetNodeInfo.
  induction rt as [|x rest IH]; simpl; [discriminate|].
  destruct (RoutingTable.has_key key x); [intros [= <-]; auto|].
  intros H; destruct (IH H) as [Hf Hl].
  destruct (RoutingTable.DropNode key rest); simpl in *; auto.
Qed.

Lemma DropNode_missing key rt :
  RoutingTable.GetNodeInfo key rt = None ->
  RoutingTable.DropNode key rt = (NoNode, rt).
Proof.
  unfold RoutingTable.GetNodeInfo.
  induction rt as [|x rest IH]; simpl; [reflexivity|].
  destruct (RoutingTable.has_key key x); [discriminate|].
  intros H; rewrite (IH H); reflexivity.
Qed.

Lemma GetNodeInfo_of_member rt p :
  In p rt -> exists q, RoutingTable.GetNodeInfo (node_id p) rt = Some q.
Proof.
  unfold RoutingTable.GetNodeInfo.
  induction rt as [|x rest IH]; simpl; [intros []|].
  destruct (RoutingTable.has_key (node_id p) x) eqn:Hk; [eauto|].
  intros [-> | H]; [|auto].
  unfold RoutingTable.has_key in Hk; rewrite Z.eqb_refl in Hk; discriminate.
Qed.

(** ** Send: where the message goes *)

(** [Send] copies the node's client mode into the message (line 350). *)
Lemma Send_message_client_node P destination claim data response_functor timeout
      direct cacheable st :
  client_node (fst (Send_message P destination claim data response_functor timeout
                                 direct cacheable st))
  = Some (client_mode st).
Proof.
  unfold Send_message, AddTask.
  destruct direct, response_functor, (IsZero claim); reflexivity.
Qed.

(** No way out of lines 359-397 touches the routing table. *)
Lemma Send_route_routing_table destination m s :
  routing_table_ (Send_route destination m s) = routing_table_ s.
Proof.
  unfold Send_route, OnMessageReceived.
  destruct (kAnonymousNode_ s || (RoutingTable.Size (routing_table_ s) =? 0));
    [reflexivity|].
  destruct (negb (kNodeId_ s =? destination)); [reflexivity|].
  destruct (client_mode s); [reflexivity|].
  destruct (running_ s); reflexivity.
Qed.

(** Lines 406-426 on the bytes of a message that names a non-zero source and
    does not come from a client: the test of line 416 holds whatever the node,
    so the source goes to the random-node helper and the parsed message to
    the message handler. *)
Lemma DoOnMessageReceived_from_node m source s :
  source_id m = Some source ->
  source <> ZeroId ->
  client_node m = Some false ->
  trace_ (DoOnMessageReceived (SerializeAsString m) s)
  = trace_ s ++ [EvRandomNodeAdd source; EvHandleMessage m].
Proof.
  intros Hsrc Hnz Hcl.
  unfold DoOnMessageReceived; cbn [SerializeAsString ParseFromString].
  rewrite Hsrc, Hcl; cbn [flag has id_of negb].
  rewrite orb_true_r; cbn [andb orb].
  apply IsZero_false in Hnz; rewrite Hnz; cbn [negb].
  unfold emit; simpl; rewrite <- app_assoc; reflexivity.
Qed.

Section SendRouting.

Variable P : Parameters.
Variable RC : ReturnCodes.
Variables destination claim : NodeId.
Variable data : String.string.
Variable response_functor : option Callback.
Variable timeout : Z.
Variables direct cacheable : bool.
Variable st : Impl.

Let st' := Send P destination claim data response_functor timeout direct cacheable st.

(** Rewrites a validated [Send] into [Send_route] applied to the prepared
    message [m0] and to the state that differs from [st] by the timer [tm]. *)
Local Ltac send_prepared Hv m0 tm :=
  let E := fresh "E" in
  let F := fresh "F" in
  pose proof (Send_valid_unfold P destination claim data response_functor timeout
                direct cacheable st Hv) as E;
  pose proof (Send_message_frame P destination claim data response_functor timeout
                direct cacheable st) as F;
  cbv zeta in E, F; rewrite E, F; clear E F;
  set (m0 := fst _) in *; set (tm := timer_ _); clearbody m0 tm.

Lemma CancelTask_removes i tm k :
  In k (Timer.tasks (Timer.CancelTask i tm)) -> Timer.task_id k <> i.
Proof.
  unfold Timer.CancelTask; simpl; intros H.
  apply filter_In in H as [_ H].
  apply negb_true_iff, Z.eqb_neq in H; exact H.
Qed.

(** C3.  A validated [Send] by an anonymous node, or by a node whose routing
    table is empty, fills [relay_id] with the node's id and
    [relay_connection_id] with its relay handle and sends the message
    directly over the bootstrap connection.  When the transport later reports
    a result other than success through the functor it was given, the task
    that this queues cancels the pending task with the message's id and
    notifies the network-status functor with [kAnonymousSessionEnded] on an
    anonymous node and [kPartialJoinSessionEnded] otherwise. *)
Theorem Send_relays_through_bootstrap :
  valid_send P destination data ->
  kAnonymousNode_ st = true \/ routing_table_ st = [] ->
  exists m,
    new_events st st'
    = [EvSendToDirect (NodeLevel m) (bootstrap_connection_id st) (RelaySendResult m)]
    /\ relay_id m = Some (kNodeId_ st)
    /\ relay_connection_id m = Some (this_node_relay_connection_id st)
    /\ forall (result : Z) (o : BootstrapOutcome) (later : Impl),
         result <> kSuccess ->
         posted_ (message_sent (RelaySendResult m) result later)
         = posted_ later ++ [RunSendResult m result]
         /\ let final := run_task P RC (RunSendResult m result) o later in
            timer_ final = Timer.CancelTask (id_or_default m) (timer_ later)
            /\ (forall k, In k (Timer.tasks (timer_ final)) ->
                          Timer.task_id k <> id_or_default m)
            /\ forall f, network_status (functors_ later) = Some f ->
                 trace_ final
                 = trace_ later
                   ++ [EvNetworkStatus f
                         (if kAnonymousNode_ later then kAnonymousSessionEnded RC
                          else kPartialJoinSessionEnded RC)].
Proof.
  intros Hv Hrelay. unfold st'. send_prepared Hv m0 tm.
  assert (Hc : kAnonymousNode_ st || (RoutingTable.Size (routing_table_ st) =? 0) = true).
  { destruct Hrelay as [-> | ->]; [reflexivity | apply orb_true_r]. }
  destruct (Send_route_cases destination st m0 tm)
    as [(_ & Htr & _) | [(Hf & _) | (Hf & _)]]; try congruence.
  eexists; split; [apply new_events_app; exact Htr|].
  split; [reflexivity|]. split; [reflexivity|].
  intros result o later Hres; split; [reflexivity|].
  assert (Hne : negb (kSuccess =? result) = true)
    by (apply negb_true_iff, Z.eqb_neq; congruence).
  cbv zeta; unfold run_task, send_result; rewrite Hne.
  unfold NotifyNetworkStatus; simpl.
  split; [|split].
  - destruct (kAnonymousNode_ later), (network_status (functors_ later)); reflexivity.
  - intros k Hk; apply CancelTask_removes with (tm := timer_ later).
    destruct (kAnonymousNode_ later), (network_status (functors_ later)); exact Hk.
  - intros f Hf; rewrite Hf.
    destruct (kAnonymousNode_ later); reflexivity.
Qed.

(** C4.  A validated [Send] by a node that is not anonymous and has a
    non-empty routing table stamps the message with the node's id as source
    and leaves the routing table as it is.

    If the destination is the node itself and the node is not in client
    mode, the message is delivered locally through the inbound receive path:
    [Send] is the call of [OnMessageReceived] on the serialised message,
    nothing goes to the transport, and on a running node exactly one task
    is queued; whenever the io service runs that task, at any later state of
    the node, [DoOnMessageReceived] parses the bytes back to the message,
    adds the node's own id to the random-node helper and hands the message
    to the message handler.  The inbound path takes no work once [running_]
    is cleared (line 402): then nothing is queued.

    Otherwise the message is given to the transport's [SendToClosestNode]
    and nothing is queued; the next hop the transport takes for that
    envelope from the node's routing table is the table peer closest to the
    destination. *)
Theorem Send_local_or_closest_node :
  valid_send P destination data ->
  kAnonymousNode_ st = false ->
  routing_table_ st <> [] ->
  exists m,
    source_id m = Some (kNodeId_ st)
    /\ destination_id m = Some destination
    /\ routing_table_ st' = routing_table_ st
    /\ if (kNodeId_ st =? destination) && negb (client_mode st)
       then st' = OnMessageReceived (SerializeAsString m) (set_timer (timer_ st') st)
            /\ new_events st st' = []
            /\ (running_ st = true ->
                new_tasks st st' = [RunDoOnMessageReceived (SerializeAsString m)]
                /\ forall (o : BootstrapOutcome) (later : Impl),
                     new_events later
                       (run_task P RC (RunDoOnMessageReceived (SerializeAsString m))
                                 o later)
                     = [EvRandomNodeAdd (kNodeId_ st); EvHandleMessage m])
            /\ (running_ st = false -> new_tasks st st' = [])
       else new_events st st' = [EvSendToClosestNode (NodeLevel m)]
            /\ posted_ st' = posted_ st
            /\ exists peer,
                 next_hop (NodeLevel m) (routing_table_ st') = Some peer
                 /\ In peer (routing_table_ st')
                 /\ forall q, In q (routing_table_ st') ->
                      RoutingTable.distance (node_id peer) destination
                      <= RoutingTable.distance (node_id q) destination.
Proof.
  intros Hv Hanon Hrt. unfold st'.
  pose proof (Send_message_fields P destination claim data response_functor timeout
                direct cacheable st) as (Hdest & _ & _); cbv zeta in Hdest.
  pose proof (Send_message_client_node P destination claim data response_functor
                timeout direct cacheable st) as Hcl.
  send_prepared Hv m0 tm.
  assert (Hc : kAnonymousNode_ st || (RoutingTable.Size (routing_table_ st) =? 0) = false).
  { rewrite Hanon; simpl; apply Size_nonzero; exact Hrt. }
  assert (Htable : routing_table_ (Send_route destination m0 (set_timer tm st))
                   = routing_table_ st).
  { rewrite Send_route_routing_table; reflexivity. }
  destruct (Send_route_cases destination st m0 tm)
    as [(Hf & _) | [(_ & Hself & Htr & Hp) | (_ & Hself & Hst)]]; try congruence.
  - exists (set_source_id (kNodeId_ st) m0).
    split; [reflexivity|]. split; [exact Hdest|]. split; [exact Htable|].
    rewrite Hself.
    split; [apply new_events_app; exact Htr|]. split; [exact Hp|].
    rewrite Htable.
    destruct (closest_node_nonempty destination _ Hrt) as [peer Hpeer].
    exists peer; simpl; rewrite Hdest; simpl.
    split; [exact Hpeer|]. split; [exact (closest_node_In _ _ _ Hpeer)|].
    exact (closest_node_minimal _ _ _ Hpeer).
  - exists (set_source_id (kNodeId_ st) m0).
    split; [reflexivity|]. split; [exact Hdest|]. split; [exact Htable|].
    rewrite Hself.
    apply andb_true_iff in Hself as [Heq Hclient].
    apply Z.eqb_eq in Heq. apply negb_true_iff in Hclient.
    rewrite Hst. unfold OnMessageReceived; simpl.
    destruct (running_ st) eqn:Hrun; simpl.
    + split; [destruct st; simpl in *; rewrite Hrun; reflexivity|].
      split; [apply new_events_same; reflexivity|].
      split; [|discriminate].
      intros _; split; [unfold new_tasks; simpl; apply skipn_app_exact|].
      intros o later; apply new_events_app; cbn [run_task].
      apply DoOnMessageReceived_from_node.
      * reflexivity.
      * rewrite Heq; exact (proj1 Hv).
      * change (client_node (set_source_id (kNodeId_ st) m0)) with (client_node m0).
        rewrite Hcl, Hclient; reflexivity.
    + split; [destruct st; simpl in *; rewrite Hrun; reflexivity|].
      split; [apply new_events_same; reflexivity|].
      split; [discriminate|].
      intros _; unfold new_tasks; simpl; apply skipn_all.
Qed.

End SendRouting.

(** A node that has joined: two peers in the routing table. *)
Definition joined_node : Impl :=
  set_routing_table [mkNodeInfo 12 112; mkNodeInfo 6 106] sample_node.

Lemma Send_relays_witness :
  (valid_send default_parameters 9 Samples.hello /\ routing_table_ sample_node = [])
  /\ exists m,
       new_events sample_node
         (Send default_parameters 9 0 Samples.hello (Some 7%nat) 1000 true false sample_node)
       = [EvSendToDirect (NodeLevel m) 900 (RelaySendResult m)]
       /\ relay_id m = Some 5
       /\ relay_connection_id m = Some 901.
Proof.
  assert (Hv : valid_send default_parameters 9 Samples.hello).
  { repeat split; [discriminate | simpl; lia | simpl; lia]. }
  split; [split; [exact Hv | reflexivity]|].
  destruct (Send_relays_through_bootstrap default_parameters default_return_codes
              9 0 Samples.hello (Some 7%nat) 1000 true false sample_node
              Hv (or_intror eq_refl)) as (m & Hev & Hid & Hconn & _).
  exists m; repeat split; assumption.
Defined.

Lemma Send_local_or_closest_witness :
  (valid_send default_parameters 5 Samples.hello
   /\ kAnonymousNode_ joined_node = false
   /\ routing_table_ joined_node <> [])
  /\ exists m,
       source_id m = Some 5
       /\ new_tasks joined_node
            (Send default_parameters 5 0 Samples.hello None 1000 true false joined_node)
          = [RunDoOnMessageReceived (SerializeAsString m)]
       /\ new_events joined_node
            (run_task default_parameters default_return_codes
               (RunDoOnMessageReceived (SerializeAsString m))
               (mkOutcome kSuccess 900 901) joined_node)
          = [EvRandomNodeAdd 5; EvHandleMessage m].
Proof.
  assert (Hv : valid_send default_parameters 5 Samples.hello).
  { repeat split; [discriminate | simpl; lia | simpl; lia]. }
  assert (Hrt : routing_table_ joined_node <> []) by discriminate.
  split; [split; [exact Hv | split; [reflexivity | exact Hrt]]|].
  destruct (Send_local_or_closest_node default_parameters default_return_codes
              5 0 Samples.hello None 1000
              true false joined_node Hv eq_refl Hrt) as (m & Hsrc & _ & _ & Hcase).
  exists m; split; [exact Hsrc|].
  simpl in Hcase; destruct Hcase as (_ & _ & Hrun & _).
  destruct (Hrun eq_refl) as (Htasks & Hdeliver).
  split; [exact Htasks | exact (Hdeliver (mkOutcome kSuccess 900 901) joined_node)].
Defined.

(** ** Deadline timers *)

(** [expires_from_now] followed by [async_wait] on the timer [t]: the timer
    waits with the new expiry, the wait that was pending is completed with
    [operation_aborted], and nothing else changes. *)
Lemma arm_timer t d h st :
  let st' := async_wait t h (expires_from_now t d st) in
  get_timer t st' = mkDeadlineTimer (now_ st + d) (Some h)
  /\ (forall t', t' <> t -> get_timer t' st' = get_timer t' st)
  /\ posted_ st'
     = posted_ st
       ++ match waiter (get_timer t st) with
          | Some h0 => [Completion h0 operation_aborted]
          | None => []
          end
  /\ trace_ st' = trace_ st
  /\ routing_table_ st' = routing_table_ st
  /\ running_ st' = running_ st
  /\ now_ st' = now_ st
  /\ timer_ st' = timer_ st
  /\ kNodeId_ st' = kNodeId_ st.
Proof.
  unfold async_wait, expires_from_now, cancel.
  destruct t; simpl; destruct (waiter _); simpl;
    (repeat split; try (symmetry; apply app_nil_r));
    intros []; intros; try reflexivity; congruence.
Qed.

(** The state in which the handler of the timer [t] runs when it expires. *)
Definition at_expiry (t : TimerName) (st : Impl) : Impl :=
  put_timer t (mkDeadlineTimer (expiry (get_timer t st)) None)
    (set_now (Z.max (now_ st) (expiry (get_timer t st))) st).

(** An expiring timer runs the call its handler makes for [success]. *)
Lemma expire_calls P RC o t st h c :
  waiter (get_timer t st) = Some h ->
  handler_call h success = Some c ->
  expire P RC t o st = run_call P RC c o (at_expiry t st).
Proof.
  unfold expire, wake, at_expiry; intros -> Hc.
  destruct t; simpl; rewrite Hc; reflexivity.
Qed.

(** ** The recovery loop *)

(** [n] peers with distinct ids and connection ids. *)
Definition peers (n : nat) : RoutingTable.t :=
  map (fun k => mkNodeInfo (Z.of_nat k) (Z.of_nat k)) (seq 100 n).

(** A node in the recovery loop: with 47 peers its recovery timer fired, a
    request was sent and the timer was armed again; a 48th peer, which brings
    the table to [routing_table_size_threshold] of the default parameters, was
    admitted since. *)
Definition crowded_node : Impl :=
  set_routing_table (peers 48)
    (ReSendFindNodeRequest default_parameters success false
       (set_routing_table (peers 47) sample_node)).

(** A transport on which every bootstrap succeeds. *)
Definition bootstrap_ok : BootstrapOutcome := mkOutcome kSuccess 900 901.

(** C5, as stated, fails: the recovery timer fires on a running node with 48
    peers; no request is sent and the timer is not armed again. *)
Lemma recovery_wake_full_table_sends_nothing :
  let st := crowded_node in
  let st' := expire default_parameters default_return_codes recovery_timer bootstrap_ok st in
  running_ st = true
  /\ RoutingTable.Size (routing_table_ st) = 48
  /\ recovery_timer_ st = mkDeadlineTimer 60000 (Some (WakeRecoveryAgain success))
  /\ envelopes (new_events st st') = []
  /\ waiter (recovery_timer_ st') = None.
Proof. vm_compute; repeat split. Qed.

Section RecoveryCall.

Variable P : Parameters.
Variable ec : error_code.
Variable ignore_size : bool.
Variable st : Impl.

Let st' := ReSendFindNodeRequest P ec ignore_size st.
Let size := RoutingTable.Size (routing_table_ st).

(** [ReSendFindNodeRequest] on a running node, by the size of the table. *)
Lemma ReSendFindNodeRequest_cases :
  running_ st = true ->
  is_aborted ec = false ->
  (size = 0 ->
     st' = ReBootstrap P st
     /\ new_events st st' = []
     /\ re_bootstrap_timer_ st'
        = mkDeadlineTimer (now_ st + re_bootstrap_time_lag P) (Some WakeReBootstrap)
     /\ recovery_timer_ st' = recovery_timer_ st)
  /\ (0 < size ->
      ignore_size = true \/ size < routing_table_size_threshold P ->
        new_events st st'
        = [EvSendToClosestNode
             (FindNodes (kNodeId_ st) (kNodeId_ st)
                (if ignore_size && (routing_table_size_threshold P <? size)
                 then closest_nodes_size P else max_routing_table_size P)
                false ZeroId)]
        /\ recovery_timer_ st'
           = mkDeadlineTimer (now_ st + find_node_interval P) (Some (WakeRecoveryAgain ec))
        /\ handler_call (WakeRecoveryAgain ec) success
           = Some (CallReSendFindNodeRequest success false))
  /\ (0 < size ->
      ignore_size = false ->
      routing_table_size_threshold P <= size ->
        st' = st).
Proof.
  intros Hrun Hec. unfold st', ReSendFindNodeRequest. fold size. rewrite Hec.
  split; [|split].
  - intros Hz. rewrite Hz; simpl. split; [reflexivity|].
    unfold ReBootstrap; rewrite Hrun; simpl.
    destruct (arm_timer re_bootstrap_timer (re_bootstrap_time_lag P) WakeReBootstrap st)
      as (Ht & Hother & _ & Htr & _).
    split; [apply new_events_same; exact Htr|].
    split; [exact Ht|].
    apply (Hother recovery_timer); discriminate.
  - intros Hpos Hcond.
    replace (size =? 0) with false by (symmetry; apply Z.eqb_neq; lia).
    replace (ignore_size || (size <? routing_table_size_threshold P)) with true.
    2:{ symmetry; apply orb_true_iff.
        destruct Hcond as [-> | H]; [left; reflexivity | right; apply Z.ltb_lt; exact H]. }
    set (rpc := EvSendToClosestNode _).
    replace (running_ (emit rpc st)) with true by (symmetry; exact Hrun).
    simpl negb; cbv iota.
    destruct (arm_timer recovery_timer (find_node_interval P) (WakeRecoveryAgain ec)
                (emit rpc st)) as (Ht & _ & _ & Htr & _).
    split; [apply new_events_app; rewrite Htr; reflexivity|].
    split; [exact Ht|].
    unfold handler_call; rewrite Hec; reflexivity.
  - intros Hpos -> Hge.
    replace (size =? 0) with false by (symmetry; apply Z.eqb_neq; lia).
    replace (size <? routing_table_size_threshold P) with false
      by (symmetry; apply Z.ltb_ge; lia).
    reflexivity.
Qed.


End RecoveryCall.

Section Recovery.

Variable P : Parameters.
Variable RC : ReturnCodes.
Variable o : BootstrapOutcome.
Variable h : WaitHandler.
Variable ignore_size : bool.
Variable st : Impl.

Let size := RoutingTable.Size (routing_table_ st).
Let fired := expire P RC recovery_timer o st.
Let woken := Z.max (now_ st) (expiry (recovery_timer_ st)).

(** C5, amended.  When the recovery timer fires on a running node and its
    handler calls [ReSendFindNodeRequest]: with an empty table the node
    schedules the re-bootstrap and sends nothing; with a non-empty table it
    sends, if the wake follows the loss of a close node or the table is
    smaller than [routing_table_size_threshold], one FindNodes request for
    itself to the closest node, asking for [max_routing_table_size] nodes
    (for [closest_nodes_size] after a loss with a table above the
    threshold), and arms the recovery timer with [find_node_interval], whose
    next uncancelled wake repeats the call; on a periodic wake with a table
    at or above the threshold it sends nothing and the timer stays
    unarmed. *)
Theorem recovery_wake_by_table_size :
  running_ st = true ->
  waiter (recovery_timer_ st) = Some h ->
  handler_call h success = Some (CallReSendFindNodeRequest success ignore_size) ->
  (size = 0 ->
     new_events st fired = []
     /\ re_bootstrap_timer_ fired
        = mkDeadlineTimer (woken + re_bootstrap_time_lag P) (Some WakeReBootstrap)
     /\ waiter (recovery_timer_ fired) = None)
  /\ (0 < size ->
      ignore_size = true \/ size < routing_table_size_threshold P ->
        new_events st fired
        = [EvSendToClosestNode
             (FindNodes (kNodeId_ st) (kNodeId_ st)
                (if ignore_size && (routing_table_size_threshold P <? size)
                 then closest_nodes_size P else max_routing_table_size P)
                false ZeroId)]
        /\ recovery_timer_ fired
           = mkDeadlineTimer (woken + find_node_interval P)
                             (Some (WakeRecoveryAgain success))
        /\ handler_call (WakeRecoveryAgain success) success
           = Some (CallReSendFindNodeRequest success false))
  /\ (0 < size ->
      ignore_size = false ->
      routing_table_size_threshold P <= size ->
        new_events st fired = []
        /\ waiter (recovery_timer_ fired) = None).
Proof.
  intros Hrun Hw Hcall. unfold fired.
  rewrite (expire_calls P RC o recovery_timer st h _ Hw Hcall). cbn [run_call].
  pose proof (ReSendFindNodeRequest_cases P success ignore_size
                (at_expiry recovery_timer st) Hrun eq_refl) as (Hzero & Hsend & Hidle).
  cbv zeta in Hzero, Hsend, Hidle.
  change (RoutingTable.Size (routing_table_ (at_expiry recovery_timer st)))
    with size in Hzero, Hsend, Hidle.
  split; [|split].
  - intros Hz. destruct (Hzero Hz) as (_ & Hev & Hreb & Hrec).
    split; [exact Hev|]. split; [exact Hreb|]. rewrite Hrec; reflexivity.
  - intros Hpos Hcond. exact (Hsend Hpos Hcond).
  - intros Hpos Hig Hge. rewrite (Hidle Hpos Hig Hge).
    split; [apply new_events_same|]; reflexivity.
Qed.

End Recovery.

Lemma recovery_wake_witness :
  (running_ crowded_node = true
   /\ waiter (recovery_timer_ crowded_node) = Some (WakeRecoveryAgain success))
  /\ new_events crowded_node
       (expire default_parameters default_return_codes recovery_timer bootstrap_ok crowded_node)
     = []
  /\ waiter (recovery_timer_
               (expire default_parameters default_return_codes recovery_timer bootstrap_ok
                       crowded_node))
     = None.
Proof.
  split; [split; reflexivity|].
  destruct (recovery_wake_by_table_size default_parameters default_return_codes
              bootstrap_ok (WakeRecoveryAgain success) false crowded_node
              eq_refl eq_refl eq_refl) as (_ & _ & Hidle).
  apply Hidle; [reflexivity | reflexivity | vm_compute; discriminate].
Defined.

(** ** The setup loop *)

Section Setup.

Variable P : Parameters.
Variable RC : ReturnCodes.
Variable o : BootstrapOutcome.

(** The request of the setup loop: one node closest to this node, marked as
    a relay request with the node's relay handle. *)
Definition find_closest_request (st : Impl) : Event :=
  EvSendToDirect
    (FindNodes (kNodeId_ st) (kNodeId_ st) 1 true (this_node_relay_connection_id st))
    (bootstrap_connection_id st) LogFindNodesSent.

Lemma send_find_closest_spec (attempts : Z) (s : Impl) :
  running_ s = true ->
  let s' := send_find_closest P attempts s in
  trace_ s' = trace_ s ++ [find_closest_request s]
  /\ setup_timer_ s'
     = mkDeadlineTimer (now_ s + find_close_node_interval P)
                       (Some (WakeSetup (attempts + 1)))
  /\ recovery_timer_ s' = recovery_timer_ s
  /\ re_bootstrap_timer_ s' = re_bootstrap_timer_ s
  /\ routing_table_ s' = routing_table_ s
  /\ running_ s' = true
  /\ now_ s' = now_ s
  /\ find_closest_request s' = find_closest_request s.
Proof.
  intros Hs; unfold send_find_closest; cbv zeta.
  fold (find_closest_request s).
  change (running_ (emit (find_closest_request s) s)) with (running_ s).
  rewrite Hs; cbn [negb].
  destruct (arm_timer setup_timer (find_close_node_interval P)
              (WakeSetup (attempts + 1)) (emit (find_closest_request s) s))
    as (Ht & Hother & _ & Htr & Hrt & Hr & Hnow & _).
  split; [exact Htr|]. split; [exact Ht|].
  split; [apply (Hother recovery_timer); discriminate|].
  split; [apply (Hother re_bootstrap_timer); discriminate|].
  split; [exact Hrt|]. split; [rewrite Hr; exact Hs|]. split; [exact Hnow|].
  unfold find_closest_request, async_wait, expires_from_now, cancel; simpl.
  destruct (waiter (setup_timer_ s)); reflexivity.
Qed.

(** [ReBootstrap] on a running node. *)
Lemma ReBootstrap_spec (s : Impl) :
  running_ s = true ->
  let s' := ReBootstrap P s in
  re_bootstrap_timer_ s'
  = mkDeadlineTimer (now_ s + re_bootstrap_time_lag P) (Some WakeReBootstrap)
  /\ trace_ s' = trace_ s
  /\ setup_timer_ s' = setup_timer_ s
  /\ recovery_timer_ s' = recovery_timer_ s
  /\ routing_table_ s' = routing_table_ s
  /\ running_ s' = true
  /\ now_ s' = now_ s
  /\ find_closest_request s' = find_closest_request s
  /\ posted_ s'
     = posted_ s
       ++ match waiter (re_bootstrap_timer_ s) with
          | Some h0 => [Completion h0 operation_aborted]
          | None => []
          end.
Proof.
  intros Hs; unfold ReBootstrap; rewrite Hs; cbn [negb]; cbv zeta.
  destruct (arm_timer re_bootstrap_timer (re_bootstrap_time_lag P) WakeReBootstrap s)
    as (Ht & Hother & Hp & Htr & Hrt & Hr & Hnow & _).
  split; [exact Ht|]. split; [exact Htr|].
  split; [apply (Hother setup_timer); discriminate|].
  split; [apply (Hother recovery_timer); discriminate|].
  split; [exact Hrt|]. split; [rewrite Hr; exact Hs|]. split; [exact Hnow|].
  split; [|exact Hp].
  unfold find_closest_request, async_wait, expires_from_now, cancel; simpl.
  destruct (waiter (re_bootstrap_timer_ s)); reflexivity.
Qed.

(** The sending branches of [FindClosestNode] on a running node. *)
Lemma FindClosestNode_sends (attempts : Z) (st : Impl) :
  running_ st = true ->
  attempts = 0 \/ routing_table_ st = [] ->
  let st' := FindClosestNode P success attempts st in
  new_events st st' = [find_closest_request st]
  /\ setup_timer_ st'
     = mkDeadlineTimer (now_ st + find_close_node_interval P) (Some (WakeSetup (attempts + 1)))
  /\ recovery_timer_ st' = recovery_timer_ st
  /\ routing_table_ st' = routing_table_ st
  /\ running_ st' = true
  /\ now_ st' = now_ st.
Proof.
  intros Hrun Hcase. unfold FindClosestNode. rewrite Hrun; cbn [negb is_aborted].
  destruct (attempts =? 0) eqn:Hz.
  - destruct (send_find_closest_spec attempts st Hrun)
      as (Htr & Hset & Hrec & _ & Hrt & Hr & Hnow & _).
    split; [apply new_events_app; exact Htr|]. split; [exact Hset|].
    split; [exact Hrec|]. split; [exact Hrt|]. split; [exact Hr | exact Hnow].
  - destruct Hcase as [-> | Hrt]; [discriminate|].
    replace (0 <? RoutingTable.Size (routing_table_ st)) with false
      by (rewrite Hrt; reflexivity).
    cbv zeta.
    destruct (maximum_find_close_node_failures P <=? attempts).
    + destruct (ReBootstrap_spec st Hrun)
        as (_ & Htr & _ & Hrec & Hrt' & Hr & Hnow & Hreq & _).
      destruct (send_find_closest_spec attempts (ReBootstrap P st) Hr)
        as (Htr' & Hset & Hrec' & _ & Hrt'' & Hr' & Hnow' & _).
      split; [apply new_events_app; rewrite Htr', Htr, Hreq; reflexivity|].
      split; [rewrite Hset, Hnow; reflexivity|].
      split; [congruence|]. split; [congruence|]. split; [assumption | congruence].
    + destruct (send_find_closest_spec attempts st Hrun)
        as (Htr & Hset & Hrec & _ & Hrt' & Hr & Hnow & _).
      split; [apply new_events_app; exact Htr|]. split; [exact Hset|].
      split; [exact Hrec|]. split; [exact Hrt'|]. split; [exact Hr | exact Hnow].
Qed.

(** The exit of the setup loop (lines 183-196) on a running node. *)
Lemma FindClosestNode_exits (attempts : Z) (st : Impl) :
  running_ st = true ->
  attempts <> 0 ->
  routing_table_ st <> [] ->
  let st' := FindClosestNode P success attempts st in
  new_events st st' = []
  /\ setup_timer_ st' = setup_timer_ st
  /\ recovery_timer_ st'
     = mkDeadlineTimer (now_ st + find_node_interval P) (Some (WakeRecovery false)).
Proof.
  intros Hrun Hat Hrt. unfold FindClosestNode. rewrite Hrun; cbn [negb is_aborted].
  replace (attempts =? 0) with false by (symmetry; apply Z.eqb_neq; exact Hat).
  replace (0 <? RoutingTable.Size (routing_table_ st)) with true
    by (symmetry; apply Size_pos; exact Hrt).
  destruct (arm_timer recovery_timer (find_node_interval P) (WakeRecovery false) st)
    as (Ht & Hother & _ & Htr & _).
  split; [apply new_events_same; exact Htr|].
  split; [apply (Hother setup_timer); discriminate | exact Ht].
Qed.

Lemma expire_setup (n : Z) (st : Impl) :
  waiter (setup_timer_ st) = Some (WakeSetup n) ->
  expire P RC setup_timer o st = FindClosestNode P success n (at_expiry setup_timer st).
Proof.
  intros Hw.
  exact (expire_calls P RC o setup_timer st _ (CallFindClosestNode success n) Hw eq_refl).
Qed.

(** [DoJoin] on a running node that is not anonymous: after a successful
    bootstrap the setup loop starts with no attempt made, and the host is told
    of the success. *)
Lemma DoJoin_starts_setup_loop (endpoints : list Endpoint) (st : Impl) :
  running_ st = true ->
  kAnonymousNode_ st = false ->
  bootstrap_result o = kSuccess ->
  DoJoin P RC endpoints o st
  = NotifyNetworkStatus kSuccess
      (FindClosestNode P success 0 (snd (DoBootstrap RC endpoints o st))).
Proof.
  intros Hrun Hanon Hres. unfold DoJoin.
  destruct (DoBootstrap RC endpoints o st) as [return_value s] eqn:Hboot.
  assert (Hs : return_value = kSuccess /\ kAnonymousNode_ s = false).
  { revert Hboot. unfold DoBootstrap, Bootstrap.
    set (s0 := cancel setup_timer (cancel recovery_timer st)).
    assert (Hs0 : running_ s0 = true /\ kAnonymousNode_ s0 = false).
    { unfold s0, cancel; simpl.
      destruct (waiter (recovery_timer_ st)); simpl;
        destruct (waiter (setup_timer_ st)); simpl; split; assumption. }
    destruct Hs0 as [Hr0 Ha0]. rewrite Hr0, Hres, Z.eqb_refl; cbn [negb].
    destruct (negb (IsZero (bootstrap_connection_id s0)));
      intros [= <- <-]; split; try reflexivity; exact Ha0. }
  destruct Hs as [-> Hs]. simpl. rewrite Hs. reflexivity.
Qed.

(** C6.  In the setup loop of a running node, the first call (from
    [DoJoin], with no attempt made) and every wake of the setup timer at
    which the routing table is empty send one FindNodes request for exactly
    one node closest to this node directly to the bootstrap peer and arm the
    setup timer with [find_close_node_interval]; the first wake at which the
    table is not empty sends nothing, leaves the setup timer unarmed and arms
    the recovery timer with [find_node_interval]. *)
Theorem setup_loop_until_first_peer (n : Z) (st : Impl) :
  running_ st = true ->
  (let st' := FindClosestNode P success 0 st in
   new_events st st' = [find_closest_request st]
   /\ setup_timer_ st'
      = mkDeadlineTimer (now_ st + find_close_node_interval P) (Some (WakeSetup 1)))
  /\ (waiter (setup_timer_ st) = Some (WakeSetup n) ->
      0 < n ->
      let st' := expire P RC setup_timer o st in
      let woken := Z.max (now_ st) (expiry (setup_timer_ st)) in
      (routing_table_ st = [] ->
         new_events st st' = [find_closest_request st]
         /\ setup_timer_ st'
            = mkDeadlineTimer (woken + find_close_node_interval P)
                              (Some (WakeSetup (n + 1))))
      /\ (routing_table_ st <> [] ->
            new_events st st' = []
            /\ waiter (setup_timer_ st') = None
            /\ recovery_timer_ st'
               = mkDeadlineTimer (woken + find_node_interval P)
                                 (Some (WakeRecovery false)))).
Proof.
  intros Hrun; split.
  - destruct (FindClosestNode_sends 0 st Hrun (or_introl eq_refl)) as (Hev & Hset & _).
    split; assumption.
  - intros Hw Hn; cbv zeta. rewrite (expire_setup n st Hw).
    assert (Hrun' : running_ (at_expiry setup_timer st) = true) by exact Hrun.
    split.
    + intros Hrt.
      destruct (FindClosestNode_sends n (at_expiry setup_timer st) Hrun'
                  (or_intror Hrt)) as (Hev & Hset & _).
      split; [exact Hev | exact Hset].
    + intros Hrt.
      destruct (FindClosestNode_exits n (at_expiry setup_timer st) Hrun'
                  ltac:(lia) Hrt) as (Hev & Hset & Hrec).
      split; [exact Hev|]. split; [rewrite Hset; reflexivity | exact Hrec].
Qed.

End Setup.

(** The node after [k] wakes of the setup timer that followed the first call
    of [FindClosestNode], with the default parameters and no peer admitted. *)
Definition searching_node (k : nat) : Impl :=
  Nat.iter k (expire default_parameters default_return_codes setup_timer bootstrap_ok)
    (FindClosestNode default_parameters success 0 sample_node).

Lemma setup_loop_witness :
  (running_ (searching_node 0) = true
   /\ waiter (setup_timer_ (searching_node 0)) = Some (WakeSetup 1)
   /\ routing_table_ (searching_node 0) = [])
  /\ new_events (searching_node 0) (searching_node 1)
     = [EvSendToDirect (FindNodes 5 5 1 true 901) 900 LogFindNodesSent]
  /\ setup_timer_ (searching_node 1) = mkDeadlineTimer 10000 (Some (WakeSetup 2)).
Proof.
  split; [repeat split|].
  destruct (setup_loop_until_first_peer default_parameters default_return_codes
              bootstrap_ok 1 (searching_node 0) eq_refl) as (_ & Hwake).
  destruct (Hwake eq_refl eq_refl) as (Hempty & _).
  exact (Hempty eq_refl).
Defined.

(** ** The setup loop after the last allowed failure *)

(** C7, evaluated.  With the default parameters the third wake of the setup
    timer finds [attempts = 3 = maximum_find_close_node_failures] and an empty
    table.  The call schedules the re-bootstrap (for t = 25 s) and then still
    sends the FindNodes request and arms the setup timer (for t = 20 s).  The
    setup timer therefore fires first: the fourth wake sends once more and
    moves the re-bootstrap to t = 30 s, its earlier wait being completed with
    [operation_aborted]. *)
Lemma setup_loop_sends_after_re_bootstrap_scheduled :
  let st3 := searching_node 2 in
  let st4 := searching_node 3 in
  let st5 := searching_node 4 in
  (setup_timer_ st3 = mkDeadlineTimer 15000 (Some (WakeSetup 3))
   /\ routing_table_ st3 = []
   /\ waiter (re_bootstrap_timer_ st3) = None)
  /\ (re_bootstrap_timer_ st4 = mkDeadlineTimer 25000 (Some WakeReBootstrap)
      /\ new_events st3 st4
         = [EvSendToDirect (FindNodes 5 5 1 true 901) 900 LogFindNodesSent]
      /\ setup_timer_ st4 = mkDeadlineTimer 20000 (Some (WakeSetup 4)))
  /\ (re_bootstrap_timer_ st5 = mkDeadlineTimer 30000 (Some WakeReBootstrap)
      /\ new_events st4 st5
         = [EvSendToDirect (FindNodes 5 5 1 true 901) 900 LogFindNodesSent]
      /\ setup_timer_ st5 = mkDeadlineTimer 25000 (Some (WakeSetup 5))
      /\ posted_ st5 = [Completion WakeReBootstrap operation_aborted]).
Proof. vm_compute; repeat split. Qed.

Section Starvation.

Variable P : Parameters.
Variable RC : ReturnCodes.
Variable o : BootstrapOutcome.

Hypothesis interval_below_lag : find_close_node_interval P < re_bootstrap_time_lag P.

(** The setup loop has used up its attempts: the node runs with an empty
    table, the setup timer waits with a count of at least
    [maximum_find_close_node_failures], and the re-bootstrap is scheduled
    for later than the next setup wake. *)
Definition attempts_exhausted (st : Impl) : Prop :=
  running_ st = true
  /\ routing_table_ st = []
  /\ (exists n, waiter (setup_timer_ st) = Some (WakeSetup n)
                /\ maximum_find_close_node_failures P <= n /\ 0 < n)
  /\ waiter (re_bootstrap_timer_ st) = Some WakeReBootstrap
  /\ expiry (setup_timer_ st) < expiry (re_bootstrap_timer_ st).

Lemma attempts_exhausted_step st :
  attempts_exhausted st ->
  let st' := expire P RC setup_timer o st in
  attempts_exhausted st'
  /\ trace_ st' = trace_ st ++ [find_closest_request st]
  /\ find_closest_request st' = find_closest_request st.
Proof.
  intros (Hrun & Hrt & (n & Hw & Hmax & Hn) & Hre & Hlt); cbv zeta.
  rewrite (expire_setup P RC o n st Hw).
  set (s := at_expiry setup_timer st).
  assert (Hs : running_ s = true) by exact Hrun.
  unfold FindClosestNode. rewrite Hs; cbn [negb is_aborted].
  replace (n =? 0) with false by (symmetry; apply Z.eqb_neq; lia).
  replace (0 <? RoutingTable.Size (routing_table_ s)) with false
    by (change (routing_table_ s) with (routing_table_ st); rewrite Hrt; reflexivity).
  replace (maximum_find_close_node_failures P <=? n) with true
    by (symmetry; apply Z.leb_le; exact Hmax).
  cbv zeta.
  destruct (ReBootstrap_spec P s Hs)
    as (Hreb & Htr & _ & _ & Hrt' & Hr & Hnow & Hreq & _).
  destruct (send_find_closest_spec P n (ReBootstrap P s) Hr)
    as (Htr' & Hset & _ & Hreb' & Hrt'' & Hr' & _ & Hreq').
  split; [|split].
  - unfold attempts_exhausted.
    split; [exact Hr'|]. split; [rewrite Hrt'', Hrt'; exact Hrt|].
    split; [exists (n + 1); rewrite Hset; simpl; repeat split; lia|].
    split; [rewrite Hreb', Hreb; reflexivity|].
    rewrite Hset, Hreb', Hreb, Hnow; simpl; lia.
  - rewrite Htr', Htr, Hreq. reflexivity.
  - rewrite Hreq', Hreq. reflexivity.
Qed.

(** However many times the setup timer fires once the attempts are used
    up, the re-bootstrap stays scheduled behind the next setup wake, so the
    setup timer fires first again: every wake only adds one more FindNodes
    request to the trace, and the transport is never asked to bootstrap. *)
Lemma re_bootstrap_starved (k : nat) (st : Impl) :
  attempts_exhausted st ->
  let st' := Nat.iter k (expire P RC setup_timer o) st in
  attempts_exhausted st'
  /\ trace_ st' = trace_ st ++ repeat (find_closest_request st) k
  /\ find_closest_request st' = find_closest_request st.
Proof.
  intros Hex; induction k as [|k (IHa & IHt & IHr)]; cbv zeta.
  - split; [exact Hex|]. split; [symmetry; apply app_nil_r | reflexivity].
  - simpl Nat.iter. set (sk := Nat.iter k _ st) in *.
    destruct (attempts_exhausted_step sk IHa) as (Hnext & Hev & Hreq).
    split; [exact Hnext|]. split.
    + rewrite Hev, IHt, IHr, <- app_assoc.
      f_equal. simpl. symmetry; apply repeat_cons.
    + rewrite Hreq; exact IHr.
Qed.

End Starvation.

(** While the attempts are used up, firing the setup timer never makes the
    node ask the transport to bootstrap. *)
Lemma exhausted_never_bootstraps P RC o (k : nat) (st : Impl) (endpoints : list Endpoint) :
  find_close_node_interval P < re_bootstrap_time_lag P ->
  attempts_exhausted P st ->
  ~ In (EvBootstrap endpoints) (trace_ st) ->
  ~ In (EvBootstrap endpoints) (trace_ (Nat.iter k (expire P RC setup_timer o) st)).
Proof.
  intros Hlag Hex Hold.
  destruct (re_bootstrap_starved P RC o Hlag k st Hex) as (_ & Htr & _).
  cbv zeta in Htr; rewrite Htr; clear Htr.
  intros H; apply in_app_or in H as [H | H]; [exact (Hold H)|].
  apply repeat_spec in H. unfold find_closest_request in H. discriminate.
Qed.

(** With the default parameters the node is in that state after the third
    wake of the setup timer. *)
Lemma searching_node_exhausted :
  attempts_exhausted default_parameters (searching_node 3).
Proof.
  unfold attempts_exhausted.
  split; [vm_compute; reflexivity|]. split; [vm_compute; reflexivity|].
  split; [exists 4; vm_compute; repeat split; discriminate|].
  split; vm_compute; reflexivity.
Qed.

(** With the default parameters the setup loop of a node that finds no peer
    never reaches the bootstrap: whatever the number of setup wakes, the
    transport has not been asked to bootstrap. *)
Lemma searching_node_never_bootstraps (k : nat) (endpoints : list Endpoint) :
  ~ In (EvBootstrap endpoints) (trace_ (searching_node (k + 3))).
Proof.
  assert (E : searching_node (k + 3)
              = Nat.iter k (expire default_parameters default_return_codes setup_timer
                                   bootstrap_ok) (searching_node 3))
    by (unfold searching_node; apply Nat.iter_add).
  rewrite E; clear E.
  apply exhausted_never_bootstraps;
    [reflexivity | exact searching_node_exhausted |].
  assert (T : trace_ (searching_node 3)
              = repeat (EvSendToDirect (FindNodes 5 5 1 true 901) 900 LogFindNodesSent) 4)
    by (vm_compute; reflexivity).
  rewrite T; clear T.
  intros H; apply repeat_spec in H; discriminate.
Qed.

(** ** Loss of a close peer *)


Section CloseNodeLost.

Variable P : Parameters.
Variable RC : ReturnCodes.
Variable o : BootstrapOutcome.
Variable lost_connection_id : NodeId.
Variable peer : NodeInfo.
Variable st : Impl.

Let st1 := DoOnConnectionLost P RC lost_connection_id st.
Let st2 := expire P RC recovery_timer o st1.
Let size := RoutingTable.Size (routing_table_ st1).

Hypothesis running : running_ st = true.
Hypothesis in_table :
  RoutingTable.GetNodeInfo lost_connection_id (routing_table_ st) = Some peer.
Hypothesis known_peer : node_id peer <> ZeroId.
Hypothesis in_range :
  RoutingTable.IsThisNodeInRange (kNodeId_ st) (node_id peer) (closest_nodes_size P)
                                 (routing_table_ st) = true.



End CloseNodeLost.


(** ** Cancelled wakes *)

(** Whatever the handler, a wait completed with [operation_aborted] leaves
    the node as it was. *)
Lemma cancelled_wake_changes_nothing P RC h o st :
  wake P RC h operation_aborted o st = st.
Proof.
  unfold wake, handler_call; destruct h as [b | captured | n |]; simpl;
    try reflexivity.
  destruct (is_aborted captured); reflexivity.
Qed.

(** The handlers that test the status they are completed with make no call
    when that status is [operation_aborted]. *)
Lemma cancelled_wake_makes_no_call h :
  (forall captured, h <> WakeRecoveryAgain captured) ->
  handler_call h operation_aborted = None.
Proof.
  destruct h as [b | captured | n |]; intros H; try reflexivity.
  exfalso; exact (H captured eq_refl).
Qed.

(** The handler of lines 574-577 does not look at the status it is completed
    with: whenever the enclosing call was not aborted, it calls
    [ReSendFindNodeRequest] with that status, whatever it is. *)
Lemma recovery_again_ignores_wake_status captured ec :
  is_aborted captured = false ->
  handler_call (WakeRecoveryAgain captured) ec
  = Some (CallReSendFindNodeRequest ec false).
Proof. intros H; simpl; rewrite H; reflexivity. Qed.

(** C9, evaluated.  The recovery timer armed by [ReSendFindNodeRequest]
    (lines 573-577) is cancelled.  Its handler is completed with
    [operation_aborted], tests the status captured from the enclosing call
    instead, and calls [ReSendFindNodeRequest] with the aborted status; the
    handlers of the other [async_wait]s make no call. *)
Lemma cancelled_recovery_wake_calls_ReSendFindNodeRequest :
  let st := ReSendFindNodeRequest default_parameters success false joined_node in
  recovery_timer_ st = mkDeadlineTimer 60000 (Some (WakeRecoveryAgain success))
  /\ posted_ (cancel recovery_timer st)
     = [Completion (WakeRecoveryAgain success) operation_aborted]
  /\ handler_call (WakeRecoveryAgain success) operation_aborted
     = Some (CallReSendFindNodeRequest operation_aborted false)
  /\ handler_call (WakeRecovery false) operation_aborted = None
  /\ handler_call (WakeRecovery true) operation_aborted = None
  /\ handler_call (WakeSetup 1) operation_aborted = None
  /\ handler_call WakeReBootstrap operation_aborted = None.
Proof. vm_compute; repeat split. Qed.

(** ** Join over a populated table *)

Lemma GetClosestNode_member self rt :
  rt <> [] -> In (RoutingTable.GetClosestNode self rt) rt.
Proof.
  intros Hrt; unfold RoutingTable.GetClosestNode.
  destruct (closest_node_nonempty self rt Hrt) as [p Hp]; rewrite Hp.
  exact (closest_node_In _ _ _ Hp).
Qed.

(** One pass of the loop body removes exactly one entry. *)
Lemma drop_closest_shrinks self rt :
  rt <> [] ->
  S (length (snd (RoutingTable.DropNode
                    (node_id (RoutingTable.GetClosestNode self rt)) rt)))
  = length rt.
Proof.
  intros Hrt.
  destruct (GetNodeInfo_of_member rt _ (GetClosestNode_member self rt Hrt)) as [q Hq].
  exact (proj2 (DropNode_found _ _ _ Hq)).
Qed.

Section DropLoop.

Variable P : Parameters.

(** The loop of lines 122-126 counts up while the table shrinks: it stops
    when the counter meets the size, not when the table is empty. *)
Lemma drop_closest_loop_meets (fuel : nat) :
  forall (i : Z) (st : Impl),
    0 <= i ->
    i + RoutingTable.Size (routing_table_ st) < 2 ^ 16 ->
    (length (routing_table_ st) <= fuel)%nat ->
    let '(i', st') := drop_closest_loop fuel i st in
    RoutingTable.Size (routing_table_ st') <= i'
    /\ i' + RoutingTable.Size (routing_table_ st')
       = i + RoutingTable.Size (routing_table_ st)
    /\ (i' <= RoutingTable.Size (routing_table_ st') + 1 \/ i' = i)
    /\ kNodeId_ st' = kNodeId_ st
    /\ functors_ st' = functors_ st.
Proof.
  induction fuel as [|fuel IH]; intros i st Hi Hbound Hfuel; cbn [drop_closest_loop].
  - unfold RoutingTable.Size in *. repeat split; try lia; auto.
  - destruct (i <? RoutingTable.Size (routing_table_ st)) eqn:Hlt;
      unfold RoutingTable.Size in *.
    + apply Z.ltb_lt in Hlt.
      assert (Hrt : routing_table_ st <> [])
        by (intros E; rewrite E in Hlt; simpl in Hlt; lia).
      pose proof (drop_closest_shrinks (kNodeId_ st) (routing_table_ st) Hrt) as Hlen.
      set (st2 := set_routing_table _ (emit _ st)).
      assert (Hlen2 : S (length (routing_table_ st2)) = length (routing_table_ st))
        by exact Hlen.
      assert (Hwrap : (i + 1) mod 2 ^ 16 = i + 1)
        by (apply Z.mod_small; lia).
      rewrite Hwrap.
      specialize (IH (i + 1) st2 ltac:(lia) ltac:(lia) ltac:(lia)).
      destruct (drop_closest_loop fuel (i + 1) st2) as [i' st'].
      destruct IH as (Hexit & Hsum & Hnear & Hid & Hfun).
      split; [exact Hexit|]. split; [lia|]. split; [left; lia|].
      split; [rewrite Hid; reflexivity | rewrite Hfun; reflexivity].
    + apply Z.ltb_ge in Hlt. repeat split; try lia; auto.
Qed.

(** [BootstrapFromTheseEndpoints] calls [DoJoin] with half of the table
    still in place. *)
Lemma BootstrapFromTheseEndpoints_keeps_half (st : Impl) :
  RoutingTable.Size (routing_table_ st) < 2 ^ 16 ->
  RoutingTable.Size (routing_table_ (BootstrapFromTheseEndpoints_drop st))
  = RoutingTable.Size (routing_table_ st) / 2.
Proof.
  intros Hbound. unfold BootstrapFromTheseEndpoints_drop.
  destruct (0 <? RoutingTable.Size (routing_table_ st)) eqn:Hpos.
  - pose proof (drop_closest_loop_meets (length (routing_table_ st)) 0 st
                  ltac:(lia) ltac:(lia) ltac:(lia)) as H.
    destruct (drop_closest_loop (length (routing_table_ st)) 0 st) as [i' st'].
    destruct H as (Hexit & Hsum & Hnear & _).
    assert (Hrt : routing_table_ (NotifyNetworkStatus
                                    (RoutingTable.Size (routing_table_ (snd (i', st'))))
                                    (snd (i', st')))
                  = routing_table_ st').
    { unfold NotifyNetworkStatus; simpl.
      destruct (network_status (functors_ st')); reflexivity. }
    rewrite Hrt.
    apply Z.ltb_lt in Hpos.
    unfold RoutingTable.Size in *.
    apply Z.div_unique with (r := i' - Z.of_nat (length (routing_table_ st'))); lia.
  - apply Z.ltb_ge in Hpos.
    assert (RoutingTable.Size (routing_table_ st) = 0)
      by (unfold RoutingTable.Size in *; lia).
    rewrite H; reflexivity.
Qed.

(** With two peers or more the assertion of [DoBootstrap] does not hold when
    [BootstrapFromTheseEndpoints] reaches [DoJoin]. *)
Lemma BootstrapFromTheseEndpoints_breaks_assertion (st : Impl) :
  2 <= RoutingTable.Size (routing_table_ st) < 2 ^ 16 ->
  DoBootstrap_assertion (BootstrapFromTheseEndpoints_drop st) = false.
Proof.
  intros [Hlo Hhi]. unfold DoBootstrap_assertion.
  rewrite (BootstrapFromTheseEndpoints_keeps_half st Hhi).
  apply Z.eqb_neq.
  pose proof (Z.div_le_mono 2 (RoutingTable.Size (routing_table_ st)) 2
                ltac:(lia) Hlo) as H.
  change (2 / 2) with 1 in H. lia.
Qed.

End DropLoop.

(** C10, evaluated.  [Join] with one endpoint on the node with the peers 12
    and 6: the loop removes the connection of the closest peer only, the host
    is told that one peer is left, and the bootstrap starts with that peer
    still in the table, against the assertion of [DoBootstrap]. *)
Lemma Join_bootstraps_with_a_peer_left :
  let st := joined_node in
  let st1 := BootstrapFromTheseEndpoints_drop st in
  let st2 := Join default_parameters default_return_codes (functors_ st) [77] bootstrap_ok st in
  routing_table_ st = [mkNodeInfo 12 112; mkNodeInfo 6 106]
  /\ routing_table_ st1 = [mkNodeInfo 12 112]
  /\ new_events st st1 = [EvRemove 106; EvNetworkStatus 2%nat 1]
  /\ DoBootstrap_assertion st1 = false
  /\ routing_table_ st2 = [mkNodeInfo 12 112]
  /\ In (EvBootstrap [77]) (trace_ st2)
  /\ ~ In (EvRemove 112) (trace_ st2).
Proof.
  vm_compute; repeat split; auto 10.
  intros H; repeat (destruct H as [H | H]; [discriminate|]); exact H.
Qed.

(** * Further properties of [routing_impl.cc] *)

(** ** Frames *)

Lemma set_routing_table_same st : set_routing_table (routing_table_ st) st = st.
Proof. destruct st; reflexivity. Qed.

Lemma set_non_routing_table_same st :
  set_non_routing_table (non_routing_table_ st) st = st.
Proof. destruct st; reflexivity. Qed.

(** No client is attached through the connection [conn]. *)
Definition no_client (conn : NodeId) (nrt : list NodeInfo) : Prop :=
  find (fun p => connection_id p =? conn) nrt = None.

Lemma DropConnection_missing conn nrt :
  no_client conn nrt -> DropConnection conn nrt = (NoNode, nrt).
Proof.
  unfold no_client; induction nrt as [|x rest IH]; simpl; [reflexivity|].
  destruct (connection_id x =? conn); [discriminate|].
  intros H; rewrite (IH H); reflexivity.
Qed.

Lemma DropConnection_found conn nrt c :
  find (fun p => connection_id p =? conn) nrt = Some c ->
  fst (DropConnection conn nrt) = c
  /\ S (length (snd (DropConnection conn nrt))) = length nrt
  /\ connection_id c = conn.
Proof.
  induction nrt as [|x rest IH]; simpl; [discriminate|].
  destruct (connection_id x =? conn) eqn:Hx.
  - intros [= <-]; apply Z.eqb_eq in Hx; auto.
  - intros H; destruct (IH H) as (Hf & Hl & Hc).
    destruct (DropConnection conn rest); simpl in *; auto.
Qed.

(** ** Lost connections *)

Section ConnectionLost.

Variable P : Parameters.
Variable RC : ReturnCodes.
Variable lost : NodeId.
Variable st : Impl.

Let st' := DoOnConnectionLost P RC lost st.

Hypothesis running : running_ st = true.

(** The first half of [DoOnConnectionLost] when the id names no table
    peer: the table is left alone and the lookup goes on with the clients. *)
Lemma DoOnConnectionLost_not_a_peer :
  RoutingTable.GetNodeInfo lost (routing_table_ st) = None ->
  st' =
  (let '(dropped_node, clients) := DropConnection lost (non_routing_table_ st) in
   let s := set_non_routing_table clients st in
   if negb (IsZero (node_id dropped_node)) then schedule_resend P false s
   else if negb (IsZero (bootstrap_connection_id s))
           && (lost =? bootstrap_connection_id s) then
     if negb (running_ s) then s
     else
       let s := clear_bootstrap_connection_info s in
       if kAnonymousNode_ s then NotifyNetworkStatus (kAnonymousSessionEnded RC) s
       else schedule_resend P (RoutingTable.Size (routing_table_ s) =? 0) s
   else schedule_resend P false s).
Proof.
  intros Hnone. unfold st', DoOnConnectionLost.
  rewrite running, Hnone, (DropNode_missing _ _ Hnone); cbn [negb].
  change (IsZero (node_id NoNode)) with true; cbn [negb].
  rewrite set_routing_table_same. reflexivity.
Qed.

(** A lost connection that belongs to no table peer, to no client and is not
    the bootstrap connection changes nothing: no entry is dropped, nothing is
    reported and no timer is armed. *)
Theorem DoOnConnectionLost_unknown_connection :
  RoutingTable.GetNodeInfo lost (routing_table_ st) = None ->
  no_client lost (non_routing_table_ st) ->
  bootstrap_connection_id st = ZeroId \/ lost <> bootstrap_connection_id st ->
  st' = st.
Proof.
  intros Hnone Hclient Hboot. rewrite (DoOnConnectionLost_not_a_peer Hnone).
  rewrite (DropConnection_missing _ _ Hclient).
  change (IsZero (node_id NoNode)) with true; cbn [negb].
  rewrite set_non_routing_table_same.
  replace (negb (IsZero (bootstrap_connection_id st))
           && (lost =? bootstrap_connection_id st)) with false; [reflexivity|].
  symmetry. destruct Hboot as [-> | Hne]; [reflexivity|].
  apply andb_false_iff; right; apply Z.eqb_neq; exact Hne.
Qed.

(** The loss of a client's connection drops the client from the non-routing
    table and does nothing else: the routing table, the trace and the timers
    are as before. *)
Theorem DoOnConnectionLost_client :
  forall client,
    RoutingTable.GetNodeInfo lost (routing_table_ st) = None ->
    find (fun p => connection_id p =? lost) (non_routing_table_ st) = Some client ->
    node_id client <> ZeroId ->
    st' = set_non_routing_table (snd (DropConnection lost (non_routing_table_ st))) st
    /\ DropConnection lost (non_routing_table_ st) = (client, non_routing_table_ st')
    /\ S (length (non_routing_table_ st')) = length (non_routing_table_ st)
    /\ routing_table_ st' = routing_table_ st
    /\ trace_ st' = trace_ st
    /\ (forall t, get_timer t st' = get_timer t st).
Proof.
  intros client Hnone Hfind Hid. rewrite (DoOnConnectionLost_not_a_peer Hnone).
  destruct (DropConnection_found _ _ _ Hfind) as (Hfst & Hlen & _).
  destruct (DropConnection lost (non_routing_table_ st)) as [dropped clients].
  simpl in Hfst, Hlen; subst dropped.
  replace (IsZero (node_id client)) with false
    by (symmetry; apply IsZero_false; exact Hid).
  cbn [negb schedule_resend snd].
  split; [reflexivity|]. split; [reflexivity|]. split; [exact Hlen|].
  split; [reflexivity|]. split; [reflexivity|]. intros []; reflexivity.
Qed.


End ConnectionLost.

(** ** Bootstrap *)

(** The completions queued for the waits that [cancel] aborts. *)
Definition aborted_wait (t : TimerName) (st : Impl) : list Task :=
  match waiter (get_timer t st) with
  | Some h => [Completion h operation_aborted]
  | None => []
  end.

(** The call of [network_.Remove] that [DoBootstrap] makes for a bootstrap
    connection it still holds. *)
Definition old_connection_removed (st : Impl) : list Event :=
  if IsZero (bootstrap_connection_id st) then []
  else [EvRemove (bootstrap_connection_id st)].

(** The call of the network-status functor, if there is one. *)
Definition notified (code : Z) (st : Impl) : list Event :=
  match network_status (functors_ st) with
  | Some f => [EvNetworkStatus f code]
  | None => []
  end.

Lemma NotifyNetworkStatus_trace code st :
  trace_ (NotifyNetworkStatus code st) = trace_ st ++ notified code st.
Proof.
  unfold NotifyNetworkStatus, notified.
  destruct (network_status (functors_ st)); simpl; [reflexivity|].
  symmetry; apply app_nil_r.
Qed.

Lemma NotifyNetworkStatus_frame code st :
  (recovery_timer_ (NotifyNetworkStatus code st) = recovery_timer_ st
   /\ setup_timer_ (NotifyNetworkStatus code st) = setup_timer_ st
   /\ re_bootstrap_timer_ (NotifyNetworkStatus code st) = re_bootstrap_timer_ st)
  /\ routing_table_ (NotifyNetworkStatus code st) = routing_table_ st
  /\ bootstrap_connection_id (NotifyNetworkStatus code st) = bootstrap_connection_id st
  /\ this_node_relay_connection_id (NotifyNetworkStatus code st)
     = this_node_relay_connection_id st
  /\ posted_ (NotifyNetworkStatus code st) = posted_ st
  /\ now_ (NotifyNetworkStatus code st) = now_ st.
Proof.
  unfold NotifyNetworkStatus.
  destruct (network_status (functors_ st)); repeat split.
Qed.

Section BootstrapStep.

Variable RC : ReturnCodes.
Variable endpoints : list Endpoint.
Variable o : BootstrapOutcome.
Variable st : Impl.

(** [DoBootstrap] on a running node, field by field. *)
Lemma DoBootstrap_running :
  running_ st = true ->
  let r := fst (DoBootstrap RC endpoints o st) in
  let s := snd (DoBootstrap RC endpoints o st) in
  r = bootstrap_result o
  /\ trace_ s = trace_ st ++ old_connection_removed st ++ [EvBootstrap endpoints]
  /\ posted_ s = posted_ st ++ aborted_wait recovery_timer st ++ aborted_wait setup_timer st
  /\ waiter (recovery_timer_ s) = None
  /\ waiter (setup_timer_ s) = None
  /\ re_bootstrap_timer_ s = re_bootstrap_timer_ st
  /\ bootstrap_connection_id s
     = (if bootstrap_result o =? kSuccess then bootstrap_peer o else ZeroId)
  /\ this_node_relay_connection_id s
     = (if bootstrap_result o =? kSuccess then relay_handle o
        else if IsZero (bootstrap_connection_id st) then this_node_relay_connection_id st
             else ZeroId)
  /\ routing_table_ s = routing_table_ st
  /\ running_ s = true
  /\ kAnonymousNode_ s = kAnonymousNode_ st
  /\ kNodeId_ s = kNodeId_ st
  /\ functors_ s = functors_ st
  /\ now_ s = now_ st.
Proof.
  intros Hrun. unfold DoBootstrap, Bootstrap, cancel, aborted_wait, old_connection_removed.
  cbn [get_timer].
  destruct (waiter (recovery_timer_ st)) as [h1|] eqn:Hw1; simpl;
    destruct (waiter (setup_timer_ st)) as [h2|] eqn:Hw2; simpl; rewrite Hrun; simpl;
    destruct (IsZero (bootstrap_connection_id st)) eqn:Hz; simpl;
    destruct (bootstrap_result o =? kSuccess); simpl;
    rewrite ?app_nil_r, <- ?app_assoc;
    repeat split; try reflexivity; try assumption;
    try (apply IsZero_true in Hz; exact Hz).
Qed.

(** [DoBootstrap] ends the setup loop and the recovery loop whether the node
    runs or not: neither timer waits any more, and the completions queued for
    the aborted waits change nothing when the io service runs them. *)
Theorem DoBootstrap_ends_both_loops :
  let s := snd (DoBootstrap RC endpoints o st) in
  waiter (recovery_timer_ s) = None
  /\ waiter (setup_timer_ s) = None
  /\ new_tasks st s = aborted_wait recovery_timer st ++ aborted_wait setup_timer st
  /\ forall t, In t (new_tasks st s) ->
       forall P o' later, run_task P RC t o' later = later.
Proof.
  cbv zeta.
  assert (H : waiter (recovery_timer_ (snd (DoBootstrap RC endpoints o st))) = None
              /\ waiter (setup_timer_ (snd (DoBootstrap RC endpoints o st))) = None
              /\ posted_ (snd (DoBootstrap RC endpoints o st))
                 = posted_ st ++ aborted_wait recovery_timer st
                   ++ aborted_wait setup_timer st).
  { destruct (running_ st) eqn:Hrun.
    - destruct (DoBootstrap_running Hrun) as (_ & _ & Hp & Hr & Hs & _); auto.
    - unfold DoBootstrap, cancel, aborted_wait; cbn [get_timer].
      destruct (waiter (recovery_timer_ st)) eqn:Hw1; simpl;
        destruct (waiter (setup_timer_ st)) eqn:Hw2;
        simpl; rewrite Hrun; simpl; rewrite ?app_nil_r, <- ?app_assoc; repeat split;
        try assumption. }
  destruct H as (Hr & Hs & Hp).
  assert (Hnew : new_tasks st (snd (DoBootstrap RC endpoints o st))
                 = aborted_wait recovery_timer st ++ aborted_wait setup_timer st).
  { unfold new_tasks; rewrite Hp; apply skipn_app_exact. }
  split; [exact Hr|]. split; [exact Hs|]. split; [exact Hnew|].
  intros t Ht P o' later. rewrite Hnew in Ht.
  unfold aborted_wait in Ht.
  apply in_app_or in Ht as [Ht | Ht];
    [destruct (waiter (get_timer recovery_timer st))
    | destruct (waiter (get_timer setup_timer st))];
    simpl in Ht; try contradiction; destruct Ht as [<- | []];
    apply cancelled_wake_changes_nothing.
Qed.

(** On a running node [DoBootstrap] first gives up the bootstrap connection it
    holds, then asks the transport to bootstrap; afterwards the node holds the
    connection and relay handle of a successful bootstrap and no bootstrap
    connection at all after a failed one.  The routing table is not
    touched. *)
Theorem DoBootstrap_replaces_connection :
  running_ st = true ->
  let r := fst (DoBootstrap RC endpoints o st) in
  let s := snd (DoBootstrap RC endpoints o st) in
  r = bootstrap_result o
  /\ new_events st s = old_connection_removed st ++ [EvBootstrap endpoints]
  /\ (bootstrap_result o = kSuccess ->
      bootstrap_connection_id s = bootstrap_peer o
      /\ this_node_relay_connection_id s = relay_handle o)
  /\ (bootstrap_result o <> kSuccess -> bootstrap_connection_id s = ZeroId)
  /\ routing_table_ s = routing_table_ st.
Proof.
  intros Hrun; cbv zeta.
  destruct (DoBootstrap_running Hrun)
    as (Hres & Htr & _ & _ & _ & _ & Hb & Hrelay & Hrt & _).
  split; [exact Hres|]. split; [apply new_events_app; exact Htr|].
  split; [|split; [|exact Hrt]].
  - intros Hok. rewrite Hb, Hrelay, Hok, Z.eqb_refl. split; reflexivity.
  - intros Hfail. rewrite Hb.
    replace (bootstrap_result o =? kSuccess) with false
      by (symmetry; apply Z.eqb_neq; exact Hfail).
    reflexivity.
Qed.

(** A stopped node does not reach the transport: [DoBootstrap] answers
    [kNetworkShuttingDown] and the trace is as before. *)
Theorem DoBootstrap_shutting_down :
  running_ st = false ->
  fst (DoBootstrap RC endpoints o st) = kNetworkShuttingDown RC
  /\ trace_ (snd (DoBootstrap RC endpoints o st)) = trace_ st
  /\ bootstrap_connection_id (snd (DoBootstrap RC endpoints o st))
     = bootstrap_connection_id st.
Proof.
  intros Hrun. unfold DoBootstrap, cancel; cbn [get_timer].
  destruct (waiter (recovery_timer_ st)); simpl;
    destruct (waiter (setup_timer_ st));
    simpl; rewrite Hrun; simpl; repeat split.
Qed.

End BootstrapStep.

(** ** Join *)

Section JoinStep.

Variable P : Parameters.
Variable RC : ReturnCodes.
Variable endpoints : list Endpoint.
Variable o : BootstrapOutcome.
Variable st : Impl.

(** The first request of the setup loop, as [DoJoin] sends it after the
    bootstrap [o] succeeded on a node that is not anonymous. *)
Definition first_request : list Event :=
  if (bootstrap_result o =? kSuccess) && negb (kAnonymousNode_ st)
  then [EvSendToDirect (FindNodes (kNodeId_ st) (kNodeId_ st) 1 true (relay_handle o))
                       (bootstrap_peer o) LogFindNodesSent]
  else [].

(** [FindClosestNode] as [DoJoin] calls it. *)
Lemma FindClosestNode_first_attempt (s : Impl) :
  running_ s = true ->
  let s' := FindClosestNode P success 0 s in
  trace_ s' = trace_ s ++ [find_closest_request s]
  /\ functors_ s' = functors_ s
  /\ setup_timer_ s'
     = mkDeadlineTimer (now_ s + find_close_node_interval P) (Some (WakeSetup 1))
  /\ recovery_timer_ s' = recovery_timer_ s
  /\ routing_table_ s' = routing_table_ s.
Proof.
  intros Hs; cbv zeta. unfold FindClosestNode. rewrite Hs; cbn [negb is_aborted Z.eqb].
  destruct (send_find_closest_spec P 0 s Hs) as (Htr & Hset & Hrec & _ & Hrt & _).
  split; [exact Htr|]. split; [|split; [exact Hset|split; [exact Hrec | exact Hrt]]].
  unfold send_find_closest, async_wait, expires_from_now, cancel; simpl.
  rewrite Hs; simpl. destruct (waiter (setup_timer_ s)); reflexivity.
Qed.

(** [DoJoin] on a running node, as a trace. *)
Lemma DoJoin_running :
  running_ st = true ->
  let s := DoJoin P RC endpoints o st in
  trace_ s = trace_ st ++ old_connection_removed st ++ [EvBootstrap endpoints]
             ++ first_request ++ notified (bootstrap_result o) st
  /\ waiter (recovery_timer_ s) = None
  /\ setup_timer_ s
     = (if (bootstrap_result o =? kSuccess) && negb (kAnonymousNode_ st)
        then mkDeadlineTimer (now_ st + find_close_node_interval P) (Some (WakeSetup 1))
        else mkDeadlineTimer (expiry (setup_timer_ st)) None)
  /\ routing_table_ s = routing_table_ st.
Proof.
  intros Hrun; cbv zeta. unfold DoJoin, first_request.
  destruct (DoBootstrap_running RC endpoints o st Hrun)
    as (Hres & Htr & _ & Hrec & Hset & _ & Hb & Hrelay & Hrt & Hr & Han & Hid & Hfun & Hnow).
  assert (Hexp : expiry (setup_timer_ (snd (DoBootstrap RC endpoints o st)))
                 = expiry (setup_timer_ st)).
  { unfold DoBootstrap, Bootstrap, cancel; cbn [get_timer].
    destruct (waiter (recovery_timer_ st)); simpl;
      destruct (waiter (setup_timer_ st)); simpl; rewrite Hrun; simpl;
      destruct (IsZero (bootstrap_connection_id st)); simpl;
      destruct (bootstrap_result o =? kSuccess); reflexivity. }
  destruct (DoBootstrap RC endpoints o st) as [return_value s0].
  cbn [fst snd] in *. subst return_value.
  assert (Hnote : forall c, notified c s0 = notified c st)
    by (intros c; unfold notified; rewrite Hfun; reflexivity).
  assert (Hquiet : setup_timer_ s0 = mkDeadlineTimer (expiry (setup_timer_ st)) None).
  { destruct (setup_timer_ s0) as [e w]; simpl in *; subst; reflexivity. }
  rewrite (Z.eqb_sym kSuccess).
  destruct (bootstrap_result o =? kSuccess) eqn:Hok; cbn [negb andb].
  - rewrite Han. destruct (kAnonymousNode_ st); cbn [negb].
    + rewrite NotifyNetworkStatus_trace, Htr, Hnote, <- !app_assoc. cbn [app].
      destruct (NotifyNetworkStatus_frame (bootstrap_result o) s0) as ((Htrec & Htset & _) & Hrt' & _).
      split; [reflexivity|].
      split; [rewrite Htrec; exact Hrec|].
      split; [rewrite Htset; exact Hquiet|].
      rewrite Hrt'; exact Hrt.
    + destruct (FindClosestNode_first_attempt s0 Hr)
        as (Htr1 & Hfun1 & Hset1 & Hrec1 & Hrt1).
      set (s1 := FindClosestNode P success 0 s0) in *.
      destruct (NotifyNetworkStatus_frame (bootstrap_result o) s1) as ((Htrec & Htset & _) & Hrt' & _).
      rewrite NotifyNetworkStatus_trace, Htr1, Htr, <- !app_assoc. cbn [app].
      assert (Hreq : find_closest_request s0
                     = EvSendToDirect
                         (FindNodes (kNodeId_ st) (kNodeId_ st) 1 true (relay_handle o))
                         (bootstrap_peer o) LogFindNodesSent).
      { unfold find_closest_request. rewrite Hid, Hb, Hrelay. reflexivity. }
      rewrite Hreq.
      assert (Hn1 : notified (bootstrap_result o) s1 = notified (bootstrap_result o) st)
        by (unfold notified; rewrite Hfun1, Hfun; reflexivity).
      rewrite Hn1.
      split; [reflexivity|].
      split; [rewrite Htrec, Hrec1; exact Hrec|].
      split; [rewrite Htset, Hset1, Hnow; reflexivity|].
      rewrite Hrt', Hrt1; exact Hrt.
  - rewrite NotifyNetworkStatus_trace, Htr, Hnote, <- !app_assoc. cbn [app].
    destruct (NotifyNetworkStatus_frame (bootstrap_result o) s0) as ((Htrec & Htset & _) & Hrt' & _).
    split; [reflexivity|].
    split; [rewrite Htrec; exact Hrec|].
    split; [rewrite Htset; exact Hquiet|].
    rewrite Hrt'; exact Hrt.
Qed.

End JoinStep.

(** The network-status reports of a trace, with the functor that got them. *)
Definition status_of (e : Event) : list (Callback * Z) :=
  match e with
  | EvNetworkStatus f code => [(f, code)]
  | _ => []
  end.

Definition statuses (tr : list Event) : list (Callback * Z) := flat_map status_of tr.

Lemma statuses_notified code st :
  statuses (notified code st)
  = match network_status (functors_ st) with Some f => [(f, code)] | None => [] end.
Proof. unfold notified; destruct (network_status (functors_ st)); reflexivity. Qed.

Section JoinProperties.

Variable P : Parameters.
Variable RC : ReturnCodes.
Variable endpoints : list Endpoint.
Variable o : BootstrapOutcome.
Variable st : Impl.

(** [DoJoin] on a running node does, in this order: give up the bootstrap
    connection it holds, bootstrap, send the first FindNodes request of the
    setup loop if the bootstrap succeeded and the node is not anonymous, and
    report the result of the bootstrap to the network-status functor.  The
    setup timer waits afterwards exactly when that request was sent, and the
    recovery timer does not wait. *)
Theorem DoJoin_events :
  running_ st = true ->
  let s := DoJoin P RC endpoints o st in
  new_events st s
  = old_connection_removed st ++ [EvBootstrap endpoints]
    ++ first_request o st ++ notified (bootstrap_result o) st
  /\ (waiter (setup_timer_ s) <> None
      <-> bootstrap_result o = kSuccess /\ kAnonymousNode_ st = false)
  /\ waiter (recovery_timer_ s) = None.
Proof.
  intros Hrun; cbv zeta.
  destruct (DoJoin_running P RC endpoints o st Hrun) as (Htr & Hrec & Hset & _).
  split; [apply new_events_app; exact Htr|]. split; [|exact Hrec].
  rewrite Hset.
  destruct (bootstrap_result o =? kSuccess) eqn:Hok;
    [apply Z.eqb_eq in Hok | apply Z.eqb_neq in Hok];
    destruct (kAnonymousNode_ st); simpl; split;
    try (intros [H1 H2]); try (intros H); try congruence; try discriminate;
    try (split; [assumption | reflexivity]).
Qed.

(** [DoJoin] on a stopped node reaches neither the transport nor the setup
    loop: the one thing it does is to report [kNetworkShuttingDown]. *)
Theorem DoJoin_shutting_down :
  running_ st = false ->
  new_events st (DoJoin P RC endpoints o st) = notified (kNetworkShuttingDown RC) st.
Proof.
  intros Hrun. apply new_events_app. unfold DoJoin.
  destruct (DoBootstrap_shutting_down RC endpoints o st Hrun) as (Hres & Htr & _).
  assert (Hfun : functors_ (snd (DoBootstrap RC endpoints o st)) = functors_ st
                 /\ running_ (snd (DoBootstrap RC endpoints o st)) = false).
  { unfold DoBootstrap, cancel; cbn [get_timer].
    destruct (waiter (recovery_timer_ st)); simpl;
      destruct (waiter (setup_timer_ st)); simpl; rewrite Hrun; simpl;
      split; (reflexivity || assumption). }
  destruct Hfun as [Hfun Hstop].
  destruct (DoBootstrap RC endpoints o st) as [return_value s0].
  cbn [fst snd] in *. subst return_value.
  assert (Hnote : notified (kNetworkShuttingDown RC) s0
                  = notified (kNetworkShuttingDown RC) st)
    by (unfold notified; rewrite Hfun; reflexivity).
  assert (Hidle : FindClosestNode P success 0 s0 = s0)
    by (unfold FindClosestNode; rewrite Hstop; reflexivity).
  destruct (negb (kSuccess =? kNetworkShuttingDown RC));
    [|destruct (kAnonymousNode_ s0)];
    rewrite ?Hidle, NotifyNetworkStatus_trace, Htr, Hnote; reflexivity.
Qed.

(** [Join] on a running node with an empty routing table is [DoJoin] with
    the given endpoints, whether the list is empty or not, and the host gets
    exactly one network-status report: the result of the bootstrap, through
    the functor passed to this very [Join]. *)
Theorem Join_reports_once :
  forall functors : Functors,
    running_ st = true ->
    routing_table_ st = [] ->
    Join P RC functors endpoints o st
    = DoJoin P RC endpoints o (ConnectFunctors functors st)
    /\ statuses (new_events st (Join P RC functors endpoints o st))
       = match network_status functors with
         | Some f => [(f, bootstrap_result o)]
         | None => []
         end.
Proof.
  intros functors Hrun Hrt.
  assert (Hjoin : Join P RC functors endpoints o st
                  = DoJoin P RC endpoints o (ConnectFunctors functors st)).
  { unfold Join, BootstrapFromTheseEndpoints, BootstrapFromTheseEndpoints_drop.
    destruct endpoints; [reflexivity|].
    change (routing_table_ (ConnectFunctors functors st)) with (routing_table_ st).
    rewrite Hrt. reflexivity. }
  split; [exact Hjoin|]. rewrite Hjoin.
  destruct (DoJoin_running P RC endpoints o (ConnectFunctors functors st) Hrun)
    as (Htr & _).
  rewrite (new_events_app st _ _ Htr).
  unfold statuses. rewrite !flat_map_app. fold statuses.
  rewrite statuses_notified.
  replace (flat_map status_of (old_connection_removed (ConnectFunctors functors st)))
    with (@nil (Callback * Z))
    by (unfold old_connection_removed; destruct (IsZero _); reflexivity).
  replace (flat_map status_of (first_request o (ConnectFunctors functors st)))
    with (@nil (Callback * Z))
    by (unfold first_request; destruct (_ && _); reflexivity).
  reflexivity.
Qed.

End JoinProperties.

(** ** What the timers leave alone *)

(** [s'] differs from [s] at most in the deadline timers, the task queue and
    the clock. *)
Definition same_node (s s' : Impl) : Prop :=
  kNodeId_ s' = kNodeId_ s
  /\ kAnonymousNode_ s' = kAnonymousNode_ s
  /\ client_mode s' = client_mode s
  /\ running_ s' = running_ s
  /\ functors_ s' = functors_ s
  /\ routing_table_ s' = routing_table_ s
  /\ non_routing_table_ s' = non_routing_table_ s
  /\ bootstrap_connection_id s' = bootstrap_connection_id s
  /\ this_node_relay_connection_id s' = this_node_relay_connection_id s
  /\ timer_ s' = timer_ s
  /\ trace_ s' = trace_ s.



Lemma cancel_same_node t s : same_node s (cancel t s) /\ now_ (cancel t s) = now_ s.
Proof.
  unfold cancel; destruct t; cbn [get_timer];
    match goal with |- context [waiter ?x] => destruct (waiter x) end;
    repeat split.
Qed.




(** ** Loss of the bootstrap connection *)

Section BootstrapLost.

Variable P : Parameters.
Variable RC : ReturnCodes.
Variable o : BootstrapOutcome.
Variable st : Impl.

Let lost := bootstrap_connection_id st.
Let st1 := DoOnConnectionLost P RC lost st.

Hypothesis running : running_ st = true.
Hypothesis connected : bootstrap_connection_id st <> ZeroId.
Hypothesis not_a_peer : RoutingTable.GetNodeInfo lost (routing_table_ st) = None.
Hypothesis not_a_client : no_client lost (non_routing_table_ st).

(** [DoOnConnectionLost] for the bootstrap connection, up to the test of
    [kAnonymousNode_]. *)
Lemma DoOnConnectionLost_bootstrap :
  st1 =
  (let s := clear_bootstrap_connection_info st in
   if kAnonymousNode_ st then NotifyNetworkStatus (kAnonymousSessionEnded RC) s
   else schedule_resend P (RoutingTable.Size (routing_table_ st) =? 0) s).
Proof.
  unfold st1. rewrite (DoOnConnectionLost_not_a_peer P RC lost st running not_a_peer).
  rewrite (DropConnection_missing _ _ not_a_client).
  change (IsZero (node_id NoNode)) with true; cbn [negb].
  rewrite set_non_routing_table_same. fold lost.
  replace (IsZero lost) with false by (symmetry; apply IsZero_false; exact connected).
  rewrite Z.eqb_refl, running. reflexivity.
Qed.

(** An anonymous node that loses its bootstrap connection forgets the
    connection and its relay handle and reports [kAnonymousSessionEnded];
    it arms no timer, so it never bootstraps again by itself. *)
Theorem anonymous_session_ends :
  kAnonymousNode_ st = true ->
  new_events st st1 = notified (kAnonymousSessionEnded RC) st
  /\ bootstrap_connection_id st1 = ZeroId
  /\ this_node_relay_connection_id st1 = ZeroId
  /\ (forall t, get_timer t st1 = get_timer t st)
  /\ posted_ st1 = posted_ st.
Proof.
  intros Hanon. rewrite DoOnConnectionLost_bootstrap, Hanon; cbv zeta.
  set (s := clear_bootstrap_connection_info st).
  destruct (NotifyNetworkStatus_frame (kAnonymousSessionEnded RC) s)
    as ((Hrec & Hset & Hreb) & _ & Hb & Hrelay & Hp & _).
  split; [apply new_events_app; rewrite NotifyNetworkStatus_trace; reflexivity|].
  split; [rewrite Hb; reflexivity|]. split; [rewrite Hrelay; reflexivity|].
  split; [intros []; cbn [get_timer]; [rewrite Hreb | rewrite Hrec | rewrite Hset];
          reflexivity|].
  rewrite Hp; reflexivity.
Qed.


Let st2 := expire P RC recovery_timer o st1.
Let st3 := expire P RC re_bootstrap_timer o st2.


End BootstrapLost.

(** ** The node as a whole *)

(** The ways into [Routing::Impl]: the two calls of the host, the callbacks
    given to the transport and to the routing table, a task run by the io
    service, and the expiry of a timer. *)
Inductive Entry :=
| CallJoin (functors : Functors) (peer_endpoints : list Endpoint) (o : BootstrapOutcome)
| CallSend (destination_id group_claim : NodeId) (data : String.string)
           (response_functor : option Callback) (timeout : Z) (direct cacheable : bool)
| MessageArrived (message : Wire)                    (* OnMessageReceived *)
| ConnectionDropped (lost_connection_id : NodeId)    (* OnConnectionLost *)
| MessageSent (f : SentFunctor) (result : Z)         (* a MessageSentFunctor *)
| NodeRemoved (node : NodeInfo) (internal_rudp_only : bool)   (* RemoveNode *)
| TaskRun (t : Task) (o : BootstrapOutcome)
| TimerExpired (t : TimerName) (o : BootstrapOutcome).

Definition enter (P : Parameters) (RC : ReturnCodes) (e : Entry) (st : Impl) : Impl :=
  match e with
  | CallJoin functors peer_endpoints o => Join P RC functors peer_endpoints o st
  | CallSend destination_id group_claim data response_functor timeout direct cacheable =>
      Send P destination_id group_claim data response_functor timeout direct cacheable st
  | MessageArrived message => OnMessageReceived message st
  | ConnectionDropped lost_connection_id => OnConnectionLost lost_connection_id st
  | MessageSent f result => message_sent f result st
  | NodeRemoved node internal_rudp_only => RemoveNode P node internal_rudp_only st
  | TaskRun t o => run_task P RC t o st
  | TimerExpired t o => expire P RC t o st
  end.

(** What the constructor fixes: the id, the two modes and, until the
    destructor runs, the running flag. *)
Definition same_identity (s s' : Impl) : Prop :=
  kNodeId_ s' = kNodeId_ s
  /\ kAnonymousNode_ s' = kAnonymousNode_ s
  /\ client_mode s' = client_mode s
  /\ running_ s' = running_ s.

(** No wait is pending after the step that was not pending before. *)
Definition no_new_wait (s s' : Impl) : Prop :=
  forall t, get_timer t s' = get_timer t s \/ waiter (get_timer t s') = None.

Lemma same_identity_trans s1 s2 s3 :
  same_identity s1 s2 -> same_identity s2 s3 -> same_identity s1 s3.
Proof.
  unfold same_identity; intros (A1 & A2 & A3 & A4) (B1 & B2 & B3 & B4);
    repeat split; congruence.
Qed.

Lemma no_new_wait_trans s1 s2 s3 :
  no_new_wait s1 s2 -> no_new_wait s2 s3 -> no_new_wait s1 s3.
Proof.
  intros H1 H2 t. destruct (H2 t) as [E | N]; [|right; exact N].
  rewrite E. exact (H1 t).
Qed.

(** Case analysis on every test of a function body, then the projections. *)
Ltac by_cases :=
  repeat (simpl;
          match goal with
          | |- context [match ?x with _ => _ end] => destruct x eqn:?
          end);
  simpl; repeat split; try congruence.

Ltac by_cases_timers :=
  repeat (simpl;
          match goal with
          | |- context [match ?x with _ => _ end] => destruct x eqn:?
          end);
  simpl; intros []; simpl; auto.

Section WholeNode.

Variable P : Parameters.
Variable RC : ReturnCodes.

Lemma drop_closest_loop_identity fuel :
  forall i st,
    same_identity st (snd (drop_closest_loop fuel i st))
    /\ (forall t, get_timer t (snd (drop_closest_loop fuel i st)) = get_timer t st)
    /\ functors_ (snd (drop_closest_loop fuel i st)) = functors_ st.
Proof.
  induction fuel as [|fuel IH]; intros i st; cbn [drop_closest_loop].
  - repeat split.
  - destruct (i <? RoutingTable.Size (routing_table_ st)); [|repeat split].
    match goal with |- context [drop_closest_loop fuel ?j ?s] =>
      destruct (IH j s) as ((A1 & A2 & A3 & A4) & B & C) end.
    split; [repeat split; assumption|]. split; [|exact C].
    intros t; rewrite B; destruct t; reflexivity.
Qed.

Lemma FindClosestNode_identity ec n st : same_identity st (FindClosestNode P ec n st).
Proof.
  unfold same_identity, FindClosestNode, send_find_closest, ReBootstrap, async_wait,
    expires_from_now, cancel. by_cases.
Qed.

Lemma ReSendFindNodeRequest_identity ec b st :
  same_identity st (ReSendFindNodeRequest P ec b st).
Proof.
  unfold same_identity, ReSendFindNodeRequest, ReBootstrap, async_wait,
    expires_from_now, cancel. by_cases.
Qed.

Lemma DoOnConnectionLost_identity l st : same_identity st (DoOnConnectionLost P RC l st).
Proof.
  unfold same_identity, DoOnConnectionLost, schedule_resend, NotifyNetworkStatus,
    clear_bootstrap_connection_info, async_wait, expires_from_now, cancel. by_cases.
Qed.

Lemma Send_identity a b c d e f g st : same_identity st (Send P a b c d e f g st).
Proof.
  unfold Send.
  destruct (IsZero a); [unfold same_identity, refuse; by_cases|].
  destruct (_ || _); [unfold same_identity, refuse; by_cases|].
  pose proof (Send_message_frame P a b c d e f g st) as H; cbv zeta in H.
  destruct (Send_message P a b c d e f g st) as [m s]; cbn [fst snd] in H.
  rewrite H. unfold same_identity, Send_route, OnMessageReceived. by_cases.
Qed.

Lemma RemoveNode_identity n b st : same_identity st (RemoveNode P n b st).
Proof.
  unfold same_identity, RemoveNode, schedule_resend, async_wait, expires_from_now,
    cancel. by_cases.
Qed.

Lemma NotifyNetworkStatus_identity c st : same_identity st (NotifyNetworkStatus c st).
Proof. unfold same_identity, NotifyNetworkStatus. by_cases. Qed.

Lemma DoJoin_identity eps o st : same_identity st (DoJoin P RC eps o st).
Proof.
  unfold DoJoin.
  assert (H : same_identity st (snd (DoBootstrap RC eps o st))).
  { unfold same_identity, DoBootstrap, Bootstrap, clear_bootstrap_connection_info, cancel.
    by_cases. }
  destruct (DoBootstrap RC eps o st) as [rv s]; cbn [snd] in H.
  destruct (negb (kSuccess =? rv));
    [|destruct (kAnonymousNode_ s)];
    repeat (eapply same_identity_trans;
            [|first [apply NotifyNetworkStatus_identity
                    | apply FindClosestNode_identity]]);
    exact H.
Qed.

Lemma Join_identity functors eps o st : same_identity st (Join P RC functors eps o st).
Proof.
  unfold Join, BootstrapFromTheseEndpoints, BootstrapFromTheseEndpoints_drop.
  destruct eps as [|e eps]; [apply (DoJoin_identity [] o (ConnectFunctors functors st))|].
  eapply same_identity_trans; [|apply DoJoin_identity].
  destruct (0 <? RoutingTable.Size (routing_table_ (ConnectFunctors functors st)));
    [|repeat split].
  eapply same_identity_trans; [|apply NotifyNetworkStatus_identity].
  match goal with |- context [drop_closest_loop ?f ?j ?s] =>
    destruct (drop_closest_loop_identity f j s) as (H & _) end.
  exact H.
Qed.

Lemma run_call_identity c o st : same_identity st (run_call P RC c o st).
Proof.
  destruct c; cbn [run_call].
  - apply ReSendFindNodeRequest_identity.
  - apply FindClosestNode_identity.
  - unfold DoReBootstrap. destruct (is_aborted ec); [repeat split|].
    destruct (negb (running_ st)); [repeat split | apply DoJoin_identity].
Qed.

Lemma wake_identity h ec o st : same_identity st (wake P RC h ec o st).
Proof.
  unfold wake. destruct (handler_call h ec); [apply run_call_identity | repeat split].
Qed.

(** Nothing but the destructor changes what the constructor fixed: whatever
    way the node is entered, its id, its anonymous and client modes and its
    running flag are afterwards what they were. *)
Theorem identity_is_fixed (e : Entry) (st : Impl) :
  same_identity st (enter P RC e st).
Proof.
  destruct e; cbn [enter].
  - apply Join_identity.
  - apply Send_identity.
  - unfold same_identity, OnMessageReceived; by_cases.
  - unfold same_identity, OnConnectionLost; by_cases.
  - unfold same_identity, message_sent; by_cases.
  - apply RemoveNode_identity.
  - destruct t; cbn [run_task].
    + unfold same_identity, DoOnMessageReceived; by_cases.
    + apply DoOnConnectionLost_identity.
    + unfold same_identity, send_result, NotifyNetworkStatus; by_cases.
    + apply wake_identity.
  - unfold expire. destruct (waiter (get_timer t st)); [|repeat split].
    eapply same_identity_trans; [|apply wake_identity].
    destruct t; repeat split.
Qed.

End WholeNode.

(** Case analysis for a node whose running flag [Hrun] is known. *)
Ltac by_cases_with Hrun :=
  intros t; destruct t; cbn [get_timer];
  repeat first
    [ progress simpl
    | rewrite Hrun
    | match goal with
      | |- context [match ?x with _ => _ end] =>
          lazymatch x with
          | context [match _ with _ => _ end] => fail
          | _ => destruct x eqn:?
          end
      end ];
  auto.

Lemma stopped_DoJoin P RC eps o s :
  running_ s = false -> no_new_wait s (DoJoin P RC eps o s).
Proof.
  intros Hs. unfold DoJoin.
  assert (H : no_new_wait s (snd (DoBootstrap RC eps o s))
              /\ running_ (snd (DoBootstrap RC eps o s)) = false).
  { split.
    - unfold no_new_wait, DoBootstrap, cancel. by_cases_with Hs.
    - unfold DoBootstrap, cancel; cbn [get_timer].
      destruct (waiter (recovery_timer_ s)); simpl;
        destruct (waiter (setup_timer_ s)); simpl; rewrite Hs; simpl;
        (reflexivity || assumption). }
  destruct H as [Hw Hstop].
  destruct (DoBootstrap RC eps o s) as [rv s']; cbn [snd] in *.
  assert (Hn : forall c x, no_new_wait x (NotifyNetworkStatus c x)).
  { intros c x t; left.
    destruct (NotifyNetworkStatus_frame c x) as ((A & B & C) & _).
    destruct t; assumption. }
  assert (Hidle : FindClosestNode P success 0 s' = s')
    by (unfold FindClosestNode; rewrite Hstop; reflexivity).
  destruct (negb (kSuccess =? rv)); [|destruct (kAnonymousNode_ s')];
    rewrite ?Hidle; (eapply no_new_wait_trans; [exact Hw | apply Hn]).
Qed.

Section StoppedNode.

Variable P : Parameters.
Variable RC : ReturnCodes.
Variable st : Impl.

Hypothesis stopped : running_ st = false.

Lemma stopped_FindClosestNode ec n : FindClosestNode P ec n st = st.
Proof. unfold FindClosestNode; rewrite stopped; reflexivity. Qed.

Lemma stopped_DoOnConnectionLost l : DoOnConnectionLost P RC l st = st.
Proof. unfold DoOnConnectionLost; rewrite stopped; reflexivity. Qed.

Lemma stopped_ReSendFindNodeRequest ec b :
  no_new_wait st (ReSendFindNodeRequest P ec b st).
Proof.
  unfold no_new_wait, ReSendFindNodeRequest, ReBootstrap. by_cases_with stopped.
Qed.

Lemma stopped_Send a b c d e f g : no_new_wait st (Send P a b c d e f g st).
Proof.
  unfold Send.
  destruct (IsZero a); [unfold no_new_wait, refuse; by_cases_with stopped|].
  destruct (_ || _); [unfold no_new_wait, refuse; by_cases_with stopped|].
  pose proof (Send_message_frame P a b c d e f g st) as H; cbv zeta in H.
  destruct (Send_message P a b c d e f g st) as [m s]; cbn [fst snd] in H.
  rewrite H. unfold no_new_wait, Send_route, OnMessageReceived. by_cases_with stopped.
Qed.

Lemma stopped_RemoveNode n b : no_new_wait st (RemoveNode P n b st).
Proof.
  unfold no_new_wait, RemoveNode, schedule_resend. by_cases_with stopped.
Qed.

Lemma stopped_Join functors eps o : no_new_wait st (Join P RC functors eps o st).
Proof.
  assert (Hj : forall s, running_ s = false -> (forall t, get_timer t s = get_timer t st) ->
                         no_new_wait st (DoJoin P RC eps o s)).
  { intros s Hs Ht t.
    pose proof (stopped_DoJoin P RC eps o s Hs) as Hd.
    destruct (Hd t) as [E | N]; [left; rewrite E; apply Ht | right; exact N]. }
  unfold Join, BootstrapFromTheseEndpoints, BootstrapFromTheseEndpoints_drop.
  destruct eps as [|e eps].
  - apply Hj; [exact stopped | intros []; reflexivity].
  - destruct (0 <? RoutingTable.Size (routing_table_ (ConnectFunctors functors st))).
    + match goal with |- context [drop_closest_loop ?f ?j ?s] =>
        destruct (drop_closest_loop_identity f j s) as ((_ & _ & _ & A) & B & _);
        set (s1 := snd (drop_closest_loop f j s)) in * end.
      destruct (NotifyNetworkStatus_frame
                  (RoutingTable.Size (routing_table_ s1)) s1) as ((T1 & T2 & T3) & _).
      destruct (NotifyNetworkStatus_identity
                  (RoutingTable.Size (routing_table_ s1)) s1) as (_ & _ & _ & R).
      apply Hj.
      * rewrite R, A. exact stopped.
      * intros []; cbn [get_timer]; rewrite ?T1, ?T2, ?T3;
          [exact (B re_bootstrap_timer) | exact (B recovery_timer) | exact (B setup_timer)].
    + apply Hj; [exact stopped | intros []; reflexivity].
Qed.

Lemma stopped_wake h ec o : no_new_wait st (wake P RC h ec o st).
Proof.
  unfold wake. destruct (handler_call h ec) as [c|]; [|intros t; left; reflexivity].
  destruct c; cbn [run_call].
  - apply stopped_ReSendFindNodeRequest.
  - rewrite stopped_FindClosestNode; intros t; left; reflexivity.
  - unfold DoReBootstrap. rewrite stopped.
    destruct (is_aborted _); intros t; left; reflexivity.
Qed.

End StoppedNode.

(** Once the destructor has cleared the running flag, no way into the node
    arms a deadline timer: whatever wait is pending after a step was pending
    before it, so the setup, recovery and re-bootstrap loops all end at their
    next wake. *)
Theorem stopped_node_arms_no_timer P RC (e : Entry) (st : Impl) :
  running_ st = false ->
  forall t h,
    waiter (get_timer t (enter P RC e st)) = Some h ->
    waiter (get_timer t st) = Some h.
Proof.
  intros Hstop.
  assert (H : no_new_wait st (enter P RC e st)).
  { destruct e; cbn [enter].
    - apply stopped_Join; exact Hstop.
    - apply stopped_Send; exact Hstop.
    - unfold OnMessageReceived; rewrite Hstop; intros t; left; reflexivity.
    - unfold OnConnectionLost; rewrite Hstop; intros t; left; reflexivity.
    - unfold message_sent; destruct f; intros []; left; reflexivity.
    - apply stopped_RemoveNode; exact Hstop.
    - destruct t; cbn [run_task].
      + unfold no_new_wait, DoOnMessageReceived. by_cases_with Hstop.
      + rewrite stopped_DoOnConnectionLost by exact Hstop. intros t; left; reflexivity.
      + unfold no_new_wait, send_result, NotifyNetworkStatus. by_cases_with Hstop.
      + apply stopped_wake; exact Hstop.
    - unfold expire. destruct (waiter (get_timer t st)) as [h0|] eqn:Hw;
        [|intros t'; left; reflexivity].
      set (s := put_timer t _ _).
      assert (Hs : running_ s = false) by (unfold s; destruct t; exact Hstop).
      assert (Hts : no_new_wait st s).
      { intros t'. destruct t, t'; cbn; auto. }
      eapply no_new_wait_trans; [exact Hts | apply stopped_wake; exact Hs]. }
  intros t h Hw. destruct (H t) as [E | N]; [rewrite <- E; exact Hw | congruence].
Qed.

(** ** More on [Send] *)

Section SendEnvelope.

Variable P : Parameters.
Variable RC : ReturnCodes.
Variables destination claim : NodeId.
Variable payload : String.string.
Variable response_functor : option Callback.
Variable timeout : Z.
Variables is_direct is_cacheable : bool.
Variable st : Impl.

Let st' := Send P destination claim payload response_functor timeout
                is_direct is_cacheable st.

(** What [Send] writes into every message, whatever its route. *)
Definition node_level_request (m : Message) : Prop :=
  destination_id m = Some destination
  /\ routing_message m = Some false
  /\ data m = [payload]
  /\ type m = Some kNodeLevel
  /\ cacheable m = Some is_cacheable
  /\ direct m = Some is_direct
  /\ client_node m = Some (client_mode st)
  /\ request m = Some true
  /\ msg_hops_to_live m = Some (hops_to_live P)
  /\ group_claim m = (if IsZero claim then None else Some claim).

Lemma Send_message_contents :
  let m := fst (Send_message P destination claim payload response_functor timeout
                             is_direct is_cacheable st) in
  node_level_request m
  /\ relay_id m = None /\ relay_connection_id m = None /\ source_id m = None.
Proof.
  unfold node_level_request, Send_message, AddTask.
  destruct is_direct, response_functor, (IsZero claim); repeat split.
Qed.

(** Brings a validated [Send] to [Send_route] on the prepared message. *)
Ltac prepared_send Hv m0 tm Hc :=
  let E := fresh "E" in
  let F := fresh "F" in
  pose proof (Send_valid_unfold P destination claim payload response_functor timeout
                is_direct is_cacheable st Hv) as E;
  pose proof (Send_message_frame P destination claim payload response_functor timeout
                is_direct is_cacheable st) as F;
  pose proof Send_message_contents as Hc;
  cbv zeta in E, F, Hc; unfold st'; rewrite E, F; clear E F;
  set (m0 := fst _) in *; set (tm := timer_ _); clearbody m0 tm.

(** Every validated [Send] hands over one node-level request with the given
    destination, payload and flags, the node's client mode, the configured
    hops to live, and the group claim unless it is zero.  A message sent
    through the bootstrap relay carries the relay fields and no source id; a
    message routed by the table or delivered locally carries the node's id as
    source and no relay field. *)
Theorem Send_envelope_contents :
  valid_send P destination payload ->
  exists m,
    handed_over st st' m
    /\ node_level_request m
    /\ if kAnonymousNode_ st || (RoutingTable.Size (routing_table_ st) =? 0)
       then source_id m = None
            /\ relay_id m = Some (kNodeId_ st)
            /\ relay_connection_id m = Some (this_node_relay_connection_id st)
       else source_id m = Some (kNodeId_ st)
            /\ relay_id m = None
            /\ relay_connection_id m = None.
Proof.
  intros Hv. prepared_send Hv m0 tm Hc.
  destruct Hc as (Hreq & Hr1 & Hr2 & Hsrc).
  destruct (Send_route_cases destination st m0 tm)
    as [(Hc & Htr & _) | [(Hc & _ & Htr & _) | (Hc & _ & Hst)]]; rewrite Hc.
  - eexists; split; [apply to_bootstrap, new_events_app; exact Htr|].
    split; [exact Hreq|]. split; [exact Hsrc|]. split; reflexivity.
  - eexists; split; [apply to_closest_node, new_events_app; exact Htr|].
    split; [exact Hreq|]. split; [reflexivity|]. split; assumption.
  - exists (set_source_id (kNodeId_ st) m0). split.
    + apply to_self.
      rewrite (Send_route_timer destination m0 (set_timer tm st)); simpl.
      rewrite Hst. destruct st; reflexivity.
    + split; [exact Hreq|]. split; [reflexivity|]. split; assumption.
Qed.

(** A running node that is not a client and sends to its own id gets the
    request back through the io service: the task that [Send] queues, once
    run, adds the node's own id to the random-node helper and hands the
    message, with the node as source and destination, to the message
    handler.  Nothing goes to the transport. *)
Theorem Send_to_self_is_handled_locally :
  forall o : BootstrapOutcome,
    valid_send P destination payload ->
    running_ st = true ->
    kAnonymousNode_ st = false ->
    client_mode st = false ->
    routing_table_ st <> [] ->
    destination = kNodeId_ st ->
    exists m task,
      new_tasks st st' = [task]
      /\ new_events st st' = []
      /\ new_events st' (run_task P RC task o st')
         = [EvRandomNodeAdd (kNodeId_ st); EvHandleMessage m]
      /\ node_level_request m
      /\ source_id m = Some (kNodeId_ st).
Proof.
  intros o Hv Hrun Hanon Hclient Hrt Hself. prepared_send Hv m0 tm Hc.
  destruct Hc as (Hreq & _).
  assert (Hroute : Send_route destination m0 (set_timer tm st)
                   = post (RunDoOnMessageReceived
                             (SerializeAsString (set_source_id (kNodeId_ st) m0)))
                          (set_timer tm st)).
  { unfold Send_route, OnMessageReceived; simpl.
    rewrite Hanon, Hclient, Hrun, Hself, Z.eqb_refl; simpl.
    replace (RoutingTable.Size (routing_table_ st) =? 0) with false
      by (symmetry; apply Size_nonzero; exact Hrt).
    reflexivity. }
  rewrite Hroute.
  exists (set_source_id (kNodeId_ st) m0).
  exists (RunDoOnMessageReceived (SerializeAsString (set_source_id (kNodeId_ st) m0))).
  split; [unfold new_tasks; simpl; apply skipn_app_exact|].
  split; [apply new_events_same; reflexivity|].
  split; [|split; [exact Hreq | reflexivity]].
  apply new_events_app.
  cbn [run_task]. unfold DoOnMessageReceived; cbn [SerializeAsString ParseFromString].
  destruct Hreq as (_ & _ & _ & _ & _ & _ & Hcl & _).
  change (client_node (set_source_id (kNodeId_ st) m0)) with (client_node m0).
  rewrite Hcl, Hclient. simpl. rewrite Hanon. simpl.
  replace (IsZero (kNodeId_ st)) with false;
    [simpl; rewrite <- app_assoc; reflexivity|].
  symmetry; apply IsZero_false. rewrite <- Hself. exact (proj1 Hv).
Qed.

End SendEnvelope.

(** ** Removal by the routing table *)


(** ** The setup loop below its bound *)

Section BelowBound.

Variable P : Parameters.
Variable RC : ReturnCodes.
Variable o : BootstrapOutcome.
Variable st : Impl.

Hypothesis running : running_ st = true.
Hypothesis no_peer : routing_table_ st = [].
Hypothesis interval_nonneg : 0 <= find_close_node_interval P.

(** The node after the first call of [FindClosestNode] and [k] wakes of the
    setup timer. *)
Definition after_wakes (k : nat) : Impl :=
  Nat.iter k (expire P RC setup_timer o) (FindClosestNode P success 0 st).

Lemma after_wakes_invariant (k : nat) :
  Z.of_nat k < maximum_find_close_node_failures P ->
  let s := after_wakes k in
  trace_ s = trace_ st ++ repeat (find_closest_request st) (S k)
  /\ setup_timer_ s
     = mkDeadlineTimer (now_ st + (Z.of_nat k + 1) * find_close_node_interval P)
                       (Some (WakeSetup (Z.of_nat k + 1)))
  /\ re_bootstrap_timer_ s = re_bootstrap_timer_ st
  /\ recovery_timer_ s = recovery_timer_ st
  /\ routing_table_ s = []
  /\ running_ s = true
  /\ now_ s = now_ st + Z.of_nat k * find_close_node_interval P
  /\ find_closest_request s = find_closest_request st.
Proof.
  induction k as [|k IH]; intros Hk; cbv zeta.
  - unfold after_wakes; simpl Nat.iter.
    assert (E : FindClosestNode P success 0 st = send_find_closest P 0 st)
      by (unfold FindClosestNode; rewrite running; reflexivity).
    rewrite E; clear E.
    destruct (send_find_closest_spec P 0 st running)
      as (Htr & Hset & Hrec & Hreb & Hrt & Hr & Hnow & Hreq).
    split; [exact Htr|].
    split; [rewrite Hset; f_equal; lia|].
    split; [exact Hreb|]. split; [exact Hrec|].
    split; [rewrite Hrt; exact no_peer|]. split; [exact Hr|].
    split; [rewrite Hnow; lia | exact Hreq].
  - destruct (IH ltac:(lia)) as (Htr & Hset & Hreb & Hrec & Hrt & Hr & Hnow & Hreq).
    unfold after_wakes in *; simpl Nat.iter.
    set (s := Nat.iter k _ _) in *.
    rewrite (expire_setup P RC o (Z.of_nat k + 1) s) by (rewrite Hset; reflexivity).
    set (s1 := at_expiry setup_timer s).
    assert (Hr1 : running_ s1 = true) by exact Hr.
    assert (Hnow1 : now_ s1 = now_ st + (Z.of_nat k + 1) * find_close_node_interval P).
    { unfold s1, at_expiry; simpl. rewrite Hset, Hnow; simpl. lia. }
    assert (E : FindClosestNode P success (Z.of_nat k + 1) s1
                = send_find_closest P (Z.of_nat k + 1) s1).
    { unfold FindClosestNode. rewrite Hr1; cbn [negb is_aborted].
      replace (Z.of_nat k + 1 =? 0) with false by (symmetry; apply Z.eqb_neq; lia).
      replace (0 <? RoutingTable.Size (routing_table_ s1)) with false
        by (change (routing_table_ s1) with (routing_table_ s); rewrite Hrt; reflexivity).
      replace (maximum_find_close_node_failures P <=? Z.of_nat k + 1) with false
        by (symmetry; apply Z.leb_gt; lia).
      reflexivity. }
    rewrite E; clear E.
    destruct (send_find_closest_spec P (Z.of_nat k + 1) s1 Hr1)
      as (Htr' & Hset' & Hrec' & Hreb' & Hrt' & Hr' & Hnow' & Hreq').
    assert (Hreq1 : find_closest_request s1 = find_closest_request st)
      by (rewrite <- Hreq; reflexivity).
    split.
    { rewrite Htr', Hreq1. change (trace_ s1) with (trace_ s). rewrite Htr.
      rewrite <- app_assoc. f_equal.
      change (repeat (find_closest_request st) (S (S k)))
        with (find_closest_request st :: repeat (find_closest_request st) (S k)).
      symmetry; apply repeat_cons. }
    split; [rewrite Hset', Hnow1; f_equal; [lia | f_equal; f_equal; lia]|].
    split; [rewrite Hreb'; exact Hreb|]. split; [rewrite Hrec'; exact Hrec|].
    split; [rewrite Hrt'; exact Hrt|]. split; [exact Hr'|].
    split; [rewrite Hnow', Hnow1; lia | rewrite Hreq'; exact Hreq1].
Qed.

(** While fewer than [maximum_find_close_node_failures] wakes have passed
    and no peer has been admitted, the setup loop only retries: after [k]
    wakes it has sent [k + 1] requests to the bootstrap peer, one every
    [find_close_node_interval], the setup timer waits for the next attempt,
    and neither the re-bootstrap timer nor the recovery timer has been
    touched. *)
Theorem setup_loop_retries_below_bound (k : nat) :
  Z.of_nat k < maximum_find_close_node_failures P ->
  new_events st (after_wakes k) = repeat (find_closest_request st) (S k)
  /\ setup_timer_ (after_wakes k)
     = mkDeadlineTimer (now_ st + (Z.of_nat k + 1) * find_close_node_interval P)
                       (Some (WakeSetup (Z.of_nat k + 1)))
  /\ now_ (after_wakes k) = now_ st + Z.of_nat k * find_close_node_interval P
  /\ re_bootstrap_timer_ (after_wakes k) = re_bootstrap_timer_ st
  /\ recovery_timer_ (after_wakes k) = recovery_timer_ st.
Proof.
  intros Hk.
  destruct (after_wakes_invariant k Hk) as (Htr & Hset & Hreb & Hrec & _ & _ & Hnow & _).
  split; [apply new_events_app; exact Htr|].
  repeat split; assumption.
Qed.

End BelowBound.

(** ** Join over a table of any size *)

(** [BootstrapFromTheseEndpoints] reaches [DoJoin] with an empty routing
    table exactly when the table held at most one peer. *)
Theorem BootstrapFromTheseEndpoints_empties_small_tables (st : Impl) :
  RoutingTable.Size (routing_table_ st) < 2 ^ 16 ->
  (routing_table_ (BootstrapFromTheseEndpoints_drop st) = []
   <-> RoutingTable.Size (routing_table_ st) <= 1).
Proof.
  intros Hbound.
  pose proof (BootstrapFromTheseEndpoints_keeps_half st Hbound) as Hhalf.
  rewrite <- Size_zero, Hhalf.
  assert (Hpos : 0 <= RoutingTable.Size (routing_table_ st))
    by (unfold RoutingTable.Size; lia).
  set (n := RoutingTable.Size (routing_table_ st)) in *.
  pose proof (Z.div_mod n 2 ltac:(lia)) as Hdm.
  pose proof (Z.mod_pos_bound n 2 ltac:(lia)) as Hm.
  rewrite Z.eqb_eq. split; intros H; lia.
Qed.

(** ** Zero-state join *)

(** What the transport and the other tasks of the io service answer while
    [ZeroStateJoin] runs: the outcome of [network_.Bootstrap], the results of
    [network_.GetAvailableEndpoint] and [network_.Add], and the routing table
    as the node finds it after each [Sleep] of the polling loop (peers are
    admitted by [ValidateAndAddToRoutingTable] and the message handler, which
    are not among the sources). *)
Record ZeroStateAnswers := mkZeroStateAnswers {
  zs_bootstrap : BootstrapOutcome;
  zs_available_endpoint : Z;
  zs_add : Z;
  zs_table : nat -> RoutingTable.t
}.

(** The calls that only [ZeroStateJoin] makes. *)
Inductive ZeroStateCall :=
| ZsGetAvailableEndpoint (peer : NodeId)
| ZsAdd (peer : NodeId)
| ZsValidateAndAddToRoutingTable (peer connection : NodeId).

(** [Sleep(boost::posix_time::milliseconds(ms))]. *)
Definition Sleep (ms : Z) (st : Impl) : Impl := set_now (now_ st + ms) st.

(** Lines 288-291: [do { Sleep(100 ms); } while (Size() == 0 && ++poll_count <
    50)] with [poll_count] a [uint8_t].  [sleeps] counts the sleeps made so
    far; the counter and the number of sleeps are returned with the state. *)
Fixpoint poll_table (fuel : nat) (poll_count : Z) (sleeps : nat)
                    (table : nat -> RoutingTable.t) (st : Impl) : Z * nat * Impl :=
  let sleeps := S sleeps in
  let st := set_routing_table (table sleeps) (Sleep 100 st) in
  if RoutingTable.Size (routing_table_ st) =? 0 then
    let poll_count := (poll_count + 1) mod 2 ^ 8 in
    if poll_count <? 50 then
      match fuel with
      | O => (poll_count, sleeps, st)
      | S fuel => poll_table fuel poll_count sleeps table st
      end
    else (poll_count, sleeps, st)
  else (poll_count, sleeps, st).

Section ZeroState.

Variable P : Parameters.
Variable RC : ReturnCodes.

(** [rudp::kBootstrapConnectionAlreadyExists] (rudp/return_codes.h). *)
Variable kBootstrapConnectionAlreadyExists : Z.

(** Lines 235-312.  The result is the returned code, the calls made on the
    transport besides [Bootstrap], and the node.  The assertions are not
    compiled into the model; the local endpoint only reaches the transport.
    The table read after the loop (line 292) is the one its last poll
    found. *)
Definition ZeroStateJoin (functors : Functors) (local_endpoint peer_endpoint : Endpoint)
                         (peer_info : NodeInfo) (answers : ZeroStateAnswers) (st : Impl)
  : Z * list ZeroStateCall * Impl :=
  let st := ConnectFunctors functors st in
  let '(result, st) := Bootstrap [peer_endpoint] (zs_bootstrap answers) st in
  if negb (result =? kSuccess) then (result, [], st)
  else
    let st := Sleep 100 st in
    let calls := [ZsGetAvailableEndpoint (node_id peer_info)] in
    let result := zs_available_endpoint answers in
    if negb (result =? kBootstrapConnectionAlreadyExists) then (result, calls, st)
    else
      let calls := calls ++ [ZsAdd (node_id peer_info)] in
      let result := zs_add answers in
      if negb (result =? kSuccess) then (result, calls, st)
      else
        let calls :=
          calls ++ [ZsValidateAndAddToRoutingTable (node_id peer_info) (node_id peer_info)] in
        let '(_, _, st) := poll_table 50 0 0 (zs_table answers) st in
        if negb (RoutingTable.Size (routing_table_ st) =? 0) then
          if negb (running_ st) then (kNetworkShuttingDown RC, calls, st)
          else
            (kSuccess, calls,
             async_wait recovery_timer (WakeRecovery false)
               (expires_from_now recovery_timer (find_node_interval P) st))
        else (kNotJoined RC, calls, st).

Lemma poll_table_step (table : nat -> RoutingTable.t) fuel poll_count sleeps st :
  poll_table (S fuel) poll_count sleeps table st
  = (let st := set_routing_table (table (S sleeps)) (Sleep 100 st) in
     if RoutingTable.Size (routing_table_ st) =? 0 then
       if (poll_count + 1) mod 2 ^ 8 <? 50
       then poll_table fuel ((poll_count + 1) mod 2 ^ 8) (S sleeps) table st
       else ((poll_count + 1) mod 2 ^ 8, S sleeps, st)
     else (poll_count, S sleeps, st)).
Proof. reflexivity. Qed.

(** The polling loop leaves through its condition within 50 sleeps: it stops
    at the first sleep after which the table is not empty, or at the 50th. *)
Lemma poll_table_stops (table : nat -> RoutingTable.t) (fuel : nat) :
  forall (n : nat) (st : Impl),
    (n + S fuel = 50)%nat ->
    let '(poll_count, k, s) := poll_table (S fuel) (Z.of_nat n) n table st in
    (n < k <= 50)%nat
    /\ routing_table_ s = table k
    /\ (forall j, (n < j < k)%nat -> table j = [])
    /\ (table k = [] -> k = 50%nat /\ poll_count = 50)
    /\ now_ s = now_ st + 100 * Z.of_nat (k - n)
    /\ same_identity st s
    /\ (forall t, get_timer t s = get_timer t st)
    /\ trace_ s = trace_ st
    /\ functors_ s = functors_ st.
Proof.
  induction fuel as [|fuel IH]; intros n st Hn.
  - assert (n = 49%nat) by lia; subst n.
    cbn [poll_table]. change (routing_table_ (set_routing_table (table 50%nat) (Sleep 100 st)))
      with (table 50%nat).
    destruct (RoutingTable.Size (table 50%nat) =? 0) eqn:Hz.
    + apply Size_zero in Hz. change ((Z.of_nat 49 + 1) mod 2 ^ 8 <? 50) with false.
      cbv iota. repeat split; try lia; try reflexivity; try assumption; try congruence;
        try (intros j Hj; lia); try (intros []; reflexivity).
    + apply Size_nonzero in Hz.
      repeat split; try lia; try reflexivity; try assumption; try congruence;
        try (intros j Hj; lia); try (intros []; reflexivity).
  - rewrite poll_table_step; cbv zeta.
    set (s1 := set_routing_table (table (S n)) (Sleep 100 st)).
    change (routing_table_ s1) with (table (S n)).
    destruct (RoutingTable.Size (table (S n)) =? 0) eqn:Hz.
    + apply Size_zero in Hz.
      assert (Hpc : (Z.of_nat n + 1) mod 2 ^ 8 = Z.of_nat (S n))
        by (rewrite Z.mod_small; [lia | change (2 ^ 8) with 256; lia]).
      rewrite Hpc.
      replace (Z.of_nat (S n) <? 50) with true by (symmetry; apply Z.ltb_lt; lia).
      specialize (IH (S n) s1 ltac:(lia)).
      destruct (poll_table (S fuel) (Z.of_nat (S n)) (S n) table s1)
        as [[poll_count k] s].
      destruct IH as (Hk & Hrt & Hempty & Hlast & Hnow & Hid & Ht & Htr & Hfun).
      split; [lia|]. split; [exact Hrt|].
      split; [intros j Hj; destruct (Nat.eq_dec j (S n)) as [-> | Hne];
              [exact Hz | apply Hempty; lia]|].
      split; [exact Hlast|].
      split; [rewrite Hnow; change (now_ s1) with (now_ st + 100); lia|].
      split; [exact Hid|]. split; [|split; [exact Htr | exact Hfun]].
      intros t; rewrite Ht; destruct t; reflexivity.
    + apply Size_nonzero in Hz.
      repeat split; try lia; try reflexivity; try assumption; try congruence;
        try (intros j Hj; lia); try (intros []; reflexivity).
      replace (S n - n)%nat with 1%nat by lia. reflexivity.
Qed.

End ZeroState.

Section ZeroStateProperties.

Variable P : Parameters.
Variable RC : ReturnCodes.
Variable kBootstrapConnectionAlreadyExists : Z.
Variable functors : Functors.
Variables local_endpoint peer_endpoint : Endpoint.
Variable peer_info : NodeInfo.
Variable answers : ZeroStateAnswers.
Variable st : Impl.

Let outcome := ZeroStateJoin P RC kBootstrapConnectionAlreadyExists functors
                             local_endpoint peer_endpoint peer_info answers st.
Let result := fst (fst outcome).
Let calls := snd (fst outcome).
Let final := snd outcome.

(** The three steps of [ZeroStateJoin] that can fail. *)
Definition zero_state_attached : Prop :=
  bootstrap_result (zs_bootstrap answers) = kSuccess
  /\ zs_available_endpoint answers = kBootstrapConnectionAlreadyExists
  /\ zs_add answers = kSuccess.

(** [ZeroStateJoin] gives up at the first step that fails: it returns the
    code of that step, makes none of the later calls, does not ask for the
    peer to be added to the routing table, and leaves the table and the
    timers as they were. *)
Theorem ZeroStateJoin_gives_up_at_first_failure :
  ~ zero_state_attached ->
  result
  = (if negb (bootstrap_result (zs_bootstrap answers) =? kSuccess)
     then bootstrap_result (zs_bootstrap answers)
     else if negb (zs_available_endpoint answers =? kBootstrapConnectionAlreadyExists)
          then zs_available_endpoint answers
          else zs_add answers)
  /\ calls
     = (if negb (bootstrap_result (zs_bootstrap answers) =? kSuccess) then []
        else if negb (zs_available_endpoint answers =? kBootstrapConnectionAlreadyExists)
             then [ZsGetAvailableEndpoint (node_id peer_info)]
             else [ZsGetAvailableEndpoint (node_id peer_info); ZsAdd (node_id peer_info)])
  /\ new_events st final = [EvBootstrap [peer_endpoint]]
  /\ routing_table_ final = routing_table_ st
  /\ (forall t, get_timer t final = get_timer t st).
Proof.
  intros Hfail. unfold result, calls, final, outcome, ZeroStateJoin, Bootstrap.
  destruct (bootstrap_result (zs_bootstrap answers) =? kSuccess) eqn:H1;
    pose proof H1 as H1'; unfold kSuccess in H1'; rewrite ?H1, ?H1'; cbn [negb].
  2:{ split; [reflexivity|]. split; [reflexivity|].
      split; [apply new_events_app; reflexivity|].
      split; [reflexivity|]. intros []; reflexivity. }
  destruct (zs_available_endpoint answers =? kBootstrapConnectionAlreadyExists) eqn:H2;
    cbn [negb].
  2:{ split; [reflexivity|]. split; [reflexivity|].
      split; [apply new_events_app; reflexivity|].
      split; [reflexivity|]. intros []; reflexivity. }
  destruct (zs_add answers =? kSuccess) eqn:H3; cbn [negb].
  2:{ split; [reflexivity|]. split; [reflexivity|].
      split; [apply new_events_app; reflexivity|].
      split; [reflexivity|]. intros []; reflexivity. }
  exfalso; apply Hfail. unfold zero_state_attached.
  apply Z.eqb_eq in H1, H2, H3. auto.
Qed.

(** Once attached to its peer, [ZeroStateJoin] asks for the peer to be added
    and polls the routing table every 100 ms, at most 50 times: it stops at
    the first poll [k] that finds a peer, or at the 50th.  With a peer in the
    table it returns [kSuccess] and arms the recovery timer with
    [find_node_interval] (or returns [kNetworkShuttingDown], arming nothing,
    if the node has been stopped); with an empty table after 50 polls it
    returns [kNotJoined] and arms nothing. *)
Theorem ZeroStateJoin_polls_for_the_peer :
  zero_state_attached ->
  exists k : nat,
    (1 <= k <= 50)%nat
    /\ (forall j, (1 <= j < k)%nat -> zs_table answers j = [])
    /\ (zs_table answers k = [] -> k = 50%nat)
    /\ routing_table_ final = zs_table answers k
    /\ now_ final = now_ st + 100 + 100 * Z.of_nat k
    /\ calls = [ZsGetAvailableEndpoint (node_id peer_info); ZsAdd (node_id peer_info);
                ZsValidateAndAddToRoutingTable (node_id peer_info) (node_id peer_info)]
    /\ result
       = (if RoutingTable.Size (zs_table answers k) =? 0 then kNotJoined RC
          else if running_ st then kSuccess else kNetworkShuttingDown RC)
    /\ recovery_timer_ final
       = (if negb (RoutingTable.Size (zs_table answers k) =? 0) && running_ st
          then mkDeadlineTimer (now_ final + find_node_interval P)
                               (Some (WakeRecovery false))
          else recovery_timer_ st)
    /\ setup_timer_ final = setup_timer_ st
    /\ re_bootstrap_timer_ final = re_bootstrap_timer_ st.
Proof.
  intros (H1 & H2 & H3).
  unfold result, calls, final, outcome, ZeroStateJoin, Bootstrap.
  rewrite H1, H2, H3, !Z.eqb_refl; cbn [negb app].
  change (kSuccess =? kSuccess) with true; cbv iota.
  set (s0 := Sleep 100 _).
  pose proof (poll_table_stops (zs_table answers) 49 0 s0 eq_refl) as Hpoll.
  change (Z.of_nat 0) with 0 in Hpoll.
  destruct (poll_table 50 0 0 (zs_table answers) s0) as [[poll_count k] s].
  destruct Hpoll as (Hk & Hrt & Hempty & Hlast & Hnow & Hid & Ht & _).
  destruct Hid as (_ & _ & _ & Hrun).
  change (running_ s0) with (running_ st) in Hrun.
  change (now_ s0) with (now_ st + 100) in Hnow.
  rewrite Nat.sub_0_r in Hnow.
  exists k. split; [lia|].
  split; [intros j Hj; apply Hempty; lia|].
  split; [intros Hz; apply (Hlast Hz)|].
  rewrite Hrt, Hrun.
  destruct (RoutingTable.Size (zs_table answers k) =? 0); cbn [negb andb fst snd].
  - repeat split; try assumption.
    + exact (Ht recovery_timer). + exact (Ht setup_timer). + exact (Ht re_bootstrap_timer).
  - destruct (running_ st) eqn:Hr; cbn [negb fst snd].
    + destruct (arm_timer recovery_timer (find_node_interval P) (WakeRecovery false) s)
        as (Harm & Hother & _ & _ & Hrt' & _ & Hnow' & _).
      split; [rewrite Hrt'; exact Hrt|]. split; [rewrite Hnow'; exact Hnow|].
      split; [reflexivity|]. split; [reflexivity|].
      split; [rewrite Hnow'; exact Harm|].
      pose proof (Hother setup_timer ltac:(discriminate)) as Hs1.
      pose proof (Hother re_bootstrap_timer ltac:(discriminate)) as Hs2.
      cbn [get_timer] in Hs1, Hs2.
      split; [rewrite Hs1; exact (Ht setup_timer)|].
      rewrite Hs2. exact (Ht re_bootstrap_timer).
    + repeat split; try assumption.
      * exact (Ht recovery_timer). * exact (Ht setup_timer).
      * exact (Ht re_bootstrap_timer).
Qed.

End ZeroStateProperties.

(** ** [node_info] (include/maidsafe/routing/node_info.h) *)

Module NodeInfoH.

(** [struct node_info]: the id, the public key (opaque here) and the rank, an
    [int32_t]. *)
Record node_info := mk_node_info {
  id : NodeId;
  public_key : Z;
  rank : Z
}.

(** The six comparison operators; all of them look at the id only. *)
Definition eq (a b : node_info) : bool := id a =? id b.
Definition ne (a b : node_info) : bool := negb (eq a b).
Definition lt (a b : node_info) : bool := id a <? id b.
Definition gt (a b : node_info) : bool := id a >? id b.
Definition le (a b : node_info) : bool := negb (gt a b).
Definition ge (a b : node_info) : bool := negb (lt a b).

(** The operators agree with one another: exactly one of [<], [==] and [>]
    holds, [<=] is [<] or [==], [>=] is [>] or [==], and [>] is [<] with the
    operands exchanged.  Two entries with the same id are equal whatever
    their keys and ranks, so [std::unique] keeps one entry per id. *)
Theorem operators_agree (a b : node_info) :
  (lt a b = true /\ eq a b = false /\ gt a b = false
   \/ lt a b = false /\ eq a b = true /\ gt a b = false
   \/ lt a b = false /\ eq a b = false /\ gt a b = true)
  /\ le a b = lt a b || eq a b
  /\ ge a b = gt a b || eq a b
  /\ gt a b = lt b a
  /\ ne a b = lt a b || gt a b
  /\ (eq a b = true <-> id a = id b).
Proof.
  unfold le, ge, ne, lt, gt, eq.
  rewrite Z.gtb_ltb.
  destruct (Z.ltb_spec (id a) (id b)), (Z.ltb_spec (id b) (id a)),
    (Z.eqb_spec (id a) (id b)); cbn; try lia;
    (split; [tauto|]); repeat split; auto; try lia; try discriminate.
Qed.

End NodeInfoH.

(** ** The further properties on concrete nodes *)

(** A joined node with one client attached through connection 170. *)
Definition node_with_client : Impl :=
  set_non_routing_table [mkNodeInfo 70 170] joined_node.


(** An anonymous node that has bootstrapped. *)
Definition anonymous_node : Impl :=
  set_bootstrap_connection_id 900
    (set_this_node_relay_connection_id 901
       (set_functors (mkFunctors (Some 1%nat) (Some 2%nat) None None None)
          (construct 5 true true))).

(** A transport on which the bootstrap fails with code -7. *)
Definition bootstrap_failed : BootstrapOutcome := mkOutcome (-7) 0 0.

Lemma unknown_connection_witness :
  DoOnConnectionLost default_parameters default_return_codes 999 joined_node = joined_node.
Proof.
  apply (DoOnConnectionLost_unknown_connection default_parameters default_return_codes
           999 joined_node);
    [reflexivity | reflexivity | reflexivity | right; discriminate].
Defined.

Lemma lost_client_witness :
  non_routing_table_
    (DoOnConnectionLost default_parameters default_return_codes 170 node_with_client) = []
  /\ routing_table_
       (DoOnConnectionLost default_parameters default_return_codes 170 node_with_client)
     = routing_table_ node_with_client.
Proof.
  destruct (DoOnConnectionLost_client default_parameters default_return_codes 170
              node_with_client eq_refl (mkNodeInfo 70 170) eq_refl eq_refl
              ltac:(discriminate))
    as (Hst & _ & _ & Hrt & _).
  split; [rewrite Hst; reflexivity | exact Hrt].
Defined.


Lemma DoBootstrap_replaces_connection_witness :
  new_events sample_node (snd (DoBootstrap default_return_codes [77] bootstrap_failed
                                           sample_node))
  = [EvRemove 900; EvBootstrap [77]]
  /\ bootstrap_connection_id
       (snd (DoBootstrap default_return_codes [77] bootstrap_failed sample_node))
     = ZeroId.
Proof.
  destruct (DoBootstrap_replaces_connection default_return_codes [77] bootstrap_failed
              sample_node eq_refl) as (_ & Hev & _ & Hfail & _).
  split; [exact Hev | apply Hfail; discriminate].
Defined.

Lemma DoJoin_events_witness :
  new_events sample_node
    (DoJoin default_parameters default_return_codes [77] bootstrap_ok sample_node)
  = [EvRemove 900; EvBootstrap [77];
     EvSendToDirect (FindNodes 5 5 1 true 901) 900 LogFindNodesSent;
     EvNetworkStatus 2%nat 0].
Proof.
  exact (proj1 (DoJoin_events default_parameters default_return_codes [77] bootstrap_ok
                  sample_node eq_refl)).
Defined.

Lemma DoJoin_shutting_down_witness :
  new_events (destroy sample_node)
    (DoJoin default_parameters default_return_codes [77] bootstrap_ok (destroy sample_node))
  = [EvNetworkStatus 2%nat (-1)].
Proof.
  exact (DoJoin_shutting_down default_parameters default_return_codes [77] bootstrap_ok
           (destroy sample_node) eq_refl).
Defined.

Lemma Join_reports_once_witness :
  statuses
    (new_events sample_node
       (Join default_parameters default_return_codes
             (mkFunctors None (Some 9%nat) None None None) [77] bootstrap_failed sample_node))
  = [(9%nat, -7)].
Proof.
  exact (proj2 (Join_reports_once default_parameters default_return_codes [77]
                  bootstrap_failed sample_node
                  (mkFunctors None (Some 9%nat) None None None) eq_refl eq_refl)).
Defined.

Lemma anonymous_session_ends_witness :
  new_events anonymous_node
    (DoOnConnectionLost default_parameters default_return_codes 900 anonymous_node)
  = [EvNetworkStatus 2%nat (-3)]
  /\ bootstrap_connection_id
       (DoOnConnectionLost default_parameters default_return_codes 900 anonymous_node)
     = ZeroId.
Proof.
  destruct (anonymous_session_ends default_parameters default_return_codes anonymous_node
              eq_refl ltac:(discriminate) eq_refl eq_refl eq_refl)
    as (Hev & Hb & _).
  split; [exact Hev | exact Hb].
Defined.



Lemma stopped_node_arms_no_timer_witness :
  waiter (setup_timer_ (destroy (searching_node 0))) = Some (WakeSetup 1).
Proof.
  exact (stopped_node_arms_no_timer default_parameters default_return_codes
           (MessageArrived Malformed) (destroy (searching_node 0)) eq_refl
           setup_timer (WakeSetup 1) eq_refl).
Defined.

Lemma Send_envelope_contents_witness :
  exists m,
    handed_over joined_node
      (Send default_parameters 9 0 Samples.hello None 1000 true false joined_node) m
    /\ data m = [Samples.hello]
    /\ source_id m = Some 5
    /\ relay_id m = None.
Proof.
  assert (Hv : valid_send default_parameters 9 Samples.hello).
  { repeat split; [discriminate | simpl; lia | simpl; lia]. }
  destruct (Send_envelope_contents default_parameters 9 0 Samples.hello None 1000
              true false joined_node Hv) as (m & Hh & Hreq & Hroute).
  exists m. destruct Hreq as (_ & _ & Hdata & _). simpl in Hroute.
  destruct Hroute as (Hsrc & Hrelay & _).
  repeat split; assumption.
Defined.

Lemma Send_to_self_witness :
  exists m task,
    new_tasks joined_node
      (Send default_parameters 5 0 Samples.hello None 1000 true false joined_node)
    = [task]
    /\ new_events
         (Send default_parameters 5 0 Samples.hello None 1000 true false joined_node)
         (run_task default_parameters default_return_codes task bootstrap_ok
            (Send default_parameters 5 0 Samples.hello None 1000 true false joined_node))
       = [EvRandomNodeAdd 5; EvHandleMessage m].
Proof.
  assert (Hv : valid_send default_parameters 5 Samples.hello).
  { repeat split; [discriminate | simpl; lia | simpl; lia]. }
  destruct (Send_to_self_is_handled_locally default_parameters default_return_codes
              5 0 Samples.hello None 1000 true false joined_node bootstrap_ok Hv
              eq_refl eq_refl eq_refl ltac:(discriminate) eq_refl)
    as (m & task & Ht & _ & Hev & _).
  exists m, task. split; [exact Ht | exact Hev].
Defined.

Lemma setup_loop_retries_witness :
  new_events sample_node
    (after_wakes default_parameters default_return_codes bootstrap_ok sample_node 2)
  = repeat (EvSendToDirect (FindNodes 5 5 1 true 901) 900 LogFindNodesSent) 3
  /\ re_bootstrap_timer_
       (after_wakes default_parameters default_return_codes bootstrap_ok sample_node 2)
     = re_bootstrap_timer_ sample_node.
Proof.
  destruct (setup_loop_retries_below_bound default_parameters default_return_codes
              bootstrap_ok sample_node eq_refl eq_refl ltac:(discriminate) 2 eq_refl)
    as (Hev & _ & _ & Hreb & _).
  split; [exact Hev | exact Hreb].
Defined.

Lemma BootstrapFromTheseEndpoints_small_table_witness :
  routing_table_
    (BootstrapFromTheseEndpoints_drop (set_routing_table [mkNodeInfo 6 106] sample_node))
  = [].
Proof.
  apply (BootstrapFromTheseEndpoints_empties_small_tables
           (set_routing_table [mkNodeInfo 6 106] sample_node));
    [reflexivity | discriminate].
Defined.

(** Answers of a transport on which the zero-state peer is attached and
    appears in the routing table at the third poll. *)
Definition zero_state_answers : ZeroStateAnswers :=
  {| zs_bootstrap := mkOutcome kSuccess 6 901;
     zs_available_endpoint := 7;
     zs_add := kSuccess;
     zs_table := fun k => if (k <? 3)%nat then [] else [mkNodeInfo 6 6] |}.

Lemma ZeroStateJoin_failure_witness :
  fst (fst (ZeroStateJoin default_parameters default_return_codes 7 no_functors
                          1 2 (mkNodeInfo 6 6)
                          (mkZeroStateAnswers bootstrap_failed 0 0 (fun _ => []))
                          (construct 5 false false)))
  = -7.
Proof.
  refine (proj1 (ZeroStateJoin_gives_up_at_first_failure default_parameters
                   default_return_codes 7 no_functors 1 2 (mkNodeInfo 6 6)
                   (mkZeroStateAnswers bootstrap_failed 0 0 (fun _ => []))
                   (construct 5 false false) _)).
  intros (H & _); discriminate H.
Defined.

Lemma ZeroStateJoin_polls_witness :
  exists k : nat,
    (1 <= k <= 50)%nat
    /\ routing_table_
         (snd (ZeroStateJoin default_parameters default_return_codes 7 no_functors
                             1 2 (mkNodeInfo 6 6) zero_state_answers
                             (construct 5 false false)))
       = zs_table zero_state_answers k.
Proof.
  destruct (ZeroStateJoin_polls_for_the_peer default_parameters default_return_codes
              7 no_functors 1 2 (mkNodeInfo 6 6) zero_state_answers
              (construct 5 false false))
    as (k & Hk & _ & _ & Hrt & _).
  - repeat split.
  - exists k; split; [exact Hk | exact Hrt].
Defined.
